(** * playingAroundRAG: chunking, chunk loading and answer display

    A shallow embedding of [chunking.py], [setupLangchain.py] and of
    [load_env_file], [ask_question] and [main] of [query.py] and
    [setupRAG.py], with the properties their specification states about
    them and further properties of the code.

    Python values are modelled as follows.
    - [str] is [string], one [ascii] per character (so the characters are
      the code points below 256); [len], slicing and [+] are
      [String.length], [slice_to]/[slice_from] and [+:+].
    - [int] is [Z]; lengths and indices are [nat].
    - what [json.load] returns is [json]; a [dict] is a [gmap string json].
    - a raised exception is [Raise e] in the result type [res]; only
      subclasses of [Exception] are modelled.
    - the file system, the logger and the clock are fields of [world],
      threaded through every effectful function in the monad [M].
    - the library [unstructured] is not part of the sources: its
      constructors and [chunk_by_title] are the fields of a parameter of the
      functions that call them.
    - [Path(__file__).parent], the directory of the scripts, is the
      parameter [current_dir] of the functions that read it. *)

From Stdlib Require Import ZArith String Ascii List Lia Floats.
From stdpp Require Import gmap strings list fin_maps pretty.

Set Warnings "-register-all".
Set Default Proof Using "Type".

(** ** Python strings *)

Module PyStr.

(** [s[:n]] *)
Fixpoint slice_to (n : nat) (s : string) : string :=
  match n, s with
  | O, _ => ""
  | S _, EmptyString => ""
  | S n', String c s' => String c (slice_to n' s')
  end.

(** [s[n:]] *)
Fixpoint slice_from (n : nat) (s : string) : string :=
  match n, s with
  | O, _ => s
  | S _, EmptyString => ""
  | S n', String _ s' => slice_from n' s'
  end.

(** [s.rfind('.')], with [None] for Python's -1. *)
Fixpoint rfind_dot (s : string) : option nat :=
  match s with
  | EmptyString => None
  | String c s' =>
      match rfind_dot s' with
      | Some i => Some (S i)
      | None => if Ascii.eqb c "."%char then Some O else None
      end
  end.

(** [s.rfind(ch)] for a character [ch], with [None] for Python's -1. *)
Fixpoint rfind (ch : ascii) (s : string) : option nat :=
  match s with
  | EmptyString => None
  | String c s' =>
      match rfind ch s' with
      | Some i => Some (S i)
      | None => if Ascii.eqb c ch then Some O else None
      end
  end.

(** [c.isspace()] for a character below 256. *)
Definition isspace (c : ascii) : bool :=
  let n := nat_of_ascii c in
  (((9 <=? n) && (n <=? 13)) || ((28 <=? n) && (n <=? 32))
   || (n =? 133) || (n =? 160))%nat.

(** [len(s.split())]: the number of maximal runs of characters that are
    not white space.  [inword] tells whether the previous character was
    part of a word. *)
Fixpoint count_words (inword : bool) (s : string) : nat :=
  match s with
  | EmptyString => O
  | String c s' =>
      if isspace c then count_words false s'
      else if inword then count_words true s'
           else S (count_words true s')
  end.

Definition word_count (s : string) : nat := count_words false s.

(** [s.endswith(p)] *)
Definition endswith (p s : string) : bool :=
  (String.length p <=? String.length s)%nat
  && String.eqb (slice_from (String.length s - String.length p) s) p.

(** [c * n] for a one-character string [c]. *)
Fixpoint repeat (c : ascii) (n : nat) : string :=
  match n with
  | O => ""
  | S n' => String c (repeat c n')
  end.

End PyStr.

(** ** Values read by [json.load] *)

Inductive json : Type :=
| JNull
| JBool (b : bool)
| JInt (z : Z)
| JFloat (f : float)
| JStr (s : string)
| JList (l : list json)
| JDict (d : gmap string json).

(** ** Exceptions *)

Inductive exn : Type :=
| AttributeError (msg : string)
| TypeError (msg : string)
| KeyError (key : string)
| ValueError (msg : string)
| ValidationError (msg : string)
| OSError (msg : string)
| JSONDecodeError (msg : string).

(** [str(e)] *)
Definition exn_str (e : exn) : string :=
  match e with
  | AttributeError m | TypeError m | ValueError m | ValidationError m
  | OSError m | JSONDecodeError m => m
  | KeyError k => "'" +:+ k +:+ "'"
  end.

Inductive res (A : Type) : Type :=
| Ok (a : A)
| Raise (e : exn).
Arguments Ok {A} a.
Arguments Raise {A} e.

Definition res_bind {A B} (r : res A) (f : A -> res B) : res B :=
  match r with
  | Ok a => f a
  | Raise e => Raise e
  end.

(** [for x in l: f(x)] collecting the results, stopping at the first
    exception. *)
Fixpoint res_map {A B} (f : A -> res B) (l : list A) : res (list B) :=
  match l with
  | [] => Ok []
  | x :: l' =>
      match f x with
      | Raise e => Raise e
      | Ok y =>
          match res_map f l' with
          | Raise e => Raise e
          | Ok ys => Ok (y :: ys)
          end
      end
  end.

Module Py.

(** The name Python prints for the type of a value. *)
Definition type_name (v : json) : string :=
  match v with
  | JNull => "NoneType"
  | JBool _ => "bool"
  | JInt _ => "int"
  | JFloat _ => "float"
  | JStr _ => "str"
  | JList _ => "list"
  | JDict _ => "dict"
  end.

(** [bool(v)] *)
Definition truthy (v : json) : bool :=
  match v with
  | JNull => false
  | JBool b => b
  | JInt z => negb (z =? 0)%Z
  | JFloat f => negb (PrimFloat.eqb f PrimFloat.zero)
  | JStr s => negb (String.eqb s "")
  | JList l => match l with [] => false | _ => true end
  | JDict d => negb (size d =? 0)%nat
  end.

Definition no_attribute (v : json) (attr : string) : exn :=
  AttributeError ("'" +:+ type_name v +:+ "' object has no attribute '" +:+ attr +:+ "'").

(** [d.get(k, default)] on a [dict]. *)
Definition dict_get (d : gmap string json) (k : string) (default : json) : json :=
  match d !! k with
  | Some x => x
  | None => default
  end.

(** [v.get(k, default)]: only a [dict] has the method. *)
Definition get (v : json) (k : string) (default : json) : res json :=
  match v with
  | JDict d => Ok (dict_get d k default)
  | _ => Raise (no_attribute v "get")
  end.

(** [for x in v]: the items a loop over [v] visits.  A [dict] yields its
    keys and a [str] its characters; numbers, booleans and [None] are not
    iterable. *)
Definition iter (v : json) : res (list json) :=
  match v with
  | JList l => Ok l
  | JDict d => Ok (JStr <$> (map_to_list d).*1)
  | JStr s => Ok ((λ c, JStr (String c "")) <$> list_ascii_of_string s)
  | _ => Raise (TypeError ("'" +:+ type_name v +:+ "' object is not iterable"))
  end.

End Py.

(** ** Paths *)

(** A [pathlib.PurePosixPath], split into the string of its parent and its
    final component.  A directory is named by its string, which is that of a
    path: not empty, and without a separator at its end unless it is the
    root. *)
Record Path : Type := { parent : string; name : string }.

#[global] Instance Path_eq_dec : EqDecision Path.
Proof. solve_decision. Defined.

#[global] Instance Path_countable : Countable Path :=
  inj_countable' (λ p, (parent p, name p)) (λ '(d, n), {| parent := d; name := n |})
    (λ p, match p with Build_Path _ _ => eq_refl end).

Module PurePath.

(** The place of the suffix in a name: the last dot, at [i], when
    [0 < i < len(name) - 1]; a name has no suffix otherwise. *)
Definition suffix_index (nm : string) : option nat :=
  match PyStr.rfind_dot nm with
  | Some i => if ((0 <? i) && (i <? String.length nm - 1))%nat then Some i else None
  | None => None
  end.

(** [Path.stem]: the name without its suffix. *)
Definition stem (nm : string) : string :=
  match suffix_index nm with
  | Some i => PyStr.slice_to i nm
  | None => nm
  end.

(** [str(p)]: the root and the current directory are not written before
    a name. *)
Definition to_str (p : Path) : string :=
  if String.eqb (name p) "" then parent p
  else if String.eqb (parent p) "/" then "/" +:+ name p
  else if String.eqb (parent p) "." then name p
  else parent p +:+ "/" +:+ name p.

(** The path of a directory given by its string: the name is what follows
    the last separator. *)
Definition of_str (s : string) : Path :=
  match PyStr.rfind "/"%char s with
  | Some i =>
      {| parent := if (i =? 0)%nat then "/" else PyStr.slice_to i s;
         name := PyStr.slice_from (S i) s |}
  | None => {| parent := "."; name := if String.eqb s "." then "" else s |}
  end.

(** [p.with_suffix(sfx)] for a suffix that starts with a dot and holds no
    separator, as both literals of [save_chunks] do. *)
Definition with_suffix (p : Path) (sfx : string) : res Path :=
  if String.eqb (name p) ""
  then Raise (ValueError ("PosixPath('" +:+ to_str p +:+ "') has an empty name"))
  else Ok {| parent := parent p; name := stem (name p) +:+ sfx |}.

(** [dir / nm] for a name [nm] without a separator: an empty component and
    the component [.] are dropped, so that the result is [dir] itself. *)
Definition joinpath (dir nm : string) : Path :=
  if String.eqb nm "" || String.eqb nm "."
  then of_str dir
  else {| parent := dir; name := nm |}.

End PurePath.

(** ** The world: files, logger, clock *)

Inductive level : Type := INFO | WARNING | ERROR.

(** The content of a file, as the calls that wrote it: the argument of an
    [f.write], the text of a [json.dump] of a value, or, for a file that was
    being written when the device failed, the part of the text of [whole]
    that reached the device, which is a proper prefix of it and may be
    empty.  A file holds a JSON document [v] exactly when its content is
    [[Dumped v]]. *)
Inductive fragment : Type :=
| Written (s : string)
| Dumped (v : json)
| Cut (whole : list fragment).

Record world : Type := {
  (** the files, by path *)
  files : gmap Path (list fragment);
  (** records emitted by the logger, oldest first *)
  log : list (level * string);
  (** number of files that can still be written whole before the device
      fails; [None] when it never does *)
  io_budget : option nat;
  (** [datetime.now().isoformat()] at its k-th call, and the number of calls
      made so far *)
  clock : nat -> string;
  ticks : nat;
  (** what the opening of the log file [chunking.log] raises, when it
      cannot be opened *)
  logging_error : option exn;
  (** the message of the decoder of [json] for a content that is no JSON
      document *)
  json_error : list fragment -> string;
}.

Definition set_files (f : gmap Path (list fragment)) (w : world) : world :=
  {| files := f; log := log w;
     io_budget := io_budget w; clock := clock w; ticks := ticks w;
     logging_error := logging_error w; json_error := json_error w |}.

Definition set_log (l : list (level * string)) (w : world) : world :=
  {| files := files w; log := l;
     io_budget := io_budget w; clock := clock w; ticks := ticks w;
     logging_error := logging_error w; json_error := json_error w |}.

Definition set_io_budget (b : option nat) (w : world) : world :=
  {| files := files w; log := log w;
     io_budget := b; clock := clock w; ticks := ticks w;
     logging_error := logging_error w; json_error := json_error w |}.

Definition set_ticks (t : nat) (w : world) : world :=
  {| files := files w; log := log w;
     io_budget := io_budget w; clock := clock w; ticks := t;
     logging_error := logging_error w; json_error := json_error w |}.

(** A computation that reads and changes the world and may raise. *)
Definition M (A : Type) : Type := world -> res A * world.

#[global] Instance M_ret : MRet M := λ A a w, (Ok a, w).
#[global] Instance M_bind : MBind M := λ A B f m w,
  match m w with
  | (Ok a, w') => f a w'
  | (Raise e, w') => (Raise e, w')
  end.

(** The lifting of a pure result, which may be an exception. *)
Definition lift {A} (r : res A) : M A := λ w, (r, w).

(** [try: body  except Exception as e: handler(e)] *)
Definition try_except {A} (body : M A) (handler : exn -> M A) : M A := λ w,
  match body w with
  | (Ok a, w') => (Ok a, w')
  | (Raise e, w') => handler e w'
  end.

Module Logger.
Definition emit (lv : level) (msg : string) : M unit :=
  λ w, (Ok tt, set_log (log w ++ [(lv, msg)]) w).
Definition info := emit INFO.
Definition warning := emit WARNING.
Definition error := emit ERROR.
End Logger.

Module IO.

(** [dir.glob('*' + sfx)]: the entries of [dir] whose name ends in [sfx], in
    the order of the map (Python promises none). *)
Definition glob (dir sfx : string) : M (list Path) := λ w,
  (Ok (filter (λ p, parent p = dir ∧ PyStr.endswith sfx (name p) = true)
         (map_to_list (files w)).*1), w).

(** [json.load] on the content of a file; [message] gives the text of the
    exception for a content that cannot be decoded. *)
Definition json_load (message : list fragment -> string) (content : list fragment)
    : res json :=
  match content with
  | [Dumped v] => Ok v
  | _ => Raise (JSONDecodeError (message content))
  end.

(** [open(path, 'r')] followed by [json.load]. *)
Definition load_json (path : Path) : M json := λ w,
  match files w !! path with
  | Some content => (json_load (json_error w) content, w)
  | None =>
      (Raise (OSError ("[Errno 2] No such file or directory: '"
                       +:+ PurePath.to_str path +:+ "'")), w)
  end.

(** [open(path, 'w')]: the file is created, or emptied when it exists. *)
Definition open_w (path : Path) : M unit :=
  λ w, (Ok tt, set_files (<[path := []]> (files w)) w).

Definition append (path : Path) (fr : fragment) (w : world) : world :=
  set_files (<[path := default [] (files w !! path) ++ [fr]]> (files w)) w.

Definition device_error : exn := OSError "[Errno 28] No space left on device".

(** [f.write(s)] on a file opened by [open(path, 'w')], which is buffered:
    the text goes to the buffer of the file object and reaches the device
    when the buffer is flushed, at the latest when the file is closed.  The
    call that tells of a failing device is a later [write] or the close; no
    other effect lies between the writes of a file, so the model keeps the
    text with the file and lets the close decide. *)
Definition write (path : Path) (s : string) : M unit :=
  λ w, (Ok tt, append path (Written s) w).

(** [json.dump(v, f, indent=2, ensure_ascii=False)], which writes to [f]
    piece by piece. *)
Definition json_dump (v : json) (path : Path) : M unit :=
  λ w, (Ok tt, append path (Dumped v) w).

(** The end of [with open(path, 'w') as f]: the file is flushed and closed.
    When the device fails, a part of what was written is in the file and
    the exception of the device is raised. *)
Definition close (path : Path) : M unit := λ w,
  match io_budget w with
  | Some O =>
      (Raise device_error,
       set_files (<[path := [Cut (default [] (files w !! path))]]> (files w)) w)
  | Some (S n) => (Ok tt, set_io_budget (Some n) w)
  | None => (Ok tt, w)
  end.

(** [dir.mkdir(exist_ok=True)]: a regular file of that name is in the way.
    The world has files only, so every other directory can be made or is
    there. *)
Definition mkdir (dir : string) : M unit := λ w,
  match files w !! PurePath.of_str dir with
  | Some _ => (Raise (OSError ("[Errno 17] File exists: '" +:+ dir +:+ "'")), w)
  | None => (Ok tt, w)
  end.

(** [datetime.now().isoformat()] *)
Definition now_isoformat : M string :=
  λ w, (Ok (clock w (ticks w)), set_ticks (S (ticks w)) w).

End IO.

(** ** chunking.py *)

(** The element classes of [unstructured.documents.elements] the script
    imports, and [TableChunk], which the chunker may return. *)
Inductive ElementClass : Type :=
| Title | NarrativeText | Text | ListItem | Table | CompositeElement | TableChunk.

(** [cls.__name__] *)
Definition class_name (c : ElementClass) : string :=
  match c with
  | Title => "Title"
  | NarrativeText => "NarrativeText"
  | Text => "Text"
  | ListItem => "ListItem"
  | Table => "Table"
  | CompositeElement => "CompositeElement"
  | TableChunk => "TableChunk"
  end.

(** The metadata object of an element, with the five fields the script
    sets; [JNull] is [None]. *)
Record ElementMetadata : Type := {
  filename : json;
  filetype : json;
  languages : json;
  page_number : json;
  coordinates : json;
}.

(** An element: its class, its text and its metadata. *)
Record Element : Type := {
  element_class : ElementClass;
  text : json;
  metadata : ElementMetadata;
}.

(** An element returned by the chunker: its class, its text and
    [metadata.orig_elements] ([None] when the attribute is missing or
    [None]). *)
Record Chunk : Type := {
  chunk_class : ElementClass;
  chunk_text : string;
  orig_elements : option (list Element);
}.

(** What the script calls of the library [unstructured], which is not part
    of the sources: [ElementMetadata(filename=, filetype=, languages=,
    page_number=, coordinates=)], the constructor of an element class on
    [text=] and [metadata=], and [chunk_by_title] on the element list and its
    six keyword arguments, each with the arguments in the order of the call.
    What they return for their arguments, and which arguments they refuse, is
    the library's to say. *)
Record Unstructured : Type := {
  ElementMetadata_init : json -> json -> json -> json -> json -> res ElementMetadata;
  Element_init : ElementClass -> json -> ElementMetadata -> res Element;
  chunk_by_title : list Element -> Z -> Z -> Z -> Z -> bool -> bool -> res (list Chunk);
}.

Record ChunkingConfig : Type := {
  max_characters : Z;
  new_after_n_chars : Z;
  combine_text_under_n_chars : Z;
  overlap : Z;
  overlap_all : bool;
  multipage_sections : bool;
}.

(** [ChunkingConfig.__init__]; an argument left out is [None] here and takes
    the default of the signature. *)
Definition ChunkingConfig_init
    (max_characters new_after_n_chars combine_text_under_n_chars overlap : option Z)
    (overlap_all multipage_sections : option bool) : res ChunkingConfig :=
  Ok {| max_characters := default 1000%Z max_characters;
        new_after_n_chars := default 800%Z new_after_n_chars;
        combine_text_under_n_chars := default 200%Z combine_text_under_n_chars;
        overlap := default 50%Z overlap;
        overlap_all := default false overlap_all;
        multipage_sections := default true multipage_sections |}.

(** The newline character and the two rules of the text rendering. *)
Definition nl : string := String (ascii_of_nat 10) "".
Definition rule80 : string := PyStr.repeat "="%char 80.
Definition rule40 : string := PyStr.repeat "-"%char 40.

(** [element_type_map] *)
Definition element_type_map : gmap string ElementClass :=
  list_to_map
    [("Title", Title); ("NarrativeText", NarrativeText);
     ("UncategorizedText", Text); ("ListItem", ListItem); ("Table", Table);
     ("CompositeElement", CompositeElement); ("Text", Text)].

(** [element_type_map.get(element_type, NarrativeText)]: a key that is not a
    string is never found, and a list or a dict cannot be hashed. *)
Definition element_type_map_get (element_type : json) : res ElementClass :=
  match element_type with
  | JStr s => Ok (default NarrativeText (element_type_map !! s))
  | JList _ => Raise (TypeError "unhashable type: 'list'")
  | JDict _ => Raise (TypeError "unhashable type: 'dict'")
  | _ => Ok NarrativeText
  end.

(** The body of the loop of [json_to_elements]. *)
Definition json_to_element (lib : Unstructured) (item : json) : res Element :=
  res_bind (Py.get item "type" JNull) (λ element_type,
  res_bind (Py.get item "text" (JStr "")) (λ text,
  res_bind (Py.get item "metadata" (JDict ∅)) (λ metadata_dict,
  res_bind (Py.get item "element_id" JNull) (λ element_id,
  res_bind (Py.get metadata_dict "filename" JNull) (λ filename,
  res_bind (Py.get metadata_dict "filetype" JNull) (λ filetype,
  res_bind (Py.get metadata_dict "languages" (JList [])) (λ languages,
  res_bind (Py.get metadata_dict "page_number" JNull) (λ page_number,
  res_bind (Py.get metadata_dict "coordinates" JNull) (λ coordinates,
  res_bind (ElementMetadata_init lib filename filetype languages page_number coordinates)
    (λ metadata,
  res_bind (element_type_map_get element_type) (λ ElementClass,
  Element_init lib ElementClass text metadata))))))))))).

Definition json_to_elements (lib : Unstructured) (json_data : json) : res (list Element) :=
  res_bind (Py.iter json_data) (res_map (json_to_element lib)).

(** The record [save_chunks] builds for the chunk at position [i]. *)
Definition chunk_data (i : nat) (chunk : Chunk) (original_filename created_at : string)
    : json :=
  let metadata : gmap string json :=
    {[ "original_filename" := JStr original_filename;
       "chunk_index" := JInt (Z.of_nat (i + 1));
       "character_count" := JInt (Z.of_nat (String.length (chunk_text chunk)));
       "word_count" := JInt (Z.of_nat (PyStr.word_count (chunk_text chunk)));
       "created_at" := JStr created_at ]} in
  let metadata :=
    match orig_elements chunk with
    | Some (e :: es) =>
        <["original_element_types" :=
            JList ((λ elem, JStr (class_name (element_class elem))) <$> (e :: es))]>
          (<["original_elements_count" := JInt (Z.of_nat (length (e :: es)))]> metadata)
    | _ => metadata
    end in
  JDict {[ "chunk_id" := JInt (Z.of_nat (i + 1));
           "text" := JStr (chunk_text chunk);
           "type" := JStr (class_name (chunk_class chunk));
           "metadata" := JDict metadata ]}.

(** The first loop of [save_chunks]: one record per chunk, each stamped with
    the time of its creation. *)
Fixpoint json_output (i : nat) (chunks : list Chunk) (original_filename : string)
    : M (list json) :=
  match chunks with
  | [] => mret []
  | chunk :: rest =>
      created_at ← IO.now_isoformat;
      records ← json_output (S i) rest original_filename;
      mret (chunk_data i chunk original_filename created_at :: records)
  end.

(** The seven writes of the second loop of [save_chunks] for one chunk. *)
Definition write_chunk_text (f : Path) (i : nat) (chunk : Chunk) : M unit :=
  _ ← IO.write f ("CHUNK " +:+ pretty (i + 1) +:+ nl);
  _ ← IO.write f (rule40 +:+ nl);
  _ ← IO.write f ("Characters: " +:+ pretty (String.length (chunk_text chunk)) +:+ nl);
  _ ← IO.write f ("Words: " +:+ pretty (PyStr.word_count (chunk_text chunk)) +:+ nl);
  _ ← IO.write f ("Type: " +:+ class_name (chunk_class chunk) +:+ nl +:+ nl);
  _ ← IO.write f (chunk_text chunk);
  IO.write f (nl +:+ nl +:+ rule80 +:+ nl +:+ nl).

Fixpoint write_chunks_text (f : Path) (i : nat) (chunks : list Chunk) : M unit :=
  match chunks with
  | [] => mret tt
  | chunk :: rest => _ ← write_chunk_text f i chunk; write_chunks_text f (S i) rest
  end.

Definition save_chunks (chunks : list Chunk) (output_file : Path) (original_filename : string)
    : M unit :=
  json_output ← json_output 0 chunks original_filename;
  json_file ← lift (PurePath.with_suffix output_file ".chunks.json");
  let f := json_file in
  _ ← IO.open_w f;
  _ ← IO.json_dump (JList json_output) f;
  _ ← IO.close f;
  txt_file ← lift (PurePath.with_suffix output_file ".chunks.txt");
  let f := txt_file in
  _ ← IO.open_w f;
  _ ← IO.write f ("CHUNKED DOCUMENT: " +:+ original_filename +:+ nl);
  _ ← IO.write f (rule80 +:+ nl +:+ nl);
  _ ← write_chunks_text f 0 chunks;
  IO.close f.

(** [setup_logging]: the handler of the log file opens [chunking.log] in the
    working directory, or raises when it cannot.  The records the logger
    emits afterwards are the log of the world. *)
Definition setup_logging : M unit := λ w,
  match logging_error w with
  | Some e => (Raise e, w)
  | None => (Ok tt, w)
  end.

(** The two directories [main] works on, and the one [load_chunked_files]
    reads, as strings; [current_dir] is the string of
    [Path(__file__).parent]. *)
Definition input_dir (current_dir : string) : string :=
  PurePath.to_str (PurePath.joinpath current_dir "output").
Definition output_dir (current_dir : string) : string :=
  PurePath.to_str (PurePath.joinpath current_dir "chunked_output").
Definition chunked_dir (current_dir : string) : string :=
  PurePath.to_str (PurePath.joinpath current_dir "chunked_output").

Section Chunking.

Variable lib : Unstructured.

Definition chunk_elements_by_title (elements : list Element) (config : ChunkingConfig)
    : res (list Chunk) :=
  chunk_by_title lib elements
    (max_characters config)
    (new_after_n_chars config)
    (combine_text_under_n_chars config)
    (overlap config)
    (overlap_all config)
    (multipage_sections config).

Definition process_file (input_file : Path) (output_dir : string) (config : ChunkingConfig)
    : M bool :=
  try_except
    (_ ← Logger.info ("Processing file: " +:+ name input_file);
     json_data ← IO.load_json input_file;
     if negb (Py.truthy json_data)
     then
       _ ← Logger.warning ("Empty JSON file: " +:+ name input_file);
       mret false
     else
       elements ← lift (json_to_elements lib json_data);
       _ ← Logger.info ("Converted " +:+ pretty (length elements) +:+ " elements from JSON");
       chunks ← lift (chunk_elements_by_title elements config);
       _ ← Logger.info ("Created " +:+ pretty (length chunks) +:+ " chunks");
       let output_file := PurePath.joinpath output_dir (PurePath.stem (name input_file)) in
       _ ← save_chunks chunks output_file (name input_file);
       _ ← Logger.info ("Saved chunks for " +:+ name input_file);
       mret true)
    (λ e,
       _ ← Logger.error ("Error processing " +:+ name input_file +:+ ": " +:+ exn_str e);
       mret false).

(** The loop of [main], with the counter as an accumulator. *)
Fixpoint count_successes (json_files : list Path) (output_dir : string)
    (config : ChunkingConfig) (success_count : nat) : M nat :=
  match json_files with
  | [] => mret success_count
  | json_file :: rest =>
      ok ← process_file json_file output_dir config;
      count_successes rest output_dir config
        (if ok : bool then success_count + 1 else success_count)
  end.

Definition main (current_dir : string) : M unit :=
  _ ← setup_logging;
  _ ← Logger.info "Starting chunking process";
  let input_dir := input_dir current_dir in
  let output_dir := output_dir current_dir in
  _ ← IO.mkdir output_dir;
  config ← lift (ChunkingConfig_init (Some 1000%Z) (Some 800%Z) (Some 200%Z) (Some 50%Z)
                   (Some false) (Some true));
  _ ← Logger.info ("Configuration: max_chars=" +:+ pretty (max_characters config)
                   +:+ ", new_after=" +:+ pretty (new_after_n_chars config)
                   +:+ ", combine_under=" +:+ pretty (combine_text_under_n_chars config));
  json_files ← IO.glob input_dir ".json";
  match json_files : list Path with
  | [] => Logger.error ("No JSON files found in " +:+ input_dir)
  | _ =>
      _ ← Logger.info ("Found " +:+ pretty (length json_files) +:+ " JSON files to process");
      success_count ← count_successes json_files output_dir config 0;
      _ ← Logger.info ("Chunking complete! Processed " +:+ pretty success_count +:+ "/"
                       +:+ pretty (length json_files) +:+ " files successfully");
      Logger.info ("Output saved to: " +:+ output_dir)
  end.

End Chunking.

(** ** setupLangchain.py *)

(** A LangChain [Document]. *)
Record Document : Type := {
  page_content : string;
  doc_metadata : gmap string json;
}.

(** [Document(page_content=..., metadata=...)]: the content must be a
    string. *)
Definition Document_init (page_content : json) (metadata : gmap string json) : res Document :=
  match page_content with
  | JStr s => Ok {| page_content := s; doc_metadata := metadata |}
  | _ => Raise (ValidationError "page_content: Input should be a valid string")
  end.

(** [v[k]] on what [chunk.get] did not reject. *)
Definition getitem (v : json) (k : string) : res json :=
  match v with
  | JDict d =>
      match d !! k with
      | Some x => Ok x
      | None => Raise (KeyError k)
      end
  | _ => Raise (TypeError ("'" +:+ Py.type_name v +:+ "' object is not subscriptable"))
  end.

(** The body of the inner loop of [load_chunked_files], for a chunk record
    of the file [json_file]. *)
Definition chunk_to_document (json_file : Path) (chunk : json) : res Document :=
  res_bind (Py.get chunk "metadata" (JDict ∅)) (λ metadata,
  match metadata with
  | JDict metadata =>
      let source :=
        Py.dict_get metadata "original_filename" (JStr (PurePath.stem (name json_file))) in
      let metadata := <["source" := source]> metadata in
      let metadata :=
        if decide (is_Some (metadata !! "languages"))
        then delete "languages" metadata
        else metadata in
      res_bind (getitem chunk "text") (λ text, Document_init text metadata)
  | _ => Raise (Py.no_attribute metadata "get")
  end).

(** The body of the outer loop: the documents of one file. *)
Definition load_chunked_file (json_file : Path) : M (list Document) :=
  chunks ← IO.load_json json_file;
  lift (res_bind (Py.iter chunks) (res_map (chunk_to_document json_file))).

Fixpoint load_chunked_files_from (json_files : list Path) : M (list Document) :=
  match json_files with
  | [] => mret []
  | json_file :: rest =>
      docs ← load_chunked_file json_file;
      more ← load_chunked_files_from rest;
      mret (docs ++ more)
  end.

Definition load_chunked_files (current_dir : string) : M (list Document) :=
  json_files ← IO.glob (chunked_dir current_dir) ".chunks.json";
  load_chunked_files_from json_files.

(** ** query.py and setupRAG.py: [ask_question] *)

(** What [qa_chain.invoke] returns: the answer and the retrieved documents. *)
Record QAResult : Type := {
  result : string;
  source_documents : list Document;
}.

(** A call of [print].  A line built by an f-string is kept as its
    interpolated values. *)
Inductive printed : Type :=
| Line (s : string)
| QuestionLine (question : string)
| AnswerLine (answer : string)
| SourceLine (i : nat) (source : json) (preview : string)
| ErrorLine (e : exn).

Module Query.

(** [doc.page_content[:100] + "..." if len(doc.page_content) > 100
     else doc.page_content] *)
Definition preview (doc : Document) : string :=
  if (100 <? String.length (page_content doc))%nat
  then PyStr.slice_to 100 (page_content doc) +:+ "..."
  else page_content doc.

(** The loop over [enumerate(result['source_documents'], 1)]. *)
Fixpoint print_sources (i : nat) (docs : list Document) : list printed :=
  match docs with
  | [] => []
  | doc :: rest =>
      let source := Py.dict_get (doc_metadata doc) "source" (JStr "Unknown") in
      SourceLine i source (preview doc) :: print_sources (S i) rest
  end.

(** [ask_question]; [qa_chain] is [None] when the chain is falsy, and
    otherwise its [invoke] on the question.  The result is what was
    printed and what is returned. *)
Definition ask_question (qa_chain : option (string -> res QAResult)) (question : string)
    : list printed * option QAResult :=
  match qa_chain with
  | None => ([Line "RAG system not initialized"], None)
  | Some invoke =>
      let head := [QuestionLine question; Line (PyStr.repeat "-"%char 50)] in
      match invoke question with
      | Ok r =>
          (head ++ [AnswerLine (result r); Line (nl +:+ "Sources:")]
             ++ print_sources 1 (source_documents r), Some r)
      | Raise e => (head ++ [ErrorLine e], None)
      end
  end.

End Query.

Module SetupRAG.

(** [doc.page_content[:100] + "..." if len(doc.page_content) > 100
     else doc.page_content] *)
Definition preview (doc : Document) : string :=
  if (100 <? String.length (page_content doc))%nat
  then PyStr.slice_to 100 (page_content doc) +:+ "..."
  else page_content doc.

Fixpoint print_sources (i : nat) (docs : list Document) : list printed :=
  match docs with
  | [] => []
  | doc :: rest =>
      let source := Py.dict_get (doc_metadata doc) "source" (JStr "Unknown") in
      SourceLine i source (preview doc) :: print_sources (S i) rest
  end.

Definition ask_question (qa_chain : option (string -> res QAResult)) (question : string)
    : list printed * option QAResult :=
  match qa_chain with
  | None => ([Line "RAG system not initialized"], None)
  | Some invoke =>
      let head := [QuestionLine question; Line (PyStr.repeat "-"%char 50)] in
      match invoke question with
      | Ok r =>
          (head ++ [AnswerLine (result r); Line (nl +:+ "Sources:")]
             ++ print_sources 1 (source_documents r), Some r)
      | Raise e => (head ++ [ErrorLine e], None)
      end
  end.

End SetupRAG.

(** ** The oversized-element splitter *)

Module Splitter.

(** Modelled from the spec: the splitting of one element whose text is
    longer than [max_characters], which happens inside [chunk_by_title] and
    is not part of the sources.  The window is [max_characters] long and
    advances by [max_characters - overlap]; a window is cut while the text
    left is longer than a window, and what is left then is the final
    fragment.  Every window after the first so starts with the last
    [overlap] characters of the window before it.  [fuel] bounds the number
    of windows. *)
Fixpoint windows (fuel : nat) (max_characters overlap : nat) (text : string) : list string :=
  match fuel with
  | O => [text]
  | S fuel' =>
      if (String.length text <=? max_characters)%nat
      then [text]
      else PyStr.slice_to max_characters text
             :: windows fuel' max_characters overlap
                  (PyStr.slice_from (max_characters - overlap) text)
  end.

(** Modelled from the spec: the splitter on a configuration, which is
    invalid ([None]) when [overlap >= max_characters], as the step has to
    be positive.  The text loses at least one character at each step, so
    its length is fuel enough. *)
Definition split_oversized (max_characters overlap : nat) (text : string)
    : option (list string) :=
  if (overlap <? max_characters)%nat
  then Some (windows (String.length text) max_characters overlap text)
  else None.

End Splitter.

(** ** Renderings and readings used in the statements *)

(** The records [save_chunks] dumps for [chunks], numbered from [i], when
    the clock is read from its [t]-th value on. *)
Fixpoint chunk_records (clock : nat -> string) (t i : nat) (chunks : list Chunk)
    (original_filename : string) : list json :=
  match chunks with
  | [] => []
  | chunk :: rest =>
      chunk_data i chunk original_filename (clock t)
        :: chunk_records clock (S t) (S i) rest original_filename
  end.

(** The strings the text file receives for the chunk at position [i]. *)
Definition chunk_lines (i : nat) (chunk : Chunk) : list string :=
  [ "CHUNK " +:+ pretty (i + 1) +:+ nl;
    rule40 +:+ nl;
    "Characters: " +:+ pretty (String.length (chunk_text chunk)) +:+ nl;
    "Words: " +:+ pretty (PyStr.word_count (chunk_text chunk)) +:+ nl;
    "Type: " +:+ class_name (chunk_class chunk) +:+ nl +:+ nl;
    chunk_text chunk;
    nl +:+ nl +:+ rule80 +:+ nl +:+ nl ].

Fixpoint chunks_lines (i : nat) (chunks : list Chunk) : list string :=
  match chunks with
  | [] => []
  | chunk :: rest => chunk_lines i chunk ++ chunks_lines (S i) rest
  end.

(** The whole text rendering of a document, one string per write. *)
Definition text_lines (original_filename : string) (chunks : list Chunk) : list string :=
  ("CHUNKED DOCUMENT: " +:+ original_filename +:+ nl)
    :: (rule80 +:+ nl +:+ nl)
    :: chunks_lines 0 chunks.

(** [IO.write] of each string of a list, in order. *)
Fixpoint write_all (f : Path) (lines : list string) : M unit :=
  match lines with
  | [] => mret tt
  | s :: rest => _ ← IO.write f s; write_all f rest
  end.

(** The last record [process_file] logs for a file tells how it ended. *)
Inductive outcome : Type := Saved | Empty | Failed (e : exn).

Definition outcome_record (nm : string) (o : outcome) : level * string :=
  match o with
  | Saved => (INFO, "Saved chunks for " +:+ nm)
  | Empty => (WARNING, "Empty JSON file: " +:+ nm)
  | Failed e => (ERROR, "Error processing " +:+ nm +:+ ": " +:+ exn_str e)
  end.

Definition succeeded (o : outcome) : bool :=
  match o with
  | Saved => true
  | _ => false
  end.

(** The records one call of [process_file] adds to the log: the file is
    announced, progress is reported at level INFO, and the last record is
    the outcome. *)
Definition file_records (input_file : Path) (o : outcome) (records : list (level * string))
    : Prop :=
  ∃ progress,
    records = (INFO, "Processing file: " +:+ name input_file) :: progress
                ++ [outcome_record (name input_file) o]
    ∧ Forall (λ r, r.1 = INFO) progress.

(** [doc] is the retrieval document of the chunk record [chunk] read from
    the file [json_file]: the text is copied, the metadata is the record's
    (none is an empty one) with [source] set to the original file name, or
    to the stem of the file when the record has none, and without
    [languages]; every other field is as it was. *)
Definition adapts (json_file : Path) (chunk : json) (doc : Document) : Prop :=
  ∃ (c m : gmap string json) (t : string),
    chunk = JDict c
    ∧ c !! "text" = Some (JStr t)
    ∧ (c !! "metadata" = Some (JDict m) ∨ c !! "metadata" = None ∧ m = ∅)
    ∧ page_content doc = t
    ∧ doc_metadata doc !! "source"
      = Some (match m !! "original_filename" with
              | Some original_filename => original_filename
              | None => JStr (PurePath.stem (name json_file))
              end)
    ∧ doc_metadata doc !! "languages" = None
    ∧ ∀ k, k ≠ "source" → k ≠ "languages" → doc_metadata doc !! k = m !! k.


(** The number of files of a batch that ended well. *)
Definition successes (outs : list (outcome * list (level * string))) : nat :=
  length (filter (λ x, succeeded x.1 = true) outs).

(** The records of a batch: for each file in turn, its outcome and the
    records of its processing. *)
Definition batch_records (json_files : list Path)
    (outs : list (outcome * list (level * string))) : Prop :=
  Forall2 (λ f x, file_records f x.1 x.2) json_files outs.

(** A computation that leaves the log alone. *)
Definition log_stable {A} (m : M A) : Prop := ∀ w, log (m w).2 = log w.

(** ** A sample library *)

Module Demo.

(** A stand-in for [chunk_by_title] in the examples, which need some
    response of the library: every element whose text is a non-empty
    string comes back as one [CompositeElement] with that text. *)
Definition chunker (elements : list Element) (_ _ _ _ : Z) (_ _ : bool)
    : res (list Chunk) :=
  Ok (omap (λ el,
        match text el with
        | JStr (String c s) =>
            Some {| chunk_class := CompositeElement; chunk_text := String c s;
                    orig_elements := Some [el] |}
        | _ => None
        end) elements).

(** A stand-in for the library: constructors that take every argument and
    keep it, and the chunker above. *)
Definition lib : Unstructured :=
  {| ElementMetadata_init := λ filename filetype languages page_number coordinates,
       Ok {| filename := filename; filetype := filetype; languages := languages;
             page_number := page_number; coordinates := coordinates |};
     Element_init := λ cls text metadata,
       Ok {| element_class := cls; text := text; metadata := metadata |};
     chunk_by_title := chunker |}.

(** The directory of the scripts in the examples. *)
Definition here : string := "/srv/rag".

Definition path (dir nm : string) : Path := {| parent := dir; name := nm |}.

(** A world with the given files, an empty log, the given budget of
    files, a clock that counts, a log file that opens and a decoder with
    one message. *)
Definition world_of (fs : gmap Path (list fragment)) (budget : option nat) : world :=
  {| files := fs; log := []; io_budget := budget;
     clock := λ k, "2025-01-01T00:00:0" +:+ pretty k; ticks := 0;
     logging_error := None;
     json_error := λ _, "Expecting value: line 1 column 1 (char 0)" |}.

End Demo.

(** ** More of Python's strings *)

Module PyText.

(** [s.strip(chars)] removes from both ends of [s] the characters of the
    set [chars], and [s.strip()] the white space; [drop] tells which
    characters go.  First the left end and the right end on their own. *)
Fixpoint lstrip_by (drop : ascii -> bool) (s : string) : string :=
  match s with
  | EmptyString => ""
  | String c s' => if drop c then lstrip_by drop s' else s
  end.

Fixpoint rstrip_by (drop : ascii -> bool) (s : string) : string :=
  match s with
  | EmptyString => ""
  | String c s' =>
      match rstrip_by drop s' with
      | EmptyString => if drop c then "" else String c ""
      | r => String c r
      end
  end.

Definition strip_by (drop : ascii -> bool) (s : string) : string :=
  lstrip_by drop (rstrip_by drop s).

(** [s.strip()] *)
Definition strip (s : string) : string := strip_by PyStr.isspace s.

(** [s.strip(ch)] for a single character [ch]. *)
Definition strip_char (ch : ascii) (s : string) : string :=
  strip_by (λ c, Ascii.eqb c ch) s.

(** Every character of [s] satisfies [p]. *)
Fixpoint all_of (p : ascii -> bool) (s : string) : bool :=
  match s with
  | EmptyString => true
  | String c s' => p c && all_of p s'
  end.

(** [c.lower()] for a character below 256: the letters A to Z, and the
    accented capitals of Latin-1 (192 to 222, but the multiplication sign),
    move up by 32. *)
Definition lower_char (c : ascii) : ascii :=
  let n := nat_of_ascii c in
  if (((65 <=? n) && (n <=? 90))
      || ((192 <=? n) && (n <=? 222) && negb (n =? 215)))%nat
  then ascii_of_nat (n + 32)
  else c.

(** [s.lower()] *)
Fixpoint lower (s : string) : string :=
  match s with
  | EmptyString => ""
  | String c s' => String (lower_char c) (lower s')
  end.

(** [s.startswith(p)] *)
Fixpoint startswith (p s : string) : bool :=
  match p, s with
  | EmptyString, _ => true
  | String _ _, EmptyString => false
  | String a p', String b s' => Ascii.eqb a b && startswith p' s'
  end.

(** [ch in s] for a single character [ch]. *)
Fixpoint contains (ch : ascii) (s : string) : bool :=
  match s with
  | EmptyString => false
  | String c s' => Ascii.eqb c ch || contains ch s'
  end.

(** [s.split(ch, 1)]: the text before the first [ch] and the text after it,
    or [None] for the one-element list of a string without [ch]. *)
Fixpoint split1 (ch : ascii) (s : string) : option (string * string) :=
  match s with
  | EmptyString => None
  | String c s' =>
      if Ascii.eqb c ch then Some ("", s')
      else match split1 ch s' with
           | Some (before, after) => Some (String c before, after)
           | None => None
           end
  end.

End PyText.

(** ** query.py and setupRAG.py: the environment *)

(** The character of a double quote. *)
Definition double_quote : ascii := ascii_of_nat 34.

(** [os.environ[key] = value]: a name or a value with a NUL character, an
    empty name and a name with an equals sign are refused. *)
Definition environ_set (key value : string) (environ : gmap string string)
    : res (gmap string string) :=
  if PyText.contains (ascii_of_nat 0) key || PyText.contains (ascii_of_nat 0) value
  then Raise (ValueError "embedded null byte")
  else if String.eqb key ""
  then Raise (OSError "[Errno 22] Invalid argument")
  else if PyText.contains "="%char key
  then Raise (ValueError "illegal environment variable name")
  else Ok (<[key := value]> environ).

(** The body of the loop of [load_env_file], for one line of the file. *)
Definition load_env_line (environ : gmap string string) (line : string)
    : res (gmap string string) :=
  let line := PyText.strip line in
  if negb (String.eqb line "") && negb (PyText.startswith "#" line)
     && PyText.contains "="%char line
  then
    match PyText.split1 "="%char line with
    | Some (key, value) =>
        environ_set (PyText.strip key)
          (PyText.strip_char "'"%char (PyText.strip_char double_quote (PyText.strip value)))
          environ
    | None => Raise (ValueError "not enough values to unpack (expected 2, got 1)")
    end
  else Ok environ.

(** [for line in f]: the lines in turn, up to the first that raises. *)
Fixpoint load_env_lines (lines : list string) (environ : gmap string string)
    : res (gmap string string) :=
  match lines with
  | [] => Ok environ
  | line :: rest => res_bind (load_env_line environ line) (load_env_lines rest)
  end.

(** [load_env_file], defined alike in [query.py] and [setupRAG.py];
    [env_file] is the list of the lines of [.env], or [None] when the file
    does not exist. *)
Definition load_env_file (env_file : option (list string)) (environ : gmap string string)
    : res (gmap string string) :=
  match env_file with
  | Some lines => load_env_lines lines environ
  | None => Ok environ
  end.

(** [not os.getenv(name)] *)
Definition getenv_falsy (environ : gmap string string) (name : string) : bool :=
  match environ !! name with
  | Some value => String.eqb value ""
  | None => true
  end.

(** ** query.py and setupRAG.py: setting up and the question loop *)

(** What is written to the terminal: a call of [print], or the prompt of a
    call of [input]. *)
Inductive shown : Type :=
| Print (p : printed)
| Prompt (s : string).

(** How a function of the scripts ends: it returns, [input] raises
    [EOFError] at the end of the input, or a library raises. *)
Inductive finish : Type :=
| Return
| RaiseEOF
| RaiseExn (e : exn).

(** The loop [while True] of both [main]s, over the lines still to be read
    from the standard input; [ask] is the [ask_question] of the script on its
    chain.  The result is what was written, how the loop ended, and the lines
    left unread. *)
Fixpoint question_loop (ask : string -> list printed * option QAResult)
    (stdin : list string) : list shown * finish * list string :=
  match stdin with
  | [] => ([Prompt (nl +:+ "Your question: ")], RaiseEOF, [])
  | line :: rest =>
      let question := PyText.strip line in
      if bool_decide (PyText.lower question ∈ ["quit"; "exit"; "q"])
      then ([Prompt (nl +:+ "Your question: "); Print (Line "Goodbye!")], Return, rest)
      else if String.eqb question ""
      then
        let '(out, fin, unread) := question_loop ask rest in
        (Prompt (nl +:+ "Your question: ") :: out, fin, unread)
      else
        let '(out, fin, unread) := question_loop ask rest in
        (Prompt (nl +:+ "Your question: ") :: (Print <$> (ask question).1) ++ out,
         fin, unread)
  end.

(** The banner both [main]s print before the loop. *)
Definition ready_banner : list shown :=
  Print <$> [Line (nl +:+ PyStr.repeat "="%char 60);
             Line "RAG System Ready! Ask questions about your documents.";
             Line "Type 'quit' to exit.";
             Line (PyStr.repeat "="%char 60)].

Module QueryApp.

(** [load_existing_rag_system]: the two checks, and then the part that only
    calls the libraries, which is the parameter [build]: what it prints, and
    the chain it returns or the exception it raises.  [chroma_exists] is
    [Path("./chroma_db").exists()]. *)
Definition load_existing_rag_system (environ : gmap string string) (chroma_exists : bool)
    (build : list printed * res (string -> res QAResult))
    : list printed * res (option (string -> res QAResult)) :=
  if getenv_falsy environ "OPENAI_API_KEY"
  then ([Line "Error: OPENAI_API_KEY environment variable not set";
         Line "Please add it to your .env file"], Ok None)
  else if negb chroma_exists
  then ([Line ("Error: ChromaDB not found. Please run setupRAG.py first "
               +:+ "to create the vector database.")], Ok None)
  else
    match build.2 with
    | Ok qa_chain => (build.1, Ok (Some qa_chain))
    | Raise e => (build.1, Raise e)
    end.

(** [main] *)
Definition main (environ : gmap string string) (chroma_exists : bool)
    (build : list printed * res (string -> res QAResult)) (stdin : list string)
    : list shown * finish * list string :=
  let loading := Print (Line "Loading RAG system...") in
  match load_existing_rag_system environ chroma_exists build with
  | (out, Raise e) => (loading :: (Print <$> out), RaiseExn e, stdin)
  | (out, Ok None) =>
      (loading :: (Print <$> out)
         ++ (Print <$> [Line (nl +:+ "Setup Instructions:");
                        Line "1. Run 'python setupRAG.py' first to create the vector database";
                        Line "2. Ensure your .env file contains OPENAI_API_KEY"]),
       Return, stdin)
  | (out, Ok (Some qa_chain)) =>
      let '(shown_, fin, unread) :=
        question_loop (Query.ask_question (Some qa_chain)) stdin in
      (loading :: (Print <$> out) ++ ready_banner ++ shown_, fin, unread)
  end.

End QueryApp.

Module SetupRAGApp.

(** [setup_rag_system]: the check of the key, the loading of the chunked
    documents, the check that there are some, and then the part that only
    calls the libraries (the filtering of the metadata, the embeddings, the
    vector store, the retriever, the model, the prompt and the chain), which
    is the parameter [build]. *)
Definition setup_rag_system (current_dir : string) (environ : gmap string string)
    (build : list Document -> list printed * res (string -> res QAResult))
    (w : world) : list printed * res (option (string -> res QAResult)) :=
  if getenv_falsy environ "OPENAI_API_KEY"
  then ([Line "Warning: OPENAI_API_KEY environment variable not set";
         Line "Please set it with: export OPENAI_API_KEY='your-api-key'"], Ok None)
  else
    let loading := Line "Loading chunked documents..." in
    match (load_chunked_files current_dir w).1 with
    | Raise e => ([loading], Raise e)
    | Ok [] => ([loading; Line "No documents found. Please run chunking.py first."], Ok None)
    | Ok documents =>
        let loaded := Line ("Loaded " +:+ pretty (length documents) +:+ " documents") in
        match (build documents).2 with
        | Ok qa_chain => (loading :: loaded :: (build documents).1, Ok (Some qa_chain))
        | Raise e => (loading :: loaded :: (build documents).1, Raise e)
        end
    end.

(** [get_rag_chain] *)
Definition get_rag_chain := setup_rag_system.

(** [main] *)
Definition main (current_dir : string) (environ : gmap string string)
    (build : list Document -> list printed * res (string -> res QAResult))
    (w : world) (stdin : list string) : list shown * finish * list string :=
  let setting_up := Print (Line "Setting up RAG system with OpenAI...") in
  match setup_rag_system current_dir environ build w with
  | (out, Raise e) => (setting_up :: (Print <$> out), RaiseExn e, stdin)
  | (out, Ok None) => (setting_up :: (Print <$> out), Return, stdin)
  | (out, Ok (Some qa_chain)) =>
      let '(shown_, fin, unread) :=
        question_loop (SetupRAG.ask_question (Some qa_chain)) stdin in
      (setting_up :: (Print <$> out) ++ ready_banner ++ shown_, fin, unread)
  end.

End SetupRAGApp.

(** ** Readings used in the statements about the rest of the code *)

(** The class [element_type_map.get(element_type, NarrativeText)] gives
    for what the record has under [type], if anything: the class of the
    table for a name of the table, [NarrativeText] for every other value that
    can be hashed, and none for a list or an object, which cannot. *)
Definition selected_class (element_type : option json) : option ElementClass :=
  match element_type with
  | Some (JStr s) => Some (default NarrativeText (element_type_map !! s))
  | Some (JList _) | Some (JDict _) => None
  | _ => Some NarrativeText
  end.

(** [element] is what the library makes of the record [item]: the record
    is an object, its metadata is an object or absent, the library makes a
    metadata object of the five fields (absent ones are [None], and an empty
    list for [languages]), the type selects a class, and the library makes an
    element of that class of the record's text (empty when absent) and the
    metadata object. *)
Definition converts_to (lib : Unstructured) (item : json) (element : Element) : Prop :=
  ∃ (d md : gmap string json) (cls : ElementClass) (metadata : ElementMetadata),
    item = JDict d
    ∧ (d !! "metadata" = Some (JDict md) ∨ d !! "metadata" = None ∧ md = ∅)
    ∧ ElementMetadata_init lib
        (default JNull (md !! "filename")) (default JNull (md !! "filetype"))
        (default (JList []) (md !! "languages")) (default JNull (md !! "page_number"))
        (default JNull (md !! "coordinates"))
      = Ok metadata
    ∧ selected_class (d !! "type") = Some cls
    ∧ Element_init lib cls (default (JStr "") (d !! "text")) metadata = Ok element.

(** A line of [.env] that is not an assignment: blank, a comment, or
    without an equals sign. *)
Definition not_assignment (line : string) : bool :=
  let line := PyText.strip line in
  String.eqb line "" || PyText.startswith "#" line || negb (PyText.contains "="%char line).

(** The question loop stops at a line that is [quit], [exit] or [q] in any
    case, with any white space around. *)
Definition is_sentinel (line : string) : bool :=
  bool_decide (PyText.lower (PyText.strip line) ∈ ["quit"; "exit"; "q"]).

(** What the loop writes for a line that is not a sentinel: the prompt, and
    for a line that is not blank the output of [ask] on the stripped
    line. *)
Definition shown_for (ask : string -> list printed * option QAResult) (line : string)
    : list shown :=
  Prompt (nl +:+ "Your question: ")
    :: (if String.eqb (PyText.strip line) "" then []
        else Print <$> (ask (PyText.strip line)).1).

(** White space only, and a string without white space at its ends. *)
Definition blank (s : string) : Prop := PyText.all_of PyStr.isspace s = true.
Definition trimmed (s : string) : Prop := PyText.strip s = s.

(** What [load_env_file] makes of the text after the equals sign, once
    stripped of white space: the double quotes at its ends are removed,
    and then the single quotes. *)
Definition unquote (raw : string) : string :=
  PyText.strip_char "'"%char (PyText.strip_char double_quote raw).

(** [v] between two quotes [q]. *)
Definition quoted (q : ascii) (v : string) : string := String q (v +:+ String q "").

(** A name [load_env_file] can set as it is written: not empty, without
    white space at its ends, without an equals sign or a NUL, and not
    starting a comment. *)
Definition env_name (k : string) : Prop :=
  k ≠ "" ∧ trimmed k ∧ PyText.contains "="%char k = false
  ∧ PyText.startswith "#" k = false ∧ PyText.contains (ascii_of_nat 0) k = false.

(** A computation that changes no file but those [allowed]. *)
Definition writes_only (allowed : Path -> Prop) {A} (m : M A) : Prop :=
  ∀ w p, ¬ allowed p -> files (m w).2 !! p = files w !! p.

(** The two targets of [save_chunks] for [output_file]. *)
Definition target_of (output_file p : Path) : Prop :=
  parent p = parent output_file
  ∧ (name p = PurePath.stem (name output_file) +:+ ".chunks.json"
     ∨ name p = PurePath.stem (name output_file) +:+ ".chunks.txt").

(** The records [chunk_to_document] refuses: what is no object, has no
    string as [text], or has a [metadata] that is no object. *)
Definition malformed (chunk : json) : Prop :=
  match chunk with
  | JDict d =>
      d !! "text" = None
      ∨ (∃ v, d !! "text" = Some v ∧ ∀ s, v ≠ JStr s)
      ∨ (∃ v, d !! "metadata" = Some v ∧ ∀ md, v ≠ JDict md)
  | _ => True
  end.

(** * Properties *)

(** ** Facts about Python strings *)

Module PyStrFacts.
Import PyStr.

Lemma append_cons c (s t : string) : String c s +:+ t = String c (s +:+ t).
Proof. reflexivity. Qed.

Lemma append_nil_r (s : string) : s +:+ "" = s.
Proof.
  induction s as [|c s IH]; [reflexivity|].
  rewrite append_cons, IH; reflexivity.
Qed.

Lemma length_append (s t : string) :
  String.length (s +:+ t) = String.length s + String.length t.
Proof.
  induction s as [|c s IH]; [reflexivity|].
  rewrite append_cons; simpl; auto.
Qed.

Lemma append_assoc (s t u : string) : (s +:+ t) +:+ u = s +:+ (t +:+ u).
Proof.
  induction s as [|c s IH]; [reflexivity|].
  rewrite !append_cons, IH; reflexivity.
Qed.

Lemma append_inj_r (s t u : string) : s +:+ t = s +:+ u -> t = u.
Proof.
  induction s as [|c s IH]; [auto|].
  rewrite !append_cons; intros H; injection H; auto.
Qed.

Lemma length_slice_to n s : String.length (slice_to n s) = Nat.min n (String.length s).
Proof.
  revert s; induction n as [|n IH]; intros [|c s]; simpl; auto.
Qed.

Lemma slice_to_all n s : String.length s <= n -> slice_to n s = s.
Proof.
  revert s; induction n as [|n IH]; intros [|c s]; simpl; intros H; auto; try lia.
  f_equal; apply IH; lia.
Qed.

Lemma slice_to_from n s : slice_to n s +:+ slice_from n s = s.
Proof.
  revert s; induction n as [|n IH]; intros [|c s]; simpl; auto.
  rewrite append_cons; f_equal; apply IH.
Qed.

Lemma length_slice_from n s :
  String.length (slice_from n s) = String.length s - n.
Proof.
  revert s; induction n as [|n IH]; intros [|c s]; simpl; auto.
Qed.

Lemma slice_to_append (s t : string) : slice_to (String.length s) (s +:+ t) = s.
Proof.
  induction s as [|c s IH]; [reflexivity|].
  rewrite append_cons; simpl; f_equal; auto.
Qed.

(** [s[a:][:b]] and [s[:a+b][a:]] are the same characters. *)
Lemma slice_from_to_comm a b s :
  slice_to b (slice_from a s) = slice_from a (slice_to (a + b) s).
Proof.
  revert s; induction a as [|a IH]; intros s; simpl.
  - reflexivity.
  - destruct s as [|c s]; simpl; [destruct b; reflexivity | apply IH].
Qed.

(** [s[:a][:b]] is [s[:b]] when [b <= a]. *)
Lemma slice_to_to a b s : b <= a -> slice_to b (slice_to a s) = slice_to b s.
Proof.
  revert a s; induction b as [|b IH]; intros a s H; simpl.
  - reflexivity.
  - destruct a as [|a]; [lia|].
    destruct s as [|c s]; simpl; [reflexivity|].
    f_equal; apply IH; lia.
Qed.

(** The last dot of [base + sfx] when [sfx] holds one. *)
Lemma rfind_dot_append base sfx i :
  rfind_dot sfx = Some i -> rfind_dot (base +:+ sfx) = Some (String.length base + i).
Proof.
  intros H; induction base as [|c base IH]; [exact H|].
  rewrite append_cons; simpl; rewrite IH; reflexivity.
Qed.

End PyStrFacts.

(** ** [ChunkingConfig] *)

(** C2 (as the code has it): constructing a configuration never fails and
    checks nothing; whatever the six arguments are, the configuration holds
    each value given, and the signature's default for each one left out. *)
Theorem ChunkingConfig_init_accepts_all
    (mc na cu ov : option Z) (oa ms : option bool) :
  ChunkingConfig_init mc na cu ov oa ms
  = Ok {| max_characters := default 1000%Z mc;
          new_after_n_chars := default 800%Z na;
          combine_text_under_n_chars := default 200%Z cu;
          overlap := default 50%Z ov;
          overlap_all := default false oa;
          multipage_sections := default true ms |}.
Proof. reflexivity. Qed.

(** C2 fails on the code: an overlap above the maximum, and thresholds that
    are zero or negative, give a configuration all the same. *)
Lemma ChunkingConfig_init_invalid_accepted :
  ChunkingConfig_init (Some 100%Z) (Some 80%Z) (Some 20%Z) (Some 150%Z) None None
  = Ok {| max_characters := 100; new_after_n_chars := 80;
          combine_text_under_n_chars := 20; overlap := 150;
          overlap_all := false; multipage_sections := true |}
  ∧ ChunkingConfig_init (Some 0%Z) (Some (-5)%Z) (Some (-1)%Z) (Some 0%Z) None None
    = Ok {| max_characters := 0; new_after_n_chars := -5;
            combine_text_under_n_chars := -1; overlap := 0;
            overlap_all := false; multipage_sections := true |}.
Proof. split; reflexivity. Qed.

(** ** [ask_question]: the preview of a source *)

Section Preview.
Import PyStrFacts.

Lemma preview_long doc :
  100 < String.length (page_content doc) ->
  Query.preview doc = PyStr.slice_to 100 (page_content doc) +:+ "...".
Proof.
  intros H; unfold Query.preview.
  destruct (Nat.ltb_spec 100 (String.length (page_content doc))); [reflexivity | lia].
Qed.

Lemma preview_short doc :
  String.length (page_content doc) <= 100 -> Query.preview doc = page_content doc.
Proof.
  intros H; unfold Query.preview.
  destruct (Nat.ltb_spec 100 (String.length (page_content doc))); [lia | reflexivity].
Qed.

Lemma preview_same doc : SetupRAG.preview doc = Query.preview doc.
Proof. reflexivity. Qed.

Lemma print_sources_same i docs : SetupRAG.print_sources i docs = Query.print_sources i docs.
Proof. revert i; induction docs as [|d docs IH]; intros i; simpl; [|rewrite IH]; reflexivity. Qed.

Lemma ask_question_same qa_chain question :
  SetupRAG.ask_question qa_chain question = Query.ask_question qa_chain question.
Proof.
  unfold SetupRAG.ask_question, Query.ask_question.
  destruct qa_chain as [invoke|]; [|reflexivity].
  destruct (invoke question); [rewrite print_sources_same|]; reflexivity.
Qed.

Lemma print_sources_lookup i docs k doc :
  docs !! k = Some doc ->
  Query.print_sources i docs !! k
  = Some (SourceLine (i + k) (Py.dict_get (doc_metadata doc) "source" (JStr "Unknown"))
            (Query.preview doc)).
Proof.
  revert i k; induction docs as [|d docs IH]; intros i [|k] H; simpl in *; try discriminate.
  - injection H as ->. rewrite Nat.add_0_r; reflexivity.
  - rewrite (IH (S i) k H). do 2 f_equal. lia.
Qed.

End Preview.

(** C9: in [query.py] and in [setupRAG.py] alike, the line printed for the
    k-th retrieved document carries a preview that is the first 100
    characters of the document's text followed by "..." when the text is
    longer than 100 characters, and the whole text with nothing added when it
    is not; the three dots are there if and only if the text is longer than
    100 characters. *)
Theorem ask_question_source_preview
    (invoke : string -> res QAResult) (question : string) (r : QAResult)
    (k : nat) (doc : Document) :
  invoke question = Ok r ->
  source_documents r !! k = Some doc ->
  let content := page_content doc in
  let source := Py.dict_get (doc_metadata doc) "source" (JStr "Unknown") in
  ∃ preview,
    (Query.ask_question (Some invoke) question).1 !! (4 + k)
      = Some (SourceLine (1 + k) source preview)
    ∧ (SetupRAG.ask_question (Some invoke) question).1 !! (4 + k)
      = Some (SourceLine (1 + k) source preview)
    ∧ (100 < String.length content ->
       preview = PyStr.slice_to 100 content +:+ "..."
       ∧ String.length (PyStr.slice_to 100 content) = 100)
    ∧ (String.length content <= 100 -> preview = content)
    ∧ (preview = PyStr.slice_to 100 content +:+ "..." <-> 100 < String.length content).
Proof.
  intros Hinv Hdoc content source. subst content source.
  exists (Query.preview doc).
  assert (Hq : (Query.ask_question (Some invoke) question).1 !! (4 + k)
               = Some (SourceLine (1 + k)
                         (Py.dict_get (doc_metadata doc) "source" (JStr "Unknown"))
                         (Query.preview doc))).
  { unfold Query.ask_question; rewrite Hinv; simpl.
    apply print_sources_lookup; exact Hdoc. }
  split; [exact Hq|].
  split; [rewrite ask_question_same; exact Hq|].
  split; [|split].
  - intros Hlong; split; [apply preview_long; exact Hlong|].
    rewrite PyStrFacts.length_slice_to. lia.
  - apply preview_short.
  - split.
    + intros Heq.
      destruct (Nat.le_gt_cases (String.length (page_content doc)) 100) as [Hle|Hgt];
        [|exact Hgt].
      rewrite (preview_short doc Hle) in Heq.
      apply (f_equal String.length) in Heq.
      rewrite PyStrFacts.length_append, PyStrFacts.length_slice_to in Heq.
      change (String.length "...") with 3 in Heq. lia.
    + apply preview_long.
Qed.

Lemma ask_question_source_preview_witness :
  let long := PyStr.repeat "a"%char 101 in
  let doc := {| page_content := long; doc_metadata := {[ "source" := JStr "a.pdf.json" ]} |} in
  ∃ preview,
    (Query.ask_question
       (Some (λ _, Ok {| result := "yes"; source_documents := [doc] |})) "q").1 !! 4
      = Some (SourceLine 1 (JStr "a.pdf.json") preview)
    ∧ preview = PyStr.repeat "a"%char 100 +:+ "...".
Proof.
  intros long doc.
  destruct (ask_question_source_preview
              (λ _, Ok {| result := "yes"; source_documents := [doc] |}) "q"
              {| result := "yes"; source_documents := [doc] |} 0 doc
              eq_refl eq_refl) as (preview & Hq & _ & Hlong & _).
  exists preview; split; [exact Hq|].
  destruct Hlong as [-> _]; [vm_compute; lia | reflexivity].
Defined.

(** ** [load_chunked_files] *)

Section Adapter.



(** The metadata of a record: the object under [metadata], or an empty
    one when the record has none. *)
Lemma metadata_dict_get (c m : gmap string json) :
  c !! "metadata" = Some (JDict m) ∨ c !! "metadata" = None ∧ m = ∅ <->
  Py.dict_get c "metadata" (JDict ∅) = JDict m.
Proof.
  unfold Py.dict_get. split.
  - intros [-> | [-> ->]]; reflexivity.
  - destruct (c !! "metadata") as [v|]; intros H.
    + left. congruence.
    + right. split; [reflexivity | congruence].
Qed.

(** What the loop body returns on a record with a text and a metadata
    object, or none. *)
Lemma chunk_to_document_Ok json_file (c m : gmap string json) t :
  c !! "text" = Some (JStr t) ->
  c !! "metadata" = Some (JDict m) ∨ c !! "metadata" = None ∧ m = ∅ ->
  chunk_to_document json_file (JDict c)
  = Ok {| page_content := t;
          doc_metadata :=
            delete "languages"
              (<["source" := match m !! "original_filename" with
                             | Some original_filename => original_filename
                             | None => JStr (PurePath.stem (name json_file))
                             end]> m) |}.
Proof.
  intros Ht Hm. apply metadata_dict_get in Hm.
  unfold chunk_to_document. simpl. rewrite Hm. simpl.
  rewrite Ht. simpl. f_equal. unfold Py.dict_get. f_equal.
  case_decide as Hl; [reflexivity|].
  symmetry; apply delete_id.
  destruct (_ !! "languages") eqn:E; [|reflexivity].
  exfalso; apply Hl; eauto.
Qed.



(** The stem of a chunks file drops [.json] and nothing else. *)
Lemma stem_chunks_json base :
  PurePath.stem (base +:+ ".chunks.json") = base +:+ ".chunks".
Proof.
  unfold PurePath.stem, PurePath.suffix_index.
  rewrite (PyStrFacts.rfind_dot_append base ".chunks.json" 7 eq_refl).
  rewrite PyStrFacts.length_append.
  change (String.length ".chunks.json") with 12.
  replace ((0 <? String.length base + 7)%nat
           && (String.length base + 7 <? String.length base + 12 - 1)%nat) with true.
  - replace (String.length base + 7) with (String.length (base +:+ ".chunks")).
    + change ".chunks.json" with (".chunks" +:+ ".json").
      rewrite <- PyStrFacts.append_assoc.
      apply PyStrFacts.slice_to_append.
    + rewrite PyStrFacts.length_append; reflexivity.
  - symmetry; apply andb_true_intro; split; apply Nat.ltb_lt; lia.
Qed.




Lemma glob_elem dir sfx w p :
  p ∈ match (IO.glob dir sfx w).1 with Ok l => l | Raise _ => [] end
  <-> parent p = dir ∧ PyStr.endswith sfx (name p) = true ∧ is_Some (files w !! p).
Proof.
  unfold IO.glob; simpl. rewrite list_elem_of_filter. split.
  - intros [[Hd He] Hin]. repeat split; auto.
    apply list_elem_of_fmap in Hin as ([q x] & -> & Hin).
    apply elem_of_map_to_list in Hin. simpl; eauto.
  - intros (Hd & He & [x Hx]). split; [auto|].
    apply list_elem_of_fmap. exists (p, x); split; [reflexivity|].
    apply elem_of_map_to_list; exact Hx.
Qed.

End Adapter.




(** A record written by [save_chunks] has its text and the name of the
    original file, so its document has the chunk's text and that name as
    [source]. *)
Lemma saved_chunk_adapts json_file i chunk original_filename created_at doc :
  adapts json_file (chunk_data i chunk original_filename created_at) doc ->
  page_content doc = chunk_text chunk
  ∧ doc_metadata doc !! "source" = Some (JStr original_filename).
Proof.
  intros (c & m & t & Hc & Ht & Hm & Hcontent & Hsource & _).
  unfold chunk_data in Hc. injection Hc as <-.
  rewrite Hcontent, Hsource. clear Hcontent Hsource.
  split.
  - assert (Some (JStr t) = Some (JStr (chunk_text chunk))) as Heq
      by (rewrite <- Ht; reflexivity).
    congruence.
  - destruct Hm as [Hm | [Hm _]]; [|discriminate Hm].
    assert (Hname : m !! "original_filename" = Some (JStr original_filename)).
    { assert (Some (JDict m) = Some (JDict m)) as _ by reflexivity.
      destruct (orig_elements chunk) as [[|e es]|];
        vm_compute in Hm; injection Hm as <-; reflexivity. }
    rewrite Hname. reflexivity.
Qed.

(** C10: a record whose metadata has no [original_filename] gets as
    [source] the stem of the chunks file it was read from, which for a file
    named [base.chunks.json] is [base.chunks] (for [doc.pdf.chunks.json],
    [doc.pdf.chunks]) and not the name of the original document; a record
    that has the key gets its value, whatever it is. *)
Theorem load_chunked_files_source
    (json_file : Path) (c m : gmap string json) (t : string) :
  c !! "text" = Some (JStr t) ->
  c !! "metadata" = Some (JDict m) ∨ c !! "metadata" = None ∧ m = ∅ ->
  ∃ doc,
    chunk_to_document json_file (JDict c) = Ok doc
    ∧ (m !! "original_filename" = None ->
       doc_metadata doc !! "source" = Some (JStr (PurePath.stem (name json_file))))
    ∧ (∀ v, m !! "original_filename" = Some v -> doc_metadata doc !! "source" = Some v)
    ∧ (∀ base, name json_file = base +:+ ".chunks.json" ->
               PurePath.stem (name json_file) = base +:+ ".chunks").
Proof.
  intros Ht Hm.
  eexists; split; [apply chunk_to_document_Ok; eassumption|]. simpl.
  rewrite lookup_delete_ne by discriminate. rewrite lookup_insert_eq.
  split; [|split].
  - intros ->; reflexivity.
  - intros v ->; reflexivity.
  - intros base ->; apply stem_chunks_json.
Qed.

Lemma load_chunked_files_source_witness :
  let json_file := Demo.path (chunked_dir Demo.here) "doc.pdf.chunks.json" in
  let c : gmap string json :=
    {[ "text" := JStr "hello"; "metadata" := JDict {[ "chunk_index" := JInt 1 ]} ]} in
  let c' : gmap string json :=
    {[ "text" := JStr "hello";
       "metadata" := JDict {[ "original_filename" := JStr "doc.pdf.json" ]} ]} in
  (∃ doc,
     chunk_to_document json_file (JDict c) = Ok doc
     ∧ doc_metadata doc !! "source" = Some (JStr "doc.pdf.chunks"))
  ∧ (∃ doc,
       chunk_to_document json_file (JDict c') = Ok doc
       ∧ doc_metadata doc !! "source" = Some (JStr "doc.pdf.json")).
Proof.
  intros json_file c c'. split.
  - destruct (load_chunked_files_source json_file c {[ "chunk_index" := JInt 1 ]} "hello"
                eq_refl (or_introl eq_refl)) as (doc & Hdoc & Hnone & _ & Hstem).
    exists doc; split; [exact Hdoc|].
    rewrite (Hnone eq_refl). rewrite (Hstem "doc.pdf" eq_refl). reflexivity.
  - destruct (load_chunked_files_source json_file c'
                {[ "original_filename" := JStr "doc.pdf.json" ]} "hello"
                eq_refl (or_introl eq_refl)) as (doc & Hdoc & _ & Hsome & _).
    exists doc; split; [exact Hdoc|].
    exact (Hsome _ eq_refl).
Defined.

(** ** Effects of the operations on the world *)

Section Effects.

Lemma log_stable_ret {A} (a : A) : log_stable (mret a).
Proof. intros w; reflexivity. Qed.

Lemma log_stable_lift {A} (r : res A) : log_stable (lift r).
Proof. intros w; reflexivity. Qed.

Lemma log_stable_bind {A B} (m : M A) (f : A -> M B) :
  log_stable m -> (∀ a, log_stable (f a)) -> log_stable (m ≫= f).
Proof.
  intros Hm Hf w. unfold mbind, M_bind.
  specialize (Hm w). destruct (m w) as [[a|e] w1]; simpl in *.
  - rewrite Hf; exact Hm.
  - exact Hm.
Qed.

Lemma log_stable_open_w f : log_stable (IO.open_w f).
Proof. intros w; reflexivity. Qed.

Lemma log_stable_write f s : log_stable (IO.write f s).
Proof. intros w; reflexivity. Qed.

Lemma log_stable_json_dump v f : log_stable (IO.json_dump v f).
Proof. intros w; reflexivity. Qed.

Lemma log_stable_close f : log_stable (IO.close f).
Proof. intros w; unfold IO.close. destruct (io_budget w) as [[|n]|]; reflexivity. Qed.

Lemma log_stable_now : log_stable IO.now_isoformat.
Proof. intros w; reflexivity. Qed.

Lemma log_stable_json_output i chunks nm : log_stable (json_output i chunks nm).
Proof.
  revert i; induction chunks as [|c chunks IH]; intros i; simpl.
  - apply log_stable_ret.
  - apply log_stable_bind; [apply log_stable_now|]; intros t.
    apply log_stable_bind; [apply IH|]; intros rs.
    apply log_stable_ret.
Qed.

Lemma log_stable_write_all f lines : log_stable (write_all f lines).
Proof.
  induction lines as [|s lines IH]; simpl.
  - apply log_stable_ret.
  - apply log_stable_bind; [apply log_stable_write | intros _; exact IH].
Qed.

(** The second loop of [save_chunks] writes the lines of the chunks. *)
Lemma write_chunks_text_lines f i chunks w :
  write_chunks_text f i chunks w = write_all f (chunks_lines i chunks) w.
Proof.
  revert i w; induction chunks as [|c chunks IH]; intros i w; simpl.
  - reflexivity.
  - unfold write_chunk_text, mbind, M_bind.
    repeat (match goal with
            | |- context [IO.write ?f ?s ?w] => destruct (IO.write f s w) as [[[]|?] ?]
            end; try reflexivity).
    apply IH.
Qed.

Lemma log_stable_save_chunks chunks output_file nm :
  log_stable (save_chunks chunks output_file nm).
Proof.
  unfold save_chunks.
  apply log_stable_bind; [apply log_stable_json_output|]; intros rs.
  apply log_stable_bind; [apply log_stable_lift|]; intros jf.
  apply log_stable_bind; [apply log_stable_open_w|]; intros _.
  apply log_stable_bind; [apply log_stable_json_dump|]; intros _.
  apply log_stable_bind; [apply log_stable_close|]; intros _.
  apply log_stable_bind; [apply log_stable_lift|]; intros tf.
  apply log_stable_bind; [apply log_stable_open_w|]; intros _.
  apply log_stable_bind; [apply log_stable_write|]; intros _.
  apply log_stable_bind; [apply log_stable_write|]; intros _.
  apply log_stable_bind; [|intros _; apply log_stable_close].
  intros w. rewrite write_chunks_text_lines. apply log_stable_write_all.
Qed.

End Effects.

(** ** [process_file] *)

Section ProcessFile.

Variable lib : Unstructured.

(** A file that cannot be opened or parsed is logged as an error and
    skipped. *)
Lemma process_file_unreadable input_file output_dir config w e :
  (IO.load_json input_file w).1 = Raise e ->
  process_file lib input_file output_dir config w
  = (Ok false,
     set_log (log w ++ [(INFO, "Processing file: " +:+ name input_file);
                        outcome_record (name input_file) (Failed e)]) w).
Proof.
  intros H. unfold process_file, try_except, mbind, M_bind; simpl.
  unfold IO.load_json in *; simpl in *.
  destruct (files w !! input_file) as [content|]; simpl in *.
  - rewrite H; simpl. unfold set_log; simpl. rewrite <- app_assoc. reflexivity.
  - injection H as <-. unfold set_log; simpl. rewrite <- app_assoc. reflexivity.
Qed.

(** Data that is empty, or falsy in any other way, is logged as a warning
    and skipped. *)
Lemma process_file_falsy input_file output_dir config w json_data :
  (IO.load_json input_file w).1 = Ok json_data ->
  Py.truthy json_data = false ->
  process_file lib input_file output_dir config w
  = (Ok false,
     set_log (log w ++ [(INFO, "Processing file: " +:+ name input_file);
                        outcome_record (name input_file) Empty]) w).
Proof.
  intros H Hf. unfold process_file, try_except, mbind, M_bind; simpl.
  unfold IO.load_json in *; simpl in *.
  destruct (files w !! input_file) as [content|]; simpl in *; [|discriminate].
  rewrite H, Hf; simpl. unfold set_log; simpl. rewrite <- app_assoc. reflexivity.
Qed.

(** Data that [json_to_elements] rejects is logged as an error and
    skipped, before the chunker is called. *)
Lemma process_file_unconvertible input_file output_dir config w json_data e :
  (IO.load_json input_file w).1 = Ok json_data ->
  Py.truthy json_data = true ->
  json_to_elements lib json_data = Raise e ->
  process_file lib input_file output_dir config w
  = (Ok false,
     set_log (log w ++ [(INFO, "Processing file: " +:+ name input_file);
                        outcome_record (name input_file) (Failed e)]) w).
Proof.
  intros H Ht He. unfold process_file, try_except, mbind, M_bind; simpl.
  unfold IO.load_json in *; simpl in *.
  destruct (files w !! input_file) as [content|]; simpl in *; [|discriminate].
  rewrite H, Ht; simpl. unfold lift. rewrite He; simpl.
  unfold set_log; simpl. rewrite <- app_assoc. reflexivity.
Qed.

(** Whatever happens, [process_file] returns, and the records it adds to
    the log end with the outcome it returns. *)
Lemma process_file_records input_file output_dir config w :
  ∃ o records w',
    process_file lib input_file output_dir config w = (Ok (succeeded o), w')
    ∧ log w' = log w ++ records
    ∧ file_records input_file o records.
Proof.
  destruct (IO.load_json input_file w).1 as [json_data|e] eqn:Hload.
  2: { exists (Failed e),
         [(INFO, "Processing file: " +:+ name input_file);
          outcome_record (name input_file) (Failed e)].
       eexists; split; [apply process_file_unreadable; exact Hload|].
       split; [reflexivity|]. exists []; split; [reflexivity | constructor]. }
  destruct (Py.truthy json_data) eqn:Htruthy.
  2: { exists Empty,
         [(INFO, "Processing file: " +:+ name input_file);
          outcome_record (name input_file) Empty].
       eexists; split; [eapply process_file_falsy; eassumption|].
       split; [reflexivity|]. exists []; split; [reflexivity | constructor]. }
  destruct (json_to_elements lib json_data) as [elements|e] eqn:Hconv.
  2: { exists (Failed e),
         [(INFO, "Processing file: " +:+ name input_file);
          outcome_record (name input_file) (Failed e)].
       eexists; split; [eapply process_file_unconvertible; eassumption|].
       split; [reflexivity|]. exists []; split; [reflexivity | constructor]. }
  unfold process_file, try_except, mbind, M_bind; simpl.
  unfold IO.load_json in *; simpl in *.
  destruct (files w !! input_file) as [content|]; simpl in *; [|discriminate].
  rewrite Hload, Htruthy; simpl. rewrite Hconv; simpl.
  destruct (chunk_elements_by_title lib elements config) as [chunks|e]; simpl.
  2: { exists (Failed e). eexists. eexists. split; [reflexivity|]. simpl.
       split; [rewrite <- !app_assoc; reflexivity|].
       eexists [_]; split; [reflexivity|]. repeat constructor. }
  match goal with |- context [save_chunks ?c ?o ?n ?w0] =>
    pose proof (log_stable_save_chunks c o n w0) as Hlog;
    destruct (save_chunks c o n w0) as [[[]|e] w1]
  end; simpl in *.
  - exists Saved. eexists. eexists. split; [reflexivity|]. simpl. rewrite Hlog.
    split; [rewrite <- !app_assoc; reflexivity|].
    eexists [_; _]; split; [reflexivity|]. repeat constructor.
  - exists (Failed e). eexists. eexists. split; [reflexivity|]. simpl. rewrite Hlog.
    split; [rewrite <- !app_assoc; reflexivity|].
    eexists [_; _]; split; [reflexivity|]. repeat constructor.
Qed.

End ProcessFile.

(** ** The batch *)

Section Batch.

Variable lib : Unstructured.

Lemma successes_cons o records outs :
  successes ((o, records) :: outs)
  = (if succeeded o then 1 else 0) + successes outs.
Proof.
  unfold successes. rewrite filter_cons. simpl.
  destruct (succeeded o); reflexivity.
Qed.

(** The loop of [main] processes every file in turn, whatever the
    outcomes of the files before it, and counts the successes. *)
Lemma count_successes_records json_files out config n w :
  ∃ outs w',
    count_successes lib json_files out config n w = (Ok (n + successes outs), w')
    ∧ batch_records json_files outs
    ∧ log w' = log w ++ concat (snd <$> outs).
Proof.
  revert n w; induction json_files as [|f rest IH]; intros n w; simpl.
  - exists [], w. split; [unfold successes; simpl; rewrite Nat.add_0_r; reflexivity|].
    split; [constructor | simpl; rewrite app_nil_r; reflexivity].
  - destruct (process_file_records lib f out config w)
      as (o & records & w1 & Hrun & Hlog & Hrec).
    unfold mbind, M_bind. rewrite Hrun.
    destruct (IH (if succeeded o then n + 1 else n) w1) as (outs & w' & Hrest & Hall & Hlog').
    exists ((o, records) :: outs), w'.
    split; [|split].
    + rewrite Hrest, successes_cons. do 2 f_equal. destruct (succeeded o); lia.
    + constructor; [exact Hrec | exact Hall].
    + rewrite Hlog', Hlog. simpl. rewrite app_assoc. reflexivity.
Qed.

(** [main] up to the listing of the input directory, when the log file
    opens and no regular file has the name of the output directory. *)
Lemma main_start current_dir w :
  logging_error w = None ->
  files w !! PurePath.of_str (output_dir current_dir) = None ->
  main lib current_dir w
  = let w0 := set_log (log w
                       ++ [(INFO, "Starting chunking process");
                           (INFO, "Configuration: max_chars=1000, new_after=800, "
                                  +:+ "combine_under=200")]) w in
    let config := {| max_characters := 1000; new_after_n_chars := 800;
                     combine_text_under_n_chars := 200; overlap := 50;
                     overlap_all := false; multipage_sections := true |} in
    match (IO.glob (input_dir current_dir) ".json" w).1 with
    | Ok [] =>
        Logger.error ("No JSON files found in " +:+ input_dir current_dir) w0
    | Ok json_files =>
        (_ ← Logger.info ("Found " +:+ pretty (length json_files)
                          +:+ " JSON files to process");
         success_count ← count_successes lib json_files (output_dir current_dir) config 0;
         _ ← Logger.info ("Chunking complete! Processed " +:+ pretty success_count +:+ "/"
                          +:+ pretty (length json_files) +:+ " files successfully");
         Logger.info ("Output saved to: " +:+ output_dir current_dir)) w0
    | Raise e => (Raise e, w0)
    end.
Proof.
  intros Hlogging Hdir.
  unfold main. cbv zeta.
  set (inp := input_dir current_dir). set (out := output_dir current_dir) in *.
  clearbody inp out.
  unfold mbind, M_bind, setup_logging. rewrite Hlogging.
  unfold Logger.info at 1. unfold Logger.emit at 1.
  unfold IO.mkdir. cbn [files set_log]. rewrite Hdir.
  simpl. rewrite <- app_assoc.
  destruct (filter _ _); reflexivity.
Qed.

(** When the log file cannot be opened, or a regular file has the name of
    the output directory, [main] raises before it looks at any input. *)
Lemma main_raises_early current_dir w :
  (∀ e, logging_error w = Some e -> main lib current_dir w = (Raise e, w))
  ∧ (∀ content,
       logging_error w = None ->
       files w !! PurePath.of_str (output_dir current_dir) = Some content ->
       main lib current_dir w
       = (Raise (OSError ("[Errno 17] File exists: '" +:+ output_dir current_dir +:+ "'")),
          set_log (log w ++ [(INFO, "Starting chunking process")]) w)).
Proof.
  split.
  - intros e He. unfold main, mbind, M_bind, setup_logging. rewrite He. reflexivity.
  - intros content Hlogging Hdir.
    unfold main, mbind, M_bind, setup_logging. rewrite Hlogging.
    unfold Logger.info at 1. unfold Logger.emit at 1.
    unfold IO.mkdir. cbn [files set_log]. rewrite Hdir. reflexivity.
Qed.

End Batch.

(** C7 (as the code has it): when the log file opens and no regular file
    has the name of the output directory, [main] lists the input directory.
    When it holds at least one JSON file, [main] attempts every file in the
    order of the listing, whatever became of the files before it; the log
    gets, for each file in turn, the record that announces it and, last of
    the file's records, its outcome (saved, empty, or failed with the error);
    the batch then reports the number of files saved out of the number of
    files found.  When it holds none, [main] logs the error that no JSON file
    was found and returns, and no count is reported. *)
Theorem main_attempts_every_file
    (lib : Unstructured) (current_dir : string) (w : world) (json_files : list Path) :
  logging_error w = None ->
  files w !! PurePath.of_str (output_dir current_dir) = None ->
  (IO.glob (input_dir current_dir) ".json" w).1 = Ok json_files ->
  let start := [(INFO, "Starting chunking process");
                (INFO, "Configuration: max_chars=1000, new_after=800, combine_under=200")] in
  (json_files ≠ [] ->
   ∃ outs w',
     main lib current_dir w = (Ok tt, w')
     ∧ batch_records json_files outs
     ∧ log w'
       = log w ++ start
         ++ [(INFO, "Found " +:+ pretty (length json_files) +:+ " JSON files to process")]
         ++ concat (snd <$> outs)
         ++ [(INFO, "Chunking complete! Processed " +:+ pretty (successes outs) +:+ "/"
                    +:+ pretty (length json_files) +:+ " files successfully");
             (INFO, "Output saved to: " +:+ output_dir current_dir)])
  ∧ (json_files = [] ->
     main lib current_dir w
     = (Ok tt,
        set_log (log w ++ start
                 ++ [(ERROR, "No JSON files found in " +:+ input_dir current_dir)]) w)).
Proof.
  intros Hlogging Hdir Hglob start.
  rewrite (main_start lib current_dir w Hlogging Hdir), Hglob. cbv zeta.
  split.
  - intros Hne. destruct json_files as [|f rest]; [congruence|].
    cbv beta iota. set (files_ := f :: rest) in *.
    unfold mbind, M_bind, Logger.info, Logger.emit.
    match goal with |- context [count_successes _ _ _ ?c 0 ?w0] =>
      destruct (count_successes_records lib files_ (output_dir current_dir) c 0 w0)
        as (outs & w1 & Hrun & Hall & Hlog)
    end.
    rewrite Hrun. simpl.
    exists outs. eexists. split; [reflexivity|]. split; [exact Hall|].
    simpl. rewrite Hlog. simpl. rewrite <- !app_assoc. reflexivity.
  - intros ->. unfold Logger.error, Logger.emit. cbn.
    rewrite <- !app_assoc. reflexivity.
Qed.

(** ** [save_chunks] *)

(** A file that was just opened for writing is empty. *)
Lemma lookup_opened (m : gmap Path (list fragment)) f : <[f := []]> m !! f = Some [].
Proof. apply lookup_insert_eq. Qed.

Section SaveChunks.

(** The records are stamped with successive values of the clock, and
    nothing but the clock moves. *)
Lemma json_output_spec i chunks nm w :
  ∃ w1,
    json_output i chunks nm w = (Ok (chunk_records (clock w) (ticks w) i chunks nm), w1)
    ∧ files w1 = files w ∧ io_budget w1 = io_budget w
    ∧ clock w1 = clock w ∧ ticks w1 = ticks w + length chunks.
Proof.
  revert i w; induction chunks as [|c chunks IH]; intros i w; simpl.
  - exists w. repeat split; auto.
  - unfold mbind, M_bind; simpl.
    destruct (IH (S i) (set_ticks (S (ticks w)) w)) as (w1 & Hrun & Hf & Hb & Hc & Ht).
    simpl in *. rewrite Hrun. exists w1. repeat split; auto. lia.
Qed.

(** The close of a file, by what the device still takes. *)
Lemma close_fails f w :
  io_budget w = Some 0 ->
  IO.close f w
  = (Raise IO.device_error,
     set_files (<[f := [Cut (default [] (files w !! f))]]> (files w)) w).
Proof. intros H. unfold IO.close. rewrite H. reflexivity. Qed.

Lemma close_takes f w n :
  io_budget w = Some (S n) -> IO.close f w = (Ok tt, set_io_budget (Some n) w).
Proof. intros H. unfold IO.close. rewrite H. reflexivity. Qed.

Lemma close_unlimited f w : io_budget w = None -> IO.close f w = (Ok tt, w).
Proof. intros H. unfold IO.close. rewrite H. reflexivity. Qed.

(** The writes to an open file return, and the lines are in the file,
    not yet flushed. *)
Lemma write_all_spec f lines w content :
  files w !! f = Some content ->
  ∃ w',
    write_all f lines w = (Ok tt, w')
    ∧ files w' = <[f := content ++ (Written <$> lines)]> (files w)
    ∧ io_budget w' = io_budget w.
Proof.
  revert w content; induction lines as [|s lines IH]; intros w content Hf; simpl.
  - exists w. repeat split; auto.
    rewrite app_nil_r. symmetry; apply insert_id; exact Hf.
  - unfold mbind, M_bind, IO.write.
    destruct (IH (IO.append f (Written s) w) (content ++ [Written s]))
      as (w' & Hrun & Hfiles & Hb').
    + simpl. rewrite Hf. apply lookup_insert_eq.
    + exists w'. split; [exact Hrun|]. split; [|exact Hb'].
      rewrite Hfiles. simpl. rewrite Hf. simpl.
      rewrite insert_insert_eq, <- app_assoc. reflexivity.
Qed.

(** The two targets of [save_chunks] are different files. *)
Lemma targets_differ (output_file : Path) :
  {| parent := parent output_file;
     name := PurePath.stem (name output_file) +:+ ".chunks.json" |}
  ≠ {| parent := parent output_file;
       name := PurePath.stem (name output_file) +:+ ".chunks.txt" |}.
Proof.
  intros H. injection H as H.
  apply PyStrFacts.append_inj_r in H. discriminate.
Qed.

Lemma with_suffix_Ok (output_file : Path) sfx :
  name output_file ≠ "" ->
  PurePath.with_suffix output_file sfx
  = Ok {| parent := parent output_file;
          name := PurePath.stem (name output_file) +:+ sfx |}.
Proof.
  intros H. unfold PurePath.with_suffix.
  destruct (String.eqb_spec (name output_file) ""); [contradiction | reflexivity].
Qed.

(** [save_chunks] as the writing of the JSON file followed by the writing
    of the text file. *)
Lemma save_chunks_unfold chunks (output_file : Path) nm w :
  name output_file ≠ "" ->
  let json_file := {| parent := parent output_file;
                      name := PurePath.stem (name output_file) +:+ ".chunks.json" |} in
  let txt_file := {| parent := parent output_file;
                     name := PurePath.stem (name output_file) +:+ ".chunks.txt" |} in
  save_chunks chunks output_file nm w
  = match json_output 0 chunks nm w with
    | (Ok records, w1) =>
        match IO.close json_file
                (IO.append json_file (Dumped (JList records))
                   (set_files (<[json_file := []]> (files w1)) w1)) with
        | (Ok _, w2) =>
            match write_all txt_file (text_lines nm chunks)
                    (set_files (<[txt_file := []]> (files w2)) w2) with
            | (Ok _, w3) => IO.close txt_file w3
            | (Raise e, w3) => (Raise e, w3)
            end
        | (Raise e, w2) => (Raise e, w2)
        end
    | (Raise e, w1) => (Raise e, w1)
    end.
Proof.
  intros Hname json_file txt_file.
  unfold save_chunks, mbind, M_bind.
  destruct (json_output 0 chunks nm w) as [[records|e] w1]; [|reflexivity].
  unfold lift. rewrite !with_suffix_Ok by exact Hname.
  fold json_file txt_file. unfold IO.open_w at 1. unfold IO.json_dump.
  destruct (IO.close json_file _) as [[[]|e] w2]; [|reflexivity].
  unfold IO.open_w. unfold text_lines. simpl. unfold mbind, M_bind.
  unfold IO.write at 1 2.
  rewrite write_chunks_text_lines. reflexivity.
Qed.

(** The files after [save_chunks], by what the device still takes: both
    files whole, the JSON file cut and the text file not opened, or the JSON
    file whole and the text file cut. *)
Lemma save_chunks_effect chunks (output_file : Path) nm w :
  name output_file ≠ "" ->
  let json_file := {| parent := parent output_file;
                      name := PurePath.stem (name output_file) +:+ ".chunks.json" |} in
  let txt_file := {| parent := parent output_file;
                     name := PurePath.stem (name output_file) +:+ ".chunks.txt" |} in
  let records := JList (chunk_records (clock w) (ticks w) 0 chunks nm) in
  let lines := text_lines nm chunks in
  let r := (save_chunks chunks output_file nm w).1 in
  let w' := (save_chunks chunks output_file nm w).2 in
  match io_budget w with
  | Some O =>
      r = Raise IO.device_error
      ∧ files w' = <[json_file := [Cut [Dumped records]]]> (files w)
  | Some (S O) =>
      r = Raise IO.device_error
      ∧ files w' = <[txt_file := [Cut (Written <$> lines)]]>
                     (<[json_file := [Dumped records]]> (files w))
  | _ =>
      r = Ok tt
      ∧ files w' = <[txt_file := Written <$> lines]>
                     (<[json_file := [Dumped records]]> (files w))
  end.
Proof.
  intros Hname json_file txt_file records lines r w'. subst r w' lines.
  rewrite (save_chunks_unfold chunks output_file nm w Hname).
  fold json_file txt_file.
  destruct (json_output_spec 0 chunks nm w) as (w1 & Hrun & Hf & Hb & _ & _).
  rewrite Hrun. fold records.
  destruct (io_budget w) as [[|n]|] eqn:Hbw.
  - (* the device fails while the JSON file is written *)
    rewrite close_fails by exact Hb. cbn [fst snd files set_files IO.append].
    rewrite lookup_opened. cbn [default app]. rewrite lookup_insert_eq. cbn [default].
    rewrite !insert_insert_eq, Hf. split; reflexivity.
  - (* the JSON file is written; the text file may be *)
    rewrite (close_takes _ _ n) by exact Hb. cbv beta iota.
    match goal with |- context [write_all _ _ ?w0] =>
      destruct (write_all_spec txt_file (text_lines nm chunks) w0 [])
        as (w3 & Hw & Hfiles & Hb3); [cbn; apply lookup_insert_eq|]
    end.
    rewrite Hw. cbv beta iota.
    cbn [io_budget set_io_budget set_files files IO.append app] in Hfiles, Hb3.
    rewrite lookup_opened in Hfiles. cbn [default app] in Hfiles.
    rewrite !insert_insert_eq, Hf in Hfiles.
    destruct n as [|n].
    + rewrite close_fails by exact Hb3. cbn [fst snd files set_files].
      rewrite Hfiles, lookup_insert_eq. cbn [default].
      rewrite insert_insert_eq. split; reflexivity.
    + rewrite (close_takes _ _ n) by exact Hb3. cbn [fst snd files set_io_budget].
      split; [reflexivity | exact Hfiles].
  - rewrite close_unlimited by exact Hb. cbv beta iota.
    match goal with |- context [write_all _ _ ?w0] =>
      destruct (write_all_spec txt_file (text_lines nm chunks) w0 [])
        as (w3 & Hw & Hfiles & Hb3); [cbn; apply lookup_insert_eq|]
    end.
    rewrite Hw. cbv beta iota.
    cbn [io_budget set_io_budget set_files files IO.append app] in Hfiles, Hb3.
    rewrite lookup_opened in Hfiles. cbn [default app] in Hfiles.
    rewrite !insert_insert_eq, Hf in Hfiles.
    rewrite close_unlimited by (rewrite Hb3; exact Hb). cbn [fst snd].
    split; [reflexivity | exact Hfiles].
Qed.

End SaveChunks.

(** The lookups that remain after the writes of [save_chunks]: in the
    target that was written last, in the other target, and elsewhere. *)
Ltac solve_targets Hne :=
  repeat split;
  [ first [apply lookup_insert_eq
          | rewrite lookup_insert_ne by congruence; apply lookup_insert_eq]
  | first [apply lookup_insert_eq | apply lookup_insert_ne; exact Hne]
  | intros p Hp1 Hp2; rewrite !lookup_insert_ne by congruence; reflexivity ].

(** With a device that does not fail, [save_chunks] returns and both
    targets hold every chunk. *)
Lemma save_chunks_succeeds
    (chunks : list Chunk) (output_file : Path) (original_filename : string) (w : world) :
  name output_file ≠ "" ->
  io_budget w = None ->
  let json_file := {| parent := parent output_file;
                      name := PurePath.stem (name output_file) +:+ ".chunks.json" |} in
  let txt_file := {| parent := parent output_file;
                     name := PurePath.stem (name output_file) +:+ ".chunks.txt" |} in
  let records := JList (chunk_records (clock w) (ticks w) 0 chunks original_filename) in
  let r := (save_chunks chunks output_file original_filename w).1 in
  let w' := (save_chunks chunks output_file original_filename w).2 in
  (r = Ok tt
   ∧ files w' !! json_file = Some [Dumped records]
   ∧ files w' !! txt_file = Some (Written <$> text_lines original_filename chunks))
  ∧ ∀ p, p ≠ json_file -> p ≠ txt_file -> files w' !! p = files w !! p.
Proof.
  intros Hname Hbw json_file txt_file records r w'. subst r w'.
  pose proof (targets_differ output_file) as Hne. fold json_file txt_file in Hne.
  pose proof (save_chunks_effect chunks output_file original_filename w Hname) as Heff.
  cbv zeta in Heff. rewrite Hbw in Heff. fold json_file txt_file records in Heff.
  destruct Heff as [-> ->].
  solve_targets Hne.
Qed.

(** C5 (as the code has it): [save_chunks] writes its two targets in place,
    the JSON file first and then the text file, each through a file object
    that is flushed when it is closed, and removes nothing when the device
    fails.  With a device that takes both files, both hold every chunk.  With
    a device that fails while the JSON file is written, that file is left
    with a part of its text, and the text file is not touched.  With a device
    that fails while the text file is written, the JSON file is whole and the
    text file is left with a part of its text.  In both failures the call
    raises the error of the device.  No other file changes. *)
Theorem save_chunks_writes_in_place
    (chunks : list Chunk) (output_file : Path) (original_filename : string) (w : world) :
  name output_file ≠ "" ->
  let json_file := {| parent := parent output_file;
                      name := PurePath.stem (name output_file) +:+ ".chunks.json" |} in
  let txt_file := {| parent := parent output_file;
                     name := PurePath.stem (name output_file) +:+ ".chunks.txt" |} in
  let records := JList (chunk_records (clock w) (ticks w) 0 chunks original_filename) in
  let lines := text_lines original_filename chunks in
  let r := (save_chunks chunks output_file original_filename w).1 in
  let w' := (save_chunks chunks output_file original_filename w).2 in
  match io_budget w with
  | Some O =>
      r = Raise IO.device_error
      ∧ files w' !! json_file = Some [Cut [Dumped records]]
      ∧ files w' !! txt_file = files w !! txt_file
  | Some (S O) =>
      r = Raise IO.device_error
      ∧ files w' !! json_file = Some [Dumped records]
      ∧ files w' !! txt_file = Some [Cut (Written <$> lines)]
  | _ =>
      r = Ok tt
      ∧ files w' !! json_file = Some [Dumped records]
      ∧ files w' !! txt_file = Some (Written <$> lines)
  end
  ∧ ∀ p, p ≠ json_file -> p ≠ txt_file -> files w' !! p = files w !! p.
Proof.
  intros Hname json_file txt_file records lines r w'. subst r w' lines.
  pose proof (targets_differ output_file) as Hne. fold json_file txt_file in Hne.
  pose proof (save_chunks_effect chunks output_file original_filename w Hname) as Heff.
  cbv zeta in Heff. fold json_file txt_file records in Heff.
  destruct (io_budget w) as [[|[|n]]|]; destruct Heff as [-> ->].
  - (* the JSON file is cut: the text file is as it was *)
    split; [split; [reflexivity|split]|].
    + apply lookup_insert_eq.
    + apply lookup_insert_ne; exact Hne.
    + intros p Hp1 Hp2. apply lookup_insert_ne; congruence.
  - solve_targets Hne.
  - solve_targets Hne.
  - solve_targets Hne.
Qed.

Lemma save_chunks_writes_in_place_witness :
  let c1 := {| chunk_class := CompositeElement; chunk_text := "Intro text";
               orig_elements := None |} in
  let c2 := {| chunk_class := Table; chunk_text := "a b c"; orig_elements := None |} in
  let w := Demo.world_of ∅ None in
  let w' := (save_chunks [c1; c2] (Demo.path (output_dir Demo.here) "doc") "doc.json" w).2 in
  (save_chunks [c1; c2] (Demo.path (output_dir Demo.here) "doc") "doc.json" w).1 = Ok tt
  ∧ files w' !! Demo.path (output_dir Demo.here) "doc.chunks.json"
    = Some [Dumped (JList (chunk_records (clock w) 0 0 [c1; c2] "doc.json"))]
  ∧ files w' !! Demo.path (output_dir Demo.here) "doc.chunks.txt"
    = Some (Written <$> text_lines "doc.json" [c1; c2]).
Proof.
  intros c1 c2 w w'.
  exact (proj1 (save_chunks_writes_in_place [c1; c2]
                  (Demo.path (output_dir Demo.here) "doc") "doc.json" w
                  ltac:(discriminate))).
Defined.

(** C5 fails on the code: when the device fails while the text file is
    written, the call raises and leaves the whole JSON file next to a text
    file with a part of its text; when it fails while the JSON file is
    written, a JSON file with a part of its text is left, and what the file
    held before is gone. *)
Lemma save_chunks_leaves_partial_output :
  let c1 := {| chunk_class := CompositeElement; chunk_text := "Intro text";
               orig_elements := None |} in
  let c2 := {| chunk_class := Table; chunk_text := "a b c"; orig_elements := None |} in
  let records := JList (chunk_records (λ k, "2025-01-01T00:00:0" +:+ pretty k) 0 0
                          [c1; c2] "doc.json") in
  let json_file := Demo.path (output_dir Demo.here) "doc.chunks.json" in
  let txt_file := Demo.path (output_dir Demo.here) "doc.chunks.txt" in
  let before := {[ json_file := [Dumped (JList [])] ]} in
  let late := save_chunks [c1; c2] (Demo.path (output_dir Demo.here) "doc") "doc.json"
                (Demo.world_of before (Some 1)) in
  let early := save_chunks [c1; c2] (Demo.path (output_dir Demo.here) "doc") "doc.json"
                 (Demo.world_of before (Some 0)) in
  (late.1 = Raise IO.device_error
   ∧ files late.2 !! json_file = Some [Dumped records]
   ∧ files late.2 !! txt_file = Some [Cut (Written <$> text_lines "doc.json" [c1; c2])])
  ∧ (early.1 = Raise IO.device_error
     ∧ files early.2 !! json_file = Some [Cut [Dumped records]]
     ∧ files early.2 !! txt_file = None).
Proof. vm_compute. repeat split; reflexivity. Qed.

(** C4 (as the code has it): when the data of a file is empty (an empty
    list of elements, or any other falsy value), [process_file] announces the
    file, logs the warning "Empty JSON file", calls neither the converter
    nor the chunker, writes no file, and returns [False]; the loop of [main]
    so goes on to the next file without counting this one. *)
Theorem process_file_empty_data
    (lib : Unstructured)
    (input_file : Path) (out : string) (config : ChunkingConfig) (w : world)
    (json_data : json) :
  files w !! input_file = Some [Dumped json_data] ->
  Py.truthy json_data = false ->
  let w' := set_log (log w ++ [(INFO, "Processing file: " +:+ name input_file);
                               (WARNING, "Empty JSON file: " +:+ name input_file)]) w in
  process_file lib input_file out config w = (Ok false, w')
  ∧ ∀ rest n,
      count_successes lib (input_file :: rest) out config n w
      = count_successes lib rest out config n w'.
Proof.
  intros Hfile Hfalsy w'.
  assert (Hload : (IO.load_json input_file w).1 = Ok json_data)
    by (unfold IO.load_json; rewrite Hfile; reflexivity).
  split.
  - apply (process_file_falsy lib input_file out config w json_data Hload Hfalsy).
  - intros rest n. simpl. unfold mbind, M_bind.
    rewrite (process_file_falsy lib input_file out config w json_data Hload Hfalsy).
    reflexivity.
Qed.

Lemma process_file_empty_data_witness :
  let input_file := Demo.path (input_dir Demo.here) "empty.json" in
  let w := Demo.world_of {[ input_file := [Dumped (JList [])] ]} None in
  process_file Demo.lib input_file (output_dir Demo.here)
    {| max_characters := 1000; new_after_n_chars := 800; combine_text_under_n_chars := 200;
       overlap := 50; overlap_all := false; multipage_sections := true |} w
  = (Ok false,
     set_log [(INFO, "Processing file: empty.json");
              (WARNING, "Empty JSON file: empty.json")] w).
Proof.
  intros input_file w.
  exact (proj1 (process_file_empty_data Demo.lib input_file (output_dir Demo.here) _ w
                  (JList []) eq_refl eq_refl)).
Defined.

(** C4 fails on the code: a file with an empty element list makes
    [process_file] return [False], and the batch reports it as not
    processed: 0 of 1. *)
Lemma process_file_empty_reports_failure :
  let input_file := Demo.path (input_dir Demo.here) "empty.json" in
  let w := Demo.world_of {[ input_file := [Dumped (JList [])] ]} None in
  (process_file Demo.lib input_file (output_dir Demo.here)
     {| max_characters := 1000; new_after_n_chars := 800; combine_text_under_n_chars := 200;
        overlap := 50; overlap_all := false; multipage_sections := true |} w).1
  = Ok false
  ∧ main Demo.lib Demo.here w
    = (Ok tt,
       set_log [(INFO, "Starting chunking process");
                (INFO, "Configuration: max_chars=1000, new_after=800, combine_under=200");
                (INFO, "Found 1 JSON files to process");
                (INFO, "Processing file: empty.json");
                (WARNING, "Empty JSON file: empty.json");
                (INFO, "Chunking complete! Processed 0/1 files successfully");
                (INFO, "Output saved to: /srv/rag/chunked_output")] w).
Proof. split; vm_compute; reflexivity. Qed.

Lemma main_attempts_every_file_witness :
  let good := Demo.path (input_dir Demo.here) "a.pdf.json" in
  let empty := Demo.path (input_dir Demo.here) "b.json" in
  let broken := Demo.path (input_dir Demo.here) "c.json" in
  let w := Demo.world_of
             {[ good := [Dumped (JList [JDict {[ "type" := JStr "Title";
                                                 "text" := JStr "Intro" ]}])];
                empty := [Dumped (JList [])];
                broken := [Written "{"] ]} None in
  ∃ outs w',
    main Demo.lib Demo.here w = (Ok tt, w')
    ∧ batch_records [broken; good; empty] outs
    ∧ log w'
      = log w
        ++ [(INFO, "Starting chunking process");
            (INFO, "Configuration: max_chars=1000, new_after=800, combine_under=200")]
        ++ [(INFO, "Found " +:+ pretty 3 +:+ " JSON files to process")]
        ++ concat (snd <$> outs)
        ++ [(INFO, "Chunking complete! Processed " +:+ pretty (successes outs) +:+ "/"
                   +:+ pretty 3 +:+ " files successfully");
            (INFO, "Output saved to: /srv/rag/chunked_output")].
Proof.
  intros good empty broken w.
  exact (proj1 (main_attempts_every_file Demo.lib Demo.here w [broken; good; empty]
                  eq_refl ltac:(vm_compute; reflexivity)
                  ltac:(vm_compute; reflexivity)) ltac:(discriminate)).
Defined.

(** C7 fails on the code: when the input directory holds no JSON file,
    [main] logs an error and returns; no count is reported. *)
Lemma main_without_files_reports_no_count :
  let w := Demo.world_of {[ Demo.path (input_dir Demo.here) "notes.txt" := [Written "x"] ]}
             None in
  main Demo.lib Demo.here w
  = (Ok tt,
     set_log [(INFO, "Starting chunking process");
              (INFO, "Configuration: max_chars=1000, new_after=800, combine_under=200");
              (ERROR, "No JSON files found in /srv/rag/output")] w).
Proof. vm_compute; reflexivity. Qed.

(** ** [json_to_elements] and the input errors of [process_file] *)

Section InputErrors.

Variable lib : Unstructured.

Lemma res_map_Raise {A B} (f : A -> res B) l x e :
  x ∈ l -> f x = Raise e -> ∃ e', res_map f l = Raise e'.
Proof.
  induction l as [|a l IH]; intros Hx Hfx.
  - apply elem_of_nil in Hx as [].
  - simpl. apply elem_of_cons in Hx as [->|Hx].
    + rewrite Hfx; eauto.
    + destruct (f a); [|eauto].
      destruct (IH Hx Hfx) as [e' ->]; eauto.
Qed.

(** A record that is not an object has no [get]. *)
Lemma json_to_element_not_object item :
  (∀ d, item ≠ JDict d) ->
  json_to_element lib item = Raise (Py.no_attribute item "get").
Proof.
  intros H. destruct item; try reflexivity.
  exfalso; eapply H; reflexivity.
Qed.

(** What the table gives for the type of a record. *)
Lemma selected_class_get (element_type : option json) cls :
  selected_class element_type = Some cls
  <-> element_type_map_get (default JNull element_type) = Ok cls.
Proof.
  destruct element_type as [[| | | | | |]|]; simpl; split; intros H;
    try discriminate; congruence.
Qed.

(** An object whose metadata is an object, or missing, is handed to the
    library: the five fields of the metadata first, and then the class its
    type selects, its text and the metadata object. *)
Lemma json_to_element_object (d md : gmap string json) :
  d !! "metadata" = Some (JDict md) ∨ d !! "metadata" = None ∧ md = ∅ ->
  json_to_element lib (JDict d)
  = res_bind
      (ElementMetadata_init lib
         (default JNull (md !! "filename")) (default JNull (md !! "filetype"))
         (default (JList []) (md !! "languages")) (default JNull (md !! "page_number"))
         (default JNull (md !! "coordinates")))
      (λ metadata,
         res_bind (element_type_map_get (default JNull (d !! "type")))
           (λ cls, Element_init lib cls (default (JStr "") (d !! "text")) metadata)).
Proof.
  intros Hmd. apply metadata_dict_get in Hmd.
  unfold json_to_element. simpl. rewrite Hmd. reflexivity.
Qed.

(** An object whose metadata is no object is refused before the library is
    called. *)
Lemma json_to_element_metadata (d : gmap string json) v :
  d !! "metadata" = Some v -> (∀ md, v ≠ JDict md) ->
  json_to_element lib (JDict d) = Raise (Py.no_attribute v "get").
Proof.
  intros Hv Hmd. unfold json_to_element. simpl. unfold Py.dict_get. rewrite Hv. simpl.
  destruct v; simpl; try reflexivity. exfalso; eapply Hmd; reflexivity.
Qed.

(** The records the loop body makes an element of. *)
Lemma json_to_element_converts item element :
  json_to_element lib item = Ok element <-> converts_to lib item element.
Proof.
  split.
  - intros H. destruct item as [| | | | | |d]; try discriminate.
    destruct (d !! "metadata") as [v|] eqn:Hv.
    + destruct v as [| | | | | |md];
        try (rewrite (json_to_element_metadata d _ Hv) in H by discriminate; discriminate).
      rewrite (json_to_element_object d md (or_introl Hv)) in H.
      destruct (ElementMetadata_init lib _ _ _ _ _) as [metadata|e] eqn:Hmeta;
        [|discriminate].
      simpl in H.
      destruct (element_type_map_get _) as [cls|e] eqn:Hcls; [|discriminate].
      simpl in H. exists d, md, cls, metadata.
      repeat split; auto. apply selected_class_get; exact Hcls.
    + rewrite (json_to_element_object d ∅ (or_intror (conj Hv eq_refl))) in H.
      destruct (ElementMetadata_init lib _ _ _ _ _) as [metadata|e] eqn:Hmeta;
        [|discriminate].
      simpl in H.
      destruct (element_type_map_get _) as [cls|e] eqn:Hcls; [|discriminate].
      simpl in H. exists d, ∅, cls, metadata.
      repeat split; auto. apply selected_class_get; exact Hcls.
  - intros (d & md & cls & metadata & -> & Hmd & Hmeta & Hcls & Helem).
    rewrite (json_to_element_object d md Hmd), Hmeta. simpl.
    apply selected_class_get in Hcls. rewrite Hcls. exact Helem.
Qed.

(** Data that is not empty and not a list is refused: its items, if it
    has any, are strings. *)
Lemma json_to_elements_not_list json_data :
  Py.truthy json_data = true ->
  (∀ items, json_data ≠ JList items) ->
  ∃ e, json_to_elements lib json_data = Raise e.
Proof.
  intros Htruthy Hlist. unfold json_to_elements.
  destruct json_data as [| | | |s|l|d]; simpl; eauto.
  - destruct s as [|c s]; [discriminate|]. simpl. eauto.
  - exfalso; eapply Hlist; reflexivity.
  - simpl in Htruthy.
    destruct (map_to_list d) as [|[k v] kvs] eqn:Hd.
    + apply map_to_list_empty_iff in Hd. subst d.
      rewrite map_size_empty in Htruthy. discriminate.
    + simpl. eauto.
Qed.

Lemma stem_nonempty nm : nm ≠ "" -> PurePath.stem nm ≠ "".
Proof.
  intros H. unfold PurePath.stem, PurePath.suffix_index.
  destruct (PyStr.rfind_dot nm) as [i|]; [|exact H].
  destruct ((0 <? i)%nat && (i <? String.length nm - 1)%nat) eqn:E; [|exact H].
  apply andb_prop in E as [E _]. apply Nat.ltb_lt in E.
  destruct i as [|i]; [lia|]. destruct nm as [|c nm]; [congruence|].
  simpl; discriminate.
Qed.

(** Under a name that is not empty and not a single dot, the joined path
    lies in the directory. *)
Lemma joinpath_name dir nm :
  nm ≠ "" -> nm ≠ "." -> PurePath.joinpath dir nm = {| parent := dir; name := nm |}.
Proof.
  intros H1 H2. unfold PurePath.joinpath.
  destruct (String.eqb_spec nm ""); [contradiction|].
  destruct (String.eqb_spec nm "."); [contradiction|]. reflexivity.
Qed.

(** Data that is converted and chunked is saved, on a device that does
    not fail, and the file counts as a success. *)
Lemma process_file_saved input_file out config w json_data elements chunks :
  (IO.load_json input_file w).1 = Ok json_data ->
  Py.truthy json_data = true ->
  json_to_elements lib json_data = Ok elements ->
  chunk_elements_by_title lib elements config = Ok chunks ->
  io_budget w = None ->
  name input_file ≠ "" ->
  PurePath.stem (name input_file) ≠ "." ->
  let target sfx := {| parent := out;
                       name := PurePath.stem (PurePath.stem (name input_file)) +:+ sfx |} in
  ∃ w',
    process_file lib input_file out config w = (Ok true, w')
    ∧ files w' !! target ".chunks.json"
      = Some [Dumped (JList (chunk_records (clock w) (ticks w) 0 chunks (name input_file)))]
    ∧ files w' !! target ".chunks.txt"
      = Some (Written <$> text_lines (name input_file) chunks)
    ∧ log w'
      = log w
        ++ [(INFO, "Processing file: " +:+ name input_file);
            (INFO, "Converted " +:+ pretty (length elements) +:+ " elements from JSON");
            (INFO, "Created " +:+ pretty (length chunks) +:+ " chunks");
            (INFO, "Saved chunks for " +:+ name input_file)].
Proof.
  intros Hload Htruthy Hconv Hchunks Hbudget Hname Hdot target.
  unfold process_file, try_except, mbind, M_bind; simpl.
  unfold IO.load_json in *; simpl in *.
  destruct (files w !! input_file) as [content|]; simpl in *; [|discriminate].
  rewrite Hload, Htruthy; simpl. rewrite Hconv; simpl. rewrite Hchunks; simpl.
  rewrite (joinpath_name out _ (stem_nonempty _ Hname) Hdot).
  match goal with |- context [save_chunks ?c ?o ?n ?w0] =>
    pose proof (log_stable_save_chunks c o n w0) as Hlog;
    pose proof (save_chunks_succeeds c o n w0 (stem_nonempty _ Hname) Hbudget) as Heff;
    destruct (save_chunks c o n w0) as [r w1]
  end.
  cbn in Heff, Hlog.
  destruct Heff as ((-> & Hjson & Htxt) & _).
  eexists; split; [reflexivity|]. cbn. split; [exact Hjson|]. split; [exact Htxt|].
  rewrite Hlog. rewrite <- !app_assoc. reflexivity.
Qed.

End InputErrors.

(** C6 (as the code has it): a file that cannot be opened or parsed, and
    data that [json_to_elements] rejects, are logged as an error with the
    cause, the chunker is not called, nothing is written, and [process_file]
    returns [False], which lets the batch go on.  Data that is not empty and
    not a list is rejected, and so is every list with a record that is not an
    object.  A record with an unknown or absent type, or without text, is
    not rejected by the script: it asks the library for a [NarrativeText]
    element, with an empty text when the record has none, and a document
    whose records the library accepts is chunked and saved like any
    other. *)
Theorem process_file_input_errors
    (lib : Unstructured)
    (input_file : Path) (out : string) (config : ChunkingConfig) (w : world) :
  (∀ e,
     (IO.load_json input_file w).1 = Raise e
     ∨ (∃ json_data,
          (IO.load_json input_file w).1 = Ok json_data
          ∧ Py.truthy json_data = true
          ∧ json_to_elements lib json_data = Raise e) ->
     process_file lib input_file out config w
     = (Ok false,
        set_log (log w ++ [(INFO, "Processing file: " +:+ name input_file);
                           (ERROR, "Error processing " +:+ name input_file +:+ ": "
                                   +:+ exn_str e)]) w))
  ∧ (∀ json_data,
       Py.truthy json_data = true -> (∀ items, json_data ≠ JList items) ->
       ∃ e, json_to_elements lib json_data = Raise e)
  ∧ (∀ items item,
       item ∈ items -> (∀ d, item ≠ JDict d) ->
       ∃ e, json_to_elements lib (JList items) = Raise e)
  ∧ (∀ d md : gmap string json,
       d !! "metadata" = Some (JDict md) ∨ d !! "metadata" = None ∧ md = ∅ ->
       d !! "type" = None
       ∨ (∃ s, d !! "type" = Some (JStr s) ∧ element_type_map !! s = None) ->
       json_to_element lib (JDict d)
       = res_bind
           (ElementMetadata_init lib
              (default JNull (md !! "filename")) (default JNull (md !! "filetype"))
              (default (JList []) (md !! "languages"))
              (default JNull (md !! "page_number"))
              (default JNull (md !! "coordinates")))
           (λ metadata,
              Element_init lib NarrativeText (default (JStr "") (d !! "text")) metadata))
  ∧ (∀ json_data elements chunks,
       (IO.load_json input_file w).1 = Ok json_data ->
       Py.truthy json_data = true ->
       json_to_elements lib json_data = Ok elements ->
       chunk_elements_by_title lib elements config = Ok chunks ->
       io_budget w = None ->
       name input_file ≠ "" ->
       PurePath.stem (name input_file) ≠ "." ->
       ∃ w',
         process_file lib input_file out config w = (Ok true, w')
         ∧ files w' !! {| parent := out;
                          name := PurePath.stem (PurePath.stem (name input_file))
                                  +:+ ".chunks.json" |}
           = Some [Dumped (JList (chunk_records (clock w) (ticks w) 0 chunks
                                    (name input_file)))]
         ∧ log w'
           = log w
             ++ [(INFO, "Processing file: " +:+ name input_file);
                 (INFO, "Converted " +:+ pretty (length elements) +:+ " elements from JSON");
                 (INFO, "Created " +:+ pretty (length chunks) +:+ " chunks");
                 (INFO, "Saved chunks for " +:+ name input_file)]).
Proof.
  split; [|split; [|split; [|split]]].
  - intros e [Hload | (json_data & Hload & Htruthy & Hconv)].
    + apply process_file_unreadable; exact Hload.
    + eapply process_file_unconvertible; eassumption.
  - apply json_to_elements_not_list.
  - intros items item Hin Hobj. unfold json_to_elements; simpl.
    eapply res_map_Raise; [exact Hin | apply json_to_element_not_object; exact Hobj].
  - intros d md Hmd Htype. rewrite (json_to_element_object lib d md Hmd).
    destruct Htype as [-> | (s & -> & Hs)]; simpl; [reflexivity | rewrite Hs; reflexivity].
  - intros json_data elements chunks Hload Htruthy Hconv Hchunks Hbudget Hname Hdot.
    destruct (process_file_saved lib input_file out config w json_data elements chunks
                Hload Htruthy Hconv Hchunks Hbudget Hname Hdot)
      as (w' & Hrun & Hjson & _ & Hlog).
    exists w'. auto.
Qed.

Lemma process_file_input_errors_witness :
  let input_file := Demo.path (input_dir Demo.here) "c.json" in
  let w := Demo.world_of {[ input_file := [Dumped (JList [JStr "Title"])] ]} None in
  process_file Demo.lib input_file (output_dir Demo.here)
    {| max_characters := 1000; new_after_n_chars := 800; combine_text_under_n_chars := 200;
       overlap := 50; overlap_all := false; multipage_sections := true |} w
  = (Ok false,
     set_log [(INFO, "Processing file: c.json");
              (ERROR, "Error processing c.json: 'str' object has no attribute 'get'")] w).
Proof.
  intros input_file w.
  exact (proj1 (process_file_input_errors Demo.lib input_file (output_dir Demo.here) _ w)
           (AttributeError "'str' object has no attribute 'get'")
           (or_intror (ex_intro _ (JList [JStr "Title"])
                         (conj eq_refl (conj eq_refl eq_refl))))).
Defined.

(** C6 fails on the code: with a library that accepts them, a document
    with a record of an unknown type and a record with neither type nor text
    is converted without an error, to two [NarrativeText] elements, and
    processed to the end; a chunk is produced from it and saved, and no error
    is logged. *)
Lemma unrecognized_records_are_chunked :
  let no_metadata :=
    {| filename := JNull; filetype := JNull; languages := JList [];
       page_number := JNull; coordinates := JNull |} in
  let odd := JDict {[ "type" := JStr "Bogus"; "text" := JStr "hello" ]} in
  let bare := JDict ∅ in
  let element := {| element_class := NarrativeText; text := JStr "hello";
                    metadata := no_metadata |} in
  let input_file := Demo.path (input_dir Demo.here) "doc.json" in
  let w := Demo.world_of {[ input_file := [Dumped (JList [odd; bare])] ]} None in
  let run := process_file Demo.lib input_file (output_dir Demo.here)
               {| max_characters := 1000; new_after_n_chars := 800;
                  combine_text_under_n_chars := 200; overlap := 50;
                  overlap_all := false; multipage_sections := true |} w in
  json_to_elements Demo.lib (JList [odd; bare])
  = Ok [element;
        {| element_class := NarrativeText; text := JStr ""; metadata := no_metadata |}]
  ∧ run.1 = Ok true
  ∧ log run.2 = [(INFO, "Processing file: doc.json");
                 (INFO, "Converted 2 elements from JSON");
                 (INFO, "Created 1 chunks");
                 (INFO, "Saved chunks for doc.json")]
  ∧ files run.2 !! Demo.path (output_dir Demo.here) "doc.chunks.json"
    = Some [Dumped (JList [chunk_data 0
                             {| chunk_class := CompositeElement; chunk_text := "hello";
                                orig_elements := Some [element] |}
                             "doc.json" "2025-01-01T00:00:00"])].
Proof. vm_compute. repeat split; reflexivity. Qed.

(** ** The oversized-element splitter *)

Section SplitterFacts.
Import PyStrFacts.

Variables max_characters overlap : nat.
Hypothesis step_positive : overlap < max_characters.

Lemma windows_head fuel text :
  ∃ first rest,
    Splitter.windows fuel max_characters overlap text = first :: rest
    ∧ PyStr.slice_to overlap first = PyStr.slice_to overlap text.
Proof using step_positive.
  destruct fuel as [|fuel]; simpl.
  - exists text, []; auto.
  - destruct (String.length text <=? max_characters)%nat.
    + exists text, []; auto.
    + eexists _, _; split; [reflexivity|].
      apply slice_to_to; lia.
Qed.

(** Every fragment fits the window, and the fuel is never what stops the
    splitting. *)
Lemma windows_bound fuel text :
  String.length text <= fuel ->
  Forall (λ chunk, String.length chunk <= max_characters)
    (Splitter.windows fuel max_characters overlap text).
Proof using step_positive.
  revert text; induction fuel as [|fuel IH]; intros text Hfuel; simpl.
  - repeat constructor. lia.
  - destruct (Nat.leb_spec (String.length text) max_characters) as [Hle|Hgt].
    + repeat constructor. exact Hle.
    + constructor; [rewrite length_slice_to; lia|].
      apply IH. rewrite length_slice_from. lia.
Qed.

Lemma windows_overlap fuel text i earlier later :
  String.length text <= fuel ->
  Splitter.windows fuel max_characters overlap text !! i = Some earlier ->
  Splitter.windows fuel max_characters overlap text !! S i = Some later ->
  PyStr.slice_from (String.length earlier - overlap) earlier = PyStr.slice_to overlap later
  ∧ String.length (PyStr.slice_to overlap later) = overlap.
Proof using step_positive.
  revert text i; induction fuel as [|fuel IH]; intros text i Hfuel; simpl.
  - intros _ H; discriminate.
  - destruct (Nat.leb_spec (String.length text) max_characters) as [Hle|Hgt].
    + intros _ H; discriminate.
    + destruct i as [|i]; simpl.
      * intros H1 H2. injection H1 as <-.
        destruct (windows_head fuel (PyStr.slice_from (max_characters - overlap) text))
          as (first & rest & Hw & Hfirst).
        rewrite Hw in H2. injection H2 as <-.
        rewrite Hfirst, length_slice_to.
        rewrite slice_from_to_comm.
        replace (Nat.min max_characters (String.length text) - overlap)
          with (max_characters - overlap) by lia.
        replace (max_characters - overlap + overlap) with max_characters by lia.
        split; [reflexivity|].
        rewrite length_slice_from, length_slice_to. lia.
      * apply IH. rewrite length_slice_from. lia.
Qed.

Lemma windows_several fuel text :
  String.length text <= fuel ->
  max_characters < String.length text ->
  2 <= length (Splitter.windows fuel max_characters overlap text).
Proof using step_positive.
  intros Hfuel Hlong. destruct fuel as [|fuel]; [lia|]. simpl.
  destruct (Nat.leb_spec (String.length text) max_characters) as [Hle|Hgt]; [lia|].
  destruct (windows_head fuel (PyStr.slice_from (max_characters - overlap) text))
    as (first & rest & -> & _).
  simpl; lia.
Qed.

End SplitterFacts.

(** C3, on the splitter as the specification describes it: of any two
    consecutive chunks that the splitting of an element longer than
    [max_characters] produces, the last [overlap] characters of the earlier
    are the first [overlap] characters of the later; and the splitting does
    produce chunks, two or more, for every overlap below [max_characters]. *)
Theorem split_oversized_overlap (max_characters overlap : nat) (text : string) :
  max_characters < String.length text ->
  (overlap < max_characters ->
   ∃ chunks,
     Splitter.split_oversized max_characters overlap text = Some chunks
     ∧ 2 <= length chunks)
  ∧ ∀ chunks i earlier later,
      Splitter.split_oversized max_characters overlap text = Some chunks ->
      chunks !! i = Some earlier ->
      chunks !! S i = Some later ->
      PyStr.slice_from (String.length earlier - overlap) earlier
      = PyStr.slice_to overlap later
      ∧ String.length (PyStr.slice_to overlap later) = overlap.
Proof.
  intros Hlong. unfold Splitter.split_oversized.
  destruct (Nat.ltb_spec overlap max_characters) as [Hstep|Hstep]; split.
  - intros _. eexists; split; [reflexivity|].
    apply windows_several; [exact Hstep | lia | exact Hlong].
  - intros chunks i earlier later H; injection H as <-.
    apply windows_overlap; [exact Hstep | lia].
  - lia.
  - discriminate.
Qed.

Lemma split_oversized_overlap_witness :
  ∃ chunks,
    Splitter.split_oversized 10 3 "The quick brown fox jumps" = Some chunks
    ∧ chunks = ["The quick "; "ck brown f"; "n fox jump"; "umps"]
    ∧ ∀ i earlier later,
        chunks !! i = Some earlier ->
        chunks !! S i = Some later ->
        PyStr.slice_from (String.length earlier - 3) earlier = PyStr.slice_to 3 later
        ∧ String.length (PyStr.slice_to 3 later) = 3.
Proof.
  destruct (split_oversized_overlap 10 3 "The quick brown fox jumps")
    as (Hsome & Hoverlap); [vm_compute; lia |].
  destruct Hsome as (chunks & Hsplit & _); [lia|].
  exists chunks. split; [exact Hsplit|]. split.
  - vm_compute in Hsplit. congruence.
  - intros i earlier later. exact (Hoverlap chunks i earlier later Hsplit).
Defined.

(** Every fragment of the splitter fits the window. *)
Lemma split_oversized_bounded (max_characters overlap : nat) (text : string) chunks :
  Splitter.split_oversized max_characters overlap text = Some chunks ->
  Forall (λ chunk, String.length chunk <= max_characters) chunks.
Proof.
  unfold Splitter.split_oversized.
  destruct (Nat.ltb_spec overlap max_characters) as [Hstep|]; [|discriminate].
  intros H; injection H as <-. apply windows_bound; [exact Hstep | lia].
Qed.

(** ** [chunk_elements_by_title] and the library *)

Section LibraryContract.

Variable lib : Unstructured.

(** The hard maximum the library documents for its [max_characters]
    argument. *)
Hypothesis hard_max : ∀ elements mc na cu ov oa ms chunks,
  chunk_by_title lib elements mc na cu ov oa ms = Ok chunks ->
  Forall (λ c, (Z.of_nat (String.length (chunk_text c)) <= mc)%Z) chunks.

(** The wrapper hands [config.max_characters] to the library as its
    [max_characters], so a bound the library keeps is a bound in terms of the
    configuration. *)
Lemma chunk_elements_by_title_bounded elements config chunks :
  chunk_elements_by_title lib elements config = Ok chunks ->
  Forall (λ c, (Z.of_nat (String.length (chunk_text c)) <= max_characters config)%Z) chunks.
Proof using hard_max. unfold chunk_elements_by_title. apply hard_max. Qed.

End LibraryContract.

(** * More of the code *)

(** ** [json_to_elements]: which data it converts, and to what *)

Section Conversion.

Lemma res_map_Forall2 {A B} (f : A -> res B) l ys :
  res_map f l = Ok ys <-> Forall2 (λ x y, f x = Ok y) l ys.
Proof.
  revert ys; induction l as [|a l IH]; intros ys; simpl.
  - split; [intros H; injection H as <-; constructor | intros H; inversion H; reflexivity].
  - split.
    + destruct (f a) as [b|e] eqn:Hfa; [|discriminate].
      destruct (res_map f l) as [bs|e] eqn:Hl; [|discriminate].
      intros H; injection H as <-. constructor; [exact Hfa | apply IH; reflexivity].
    + intros H. inversion H as [|? b ? bs Hfa Hrest]; subst.
      rewrite Hfa. apply IH in Hrest. rewrite Hrest. reflexivity.
Qed.

End Conversion.

(** X1: [json_to_elements] returns on a list of records exactly when, for
    every record, the record is an object, its metadata is an object or
    absent, its type is no list and no object, and the library accepts the two
    calls the script makes for it: the metadata constructor on the five
    fields of the record's metadata ([None] for an absent one, an empty list
    for absent [languages]), and the constructor of the class the type
    selects (by the table, [NarrativeText] for every other type and for none)
    on the record's text (empty when absent) and that metadata object.  The
    result is then what the library made, one element per record, in the
    order of the records. *)
Theorem json_to_elements_converts
    (lib : Unstructured) (items : list json) (elements : list Element) :
  json_to_elements lib (JList items) = Ok elements
  <-> Forall2 (converts_to lib) items elements.
Proof.
  unfold json_to_elements; simpl. rewrite res_map_Forall2.
  split; intros H; induction H as [|item element items elements Hx _ IH];
    constructor; try exact IH.
  - apply json_to_element_converts; exact Hx.
  - apply json_to_element_converts; exact Hx.
Qed.

(** ** [save_chunks]: the records, and reading them back *)

Section SavedRecords.

Lemma chunk_records_length clock t i chunks nm :
  length (chunk_records clock t i chunks nm) = length chunks.
Proof.
  revert t i; induction chunks as [|c chunks IH]; intros t i; simpl; [|rewrite IH];
    reflexivity.
Qed.

Lemma chunk_records_lookup clock t i chunks nm k chunk :
  chunks !! k = Some chunk ->
  chunk_records clock t i chunks nm !! k
  = Some (chunk_data (i + k) chunk nm (clock (t + k))).
Proof.
  revert t i k; induction chunks as [|c chunks IH]; intros t i [|k] H; simpl in *;
    try discriminate.
  - injection H as ->. rewrite !Nat.add_0_r. reflexivity.
  - rewrite (IH (S t) (S i) k H). do 2 f_equal; [|f_equal]; lia.
Qed.

(** The fields of the record of a chunk. *)
Lemma chunk_data_fields i chunk nm created_at :
  ∃ d md : gmap string json,
    chunk_data i chunk nm created_at = JDict d
    ∧ d !! "chunk_id" = Some (JInt (Z.of_nat (i + 1)))
    ∧ d !! "text" = Some (JStr (chunk_text chunk))
    ∧ d !! "type" = Some (JStr (class_name (chunk_class chunk)))
    ∧ d !! "metadata" = Some (JDict md)
    ∧ md !! "original_filename" = Some (JStr nm)
    ∧ md !! "chunk_index" = Some (JInt (Z.of_nat (i + 1)))
    ∧ md !! "character_count" = Some (JInt (Z.of_nat (String.length (chunk_text chunk))))
    ∧ md !! "word_count" = Some (JInt (Z.of_nat (PyStr.word_count (chunk_text chunk))))
    ∧ md !! "created_at" = Some (JStr created_at)
    ∧ md !! "languages" = None
    ∧ md !! "source" = None
    ∧ md !! "original_elements_count"
      = match orig_elements chunk with
        | Some (e :: es) => Some (JInt (Z.of_nat (length (e :: es))))
        | _ => None
        end.
Proof.
  unfold chunk_data.
  destruct (orig_elements chunk) as [[|e es]|]; eexists _, _;
    (split; [reflexivity|]); repeat split; reflexivity.
Qed.

(** The document [load_chunked_files] makes of the record of a chunk. *)
Lemma chunk_data_document json_file i chunk nm created_at :
  ∃ doc,
    chunk_to_document json_file (chunk_data i chunk nm created_at) = Ok doc
    ∧ page_content doc = chunk_text chunk
    ∧ doc_metadata doc !! "source" = Some (JStr nm)
    ∧ doc_metadata doc !! "chunk_index" = Some (JInt (Z.of_nat (i + 1))).
Proof.
  destruct (chunk_data_fields i chunk nm created_at)
    as (d & md & -> & _ & Htext & _ & Hmeta & Hname & Hindex & _).
  eexists; split.
  - apply (chunk_to_document_Ok json_file d md _ Htext). left; exact Hmeta.
  - simpl. split; [reflexivity|]. split.
    + rewrite lookup_delete_ne by discriminate. rewrite lookup_insert_eq.
      rewrite Hname; reflexivity.
    + rewrite lookup_delete_ne by discriminate.
      rewrite lookup_insert_ne by discriminate. exact Hindex.
Qed.

End SavedRecords.

(** Every record [save_chunks] writes is one [load_chunked_files] accepts. *)
Lemma chunk_records_documents json_file clock t i chunks nm :
  ∃ docs, res_map (chunk_to_document json_file) (chunk_records clock t i chunks nm) = Ok docs.
Proof.
  revert t i; induction chunks as [|c chunks IH]; intros t i; simpl.
  - eexists; reflexivity.
  - destruct (chunk_data_document json_file i c nm (clock t)) as (doc & -> & _).
    destruct (IH (S t) (S i)) as (docs & ->). eexists; reflexivity.
Qed.

(** X2: on a device that does not fail, the JSON file [save_chunks] writes
    holds one record per chunk, in the order of the chunks; the record at
    position k has the chunk's text and class, [chunk_id] and [chunk_index]
    both k + 1, the length and the word count of the text, the name of the
    original file, the k-th reading of the clock made by the call, and the
    number of original elements exactly when the chunk has some. *)
Theorem save_chunks_records
    (chunks : list Chunk) (output_file : Path) (original_filename : string) (w : world) :
  name output_file ≠ "" ->
  io_budget w = None ->
  let json_file := {| parent := parent output_file;
                      name := PurePath.stem (name output_file) +:+ ".chunks.json" |} in
  ∃ records,
    files (save_chunks chunks output_file original_filename w).2 !! json_file
    = Some [Dumped (JList records)]
    ∧ length records = length chunks
    ∧ ∀ k chunk,
        chunks !! k = Some chunk ->
        ∃ d md : gmap string json,
          records !! k = Some (JDict d)
          ∧ d !! "chunk_id" = Some (JInt (Z.of_nat (k + 1)))
          ∧ d !! "text" = Some (JStr (chunk_text chunk))
          ∧ d !! "type" = Some (JStr (class_name (chunk_class chunk)))
          ∧ d !! "metadata" = Some (JDict md)
          ∧ md !! "original_filename" = Some (JStr original_filename)
          ∧ md !! "chunk_index" = Some (JInt (Z.of_nat (k + 1)))
          ∧ md !! "character_count"
            = Some (JInt (Z.of_nat (String.length (chunk_text chunk))))
          ∧ md !! "word_count"
            = Some (JInt (Z.of_nat (PyStr.word_count (chunk_text chunk))))
          ∧ md !! "created_at" = Some (JStr (clock w (ticks w + k)))
          ∧ md !! "original_elements_count"
            = match orig_elements chunk with
              | Some (e :: es) => Some (JInt (Z.of_nat (length (e :: es))))
              | _ => None
              end.
Proof.
  intros Hname Hbudget json_file.
  destruct (save_chunks_succeeds chunks output_file original_filename w Hname Hbudget)
    as ((_ & Hjson & _) & _).
  eexists; split; [exact Hjson|]. split; [apply chunk_records_length|].
  intros k chunk Hk.
  rewrite (chunk_records_lookup _ _ _ _ _ _ _ Hk). simpl.
  destruct (chunk_data_fields k chunk original_filename (clock w (ticks w + k)))
    as (d & md & -> & Hid & Htext & Htype & Hmeta & Hname' & Hindex & Hchars & Hwords
        & Hcreated & _ & _ & Hcount).
  exists d, md. repeat split; assumption.
Qed.

Lemma save_chunks_records_witness :
  let c1 := {| chunk_class := CompositeElement; chunk_text := "Intro text";
               orig_elements := None |} in
  let c2 := {| chunk_class := Table; chunk_text := "a b c"; orig_elements := None |} in
  let w := Demo.world_of ∅ None in
  ∃ records,
    files (save_chunks [c1; c2] (Demo.path (output_dir Demo.here) "doc") "doc.json" w).2
      !! Demo.path (output_dir Demo.here) "doc.chunks.json"
    = Some [Dumped (JList records)]
    ∧ length records = 2
    ∧ ∃ d md : gmap string json,
        records !! 1 = Some (JDict d)
        ∧ d !! "chunk_id" = Some (JInt 2)
        ∧ d !! "text" = Some (JStr "a b c")
        ∧ d !! "metadata" = Some (JDict md)
        ∧ md !! "word_count" = Some (JInt 3).
Proof.
  intros c1 c2 w.
  destruct (save_chunks_records [c1; c2] (Demo.path (output_dir Demo.here) "doc") "doc.json" w
              ltac:(discriminate) eq_refl) as (records & Hfile & Hlen & Hrec).
  exists records. split; [exact Hfile|]. split; [exact Hlen|].
  destruct (Hrec 1 c2 eq_refl)
    as (d & md & Hk & Hid & Htext & _ & Hmeta & _ & _ & _ & Hwords & _).
  exists d, md. auto.
Defined.

(** X3: what [save_chunks] writes, [load_chunked_files] reads back: on a
    device that does not fail, loading the JSON file of a document gives one
    retrieval document per chunk, in the order of the chunks, with the
    chunk's text as content, the name of the original file as [source], and
    the position of the chunk, counted from 1, as [chunk_index]. *)
Theorem save_then_load
    (chunks : list Chunk) (output_file : Path) (original_filename : string) (w : world) :
  name output_file ≠ "" ->
  io_budget w = None ->
  let json_file := {| parent := parent output_file;
                      name := PurePath.stem (name output_file) +:+ ".chunks.json" |} in
  let w' := (save_chunks chunks output_file original_filename w).2 in
  ∃ docs,
    load_chunked_file json_file w' = (Ok docs, w')
    ∧ length docs = length chunks
    ∧ ∀ k chunk,
        chunks !! k = Some chunk ->
        ∃ doc,
          docs !! k = Some doc
          ∧ page_content doc = chunk_text chunk
          ∧ doc_metadata doc !! "source" = Some (JStr original_filename)
          ∧ doc_metadata doc !! "chunk_index" = Some (JInt (Z.of_nat (k + 1))).
Proof.
  intros Hname Hbudget json_file w'.
  destruct (save_chunks_succeeds chunks output_file original_filename w Hname Hbudget)
    as ((_ & Hjson & _) & _).
  fold json_file w' in Hjson.
  set (records := chunk_records (clock w) (ticks w) 0 chunks original_filename) in *.
  destruct (chunk_records_documents json_file (clock w) (ticks w) 0 chunks
              original_filename) as (docs & Hmap).
  fold records in Hmap.
  pose proof (proj1 (res_map_Forall2 _ _ _) Hmap) as Hall.
  exists docs. split.
  - unfold load_chunked_file, mbind, M_bind, IO.load_json, lift.
    rewrite Hjson. simpl. rewrite Hmap. reflexivity.
  - split.
    + rewrite <- (Forall2_length _ _ _ Hall). apply chunk_records_length.
    + intros k chunk Hk.
      pose proof (chunk_records_lookup (clock w) (ticks w) 0 chunks original_filename
                    k chunk Hk) as Hrecord.
      fold records in Hrecord.
      destruct (Forall2_lookup_l _ _ _ _ _ Hall Hrecord) as (doc & Hdoc & Hconv).
      destruct (chunk_data_document json_file (0 + k) chunk original_filename
                  (clock w (ticks w + k))) as (doc' & Hconv' & Hcontent & Hsource & Hindex).
      rewrite Hconv in Hconv'. injection Hconv' as <-.
      exists doc. auto.
Qed.

Lemma save_then_load_witness :
  let c1 := {| chunk_class := CompositeElement; chunk_text := "Intro text";
               orig_elements := None |} in
  let c2 := {| chunk_class := Table; chunk_text := "a b c"; orig_elements := None |} in
  let w := Demo.world_of ∅ None in
  let w' := (save_chunks [c1; c2] (Demo.path (chunked_dir Demo.here) "doc") "doc.json" w).2 in
  ∃ docs,
    load_chunked_file (Demo.path (chunked_dir Demo.here) "doc.chunks.json") w' = (Ok docs, w')
    ∧ page_content <$> docs = ["Intro text"; "a b c"].
Proof.
  intros c1 c2 w w'.
  destruct (save_then_load [c1; c2] (Demo.path (chunked_dir Demo.here) "doc") "doc.json" w
              ltac:(discriminate) eq_refl) as (docs & Hload & Hlen & Hdocs).
  exists docs. split; [exact Hload|].
  destruct (Hdocs 0 c1 eq_refl) as (d1 & H1 & Ht1 & _).
  destruct (Hdocs 1 c2 eq_refl) as (d2 & H2 & Ht2 & _).
  destruct docs as [|x [|y [|z docs]]]; try discriminate Hlen.
  change (Some x = Some d1) in H1. change (Some y = Some d2) in H2.
  injection H1 as ->. injection H2 as ->.
  change ([page_content d1; page_content d2] = ["Intro text"; "a b c"]).
  rewrite Ht1, Ht2. reflexivity.
Defined.

(** ** [process_file]: the names of the targets, and the failures after the
    conversion *)

Section ProcessFileMore.

Variable lib : Unstructured.

(** The stem of a name drops a last component that holds no dot. *)
Lemma stem_drop_ext base ext :
  base ≠ "" -> ext ≠ "" -> PyStr.rfind_dot ext = None ->
  PurePath.stem (base +:+ "." +:+ ext) = base.
Proof.
  intros Hbase Hext Hdot.
  unfold PurePath.stem, PurePath.suffix_index.
  change ("." +:+ ext) with (String "."%char ext).
  rewrite (PyStrFacts.rfind_dot_append base (String "."%char ext) 0)
    by (simpl; rewrite Hdot; reflexivity).
  rewrite !PyStrFacts.length_append. rewrite Nat.add_0_r.
  destruct base as [|b base]; [congruence|].
  destruct ext as [|x ext]; [congruence|].
  match goal with |- context [if ?b then _ else _] =>
    replace b with true
      by (symmetry; apply andb_true_intro; split; apply Nat.ltb_lt; simpl; lia)
  end.
  apply PyStrFacts.slice_to_append.
Qed.

(** When the chunker raises, the error is logged and nothing is written. *)
Lemma process_file_chunker_raises input_file out config w json_data elements e :
  (IO.load_json input_file w).1 = Ok json_data ->
  Py.truthy json_data = true ->
  json_to_elements lib json_data = Ok elements ->
  chunk_elements_by_title lib elements config = Raise e ->
  process_file lib input_file out config w
  = (Ok false,
     set_log (log w ++ [(INFO, "Processing file: " +:+ name input_file);
                        (INFO, "Converted " +:+ pretty (length elements)
                               +:+ " elements from JSON");
                        (ERROR, "Error processing " +:+ name input_file +:+ ": "
                                +:+ exn_str e)]) w).
Proof.
  intros Hload Htruthy Hconv Hchunks.
  unfold process_file, try_except, mbind, M_bind; simpl.
  unfold IO.load_json in *; simpl in *.
  destruct (files w !! input_file) as [content|]; simpl in *; [|discriminate].
  rewrite Hload, Htruthy; simpl. rewrite Hconv; simpl. rewrite Hchunks; simpl.
  unfold set_log; simpl. rewrite <- !app_assoc. reflexivity.
Qed.

(** When the device fails while the JSON file is written, [save_chunks]
    raises and leaves a JSON file with a part of its text. *)
Lemma save_chunks_json_fails chunks (output_file : Path) nm w :
  name output_file ≠ "" ->
  io_budget w = Some 0 ->
  let json_file := {| parent := parent output_file;
                      name := PurePath.stem (name output_file) +:+ ".chunks.json" |} in
  (save_chunks chunks output_file nm w).1 = Raise IO.device_error
  ∧ files (save_chunks chunks output_file nm w).2 !! json_file
    = Some [Cut [Dumped (JList (chunk_records (clock w) (ticks w) 0 chunks nm))]].
Proof.
  intros Hname Hbw json_file.
  pose proof (save_chunks_effect chunks output_file nm w Hname) as Heff.
  cbv zeta in Heff. rewrite Hbw in Heff. fold json_file in Heff.
  destruct Heff as [-> ->]. split; [reflexivity | apply lookup_insert_eq].
Qed.

(** A name with two components before [.json] has a stem that is no
    single dot. *)
Lemma stem_not_dot base ext :
  base ≠ "" -> ext ≠ "" -> base +:+ "." +:+ ext ≠ ".".
Proof.
  intros Hbase Hext H. apply (f_equal String.length) in H.
  rewrite !PyStrFacts.length_append in H.
  destruct base; [congruence|]. simpl in H. lia.
Qed.

End ProcessFileMore.

(** X4: the chunk files of an input named [base.ext.json] are
    [base.chunks.json] and [base.chunks.txt] in the output directory: the
    last component before [.json] is dropped from the name, so the inputs of
    two documents that differ in that component only are written to the same
    two files. *)
Theorem process_file_drops_extension
    (lib : Unstructured)
    (input_file : Path) (out : string) (config : ChunkingConfig) (w : world)
    (json_data : json) (elements : list Element) (chunks : list Chunk)
    (base ext : string) :
  name input_file = base +:+ "." +:+ ext +:+ ".json" ->
  base ≠ "" -> ext ≠ "" -> PyStr.rfind_dot ext = None ->
  (IO.load_json input_file w).1 = Ok json_data ->
  Py.truthy json_data = true ->
  json_to_elements lib json_data = Ok elements ->
  chunk_elements_by_title lib elements config = Ok chunks ->
  io_budget w = None ->
  ∃ w',
    process_file lib input_file out config w = (Ok true, w')
    ∧ files w' !! {| parent := out; name := base +:+ ".chunks.json" |}
      = Some [Dumped (JList (chunk_records (clock w) (ticks w) 0 chunks (name input_file)))]
    ∧ files w' !! {| parent := out; name := base +:+ ".chunks.txt" |}
      = Some (Written <$> text_lines (name input_file) chunks).
Proof.
  intros Hnm Hbase Hext Hdot Hload Htruthy Hconv Hchunks Hbudget.
  assert (Hstem1 : PurePath.stem (name input_file) = base +:+ "." +:+ ext).
  { rewrite Hnm.
    replace (base +:+ "." +:+ ext +:+ ".json") with ((base +:+ "." +:+ ext) +:+ "." +:+ "json")
      by (rewrite !PyStrFacts.append_assoc; reflexivity).
    apply stem_drop_ext; [|discriminate | reflexivity].
    destruct base; [congruence | discriminate]. }
  assert (Hstem : PurePath.stem (PurePath.stem (name input_file)) = base)
    by (rewrite Hstem1; apply stem_drop_ext; assumption).
  assert (Hname : name input_file ≠ "")
    by (rewrite Hnm; destruct base; [congruence | discriminate]).
  assert (Hnodot : PurePath.stem (name input_file) ≠ ".")
    by (rewrite Hstem1; apply stem_not_dot; assumption).
  destruct (process_file_saved lib input_file out config w json_data
              elements chunks Hload Htruthy Hconv Hchunks Hbudget Hname Hnodot)
    as (w' & Hrun & Hjson & Htxt & _).
  rewrite Hstem in Hjson, Htxt.
  exists w'. auto.
Qed.

Lemma process_file_drops_extension_witness :
  let input_file := Demo.path (input_dir Demo.here) "report.pdf.json" in
  let record := JDict {[ "type" := JStr "Title"; "text" := JStr "Intro" ]} in
  let w := Demo.world_of {[ input_file := [Dumped (JList [record])] ]} None in
  let config := {| max_characters := 1000; new_after_n_chars := 800;
                   combine_text_under_n_chars := 200; overlap := 50;
                   overlap_all := false; multipage_sections := true |} in
  ∃ w' content,
    process_file Demo.lib input_file (output_dir Demo.here) config w = (Ok true, w')
    ∧ files w' !! Demo.path (output_dir Demo.here) "report.chunks.json"
      = Some [Dumped content]
    ∧ files w' !! Demo.path (output_dir Demo.here) "report.pdf.chunks.json" = None.
Proof.
  intros input_file record w config.
  destruct (process_file_drops_extension Demo.lib input_file (output_dir Demo.here)
              config w (JList [record])
              match json_to_elements Demo.lib (JList [record]) with
              | Ok l => l
              | Raise _ => []
              end
              match Demo.chunker
                      match json_to_elements Demo.lib (JList [record]) with
                      | Ok l => l
                      | Raise _ => []
                      end 0 0 0 0 false false with
              | Ok l => l
              | Raise _ => []
              end
              "report" "pdf" eq_refl ltac:(discriminate) ltac:(discriminate)
              eq_refl eq_refl eq_refl eq_refl eq_refl eq_refl)
    as (w' & Hrun & Hjson & _).
  exists w'. eexists. split; [exact Hrun|]. split; [exact Hjson|].
  assert (Hw : w' = (process_file Demo.lib input_file (output_dir Demo.here) config w).2)
    by (rewrite Hrun; reflexivity).
  rewrite Hw. vm_compute. reflexivity.
Defined.

(** X5: when [chunk_by_title] raises (as a library may on a configuration it
    refuses), [process_file] logs the error after the record of the
    conversion, creates no chunk file, and returns [False]. *)
Theorem process_file_chunker_error
    (lib : Unstructured)
    (input_file : Path) (out : string) (config : ChunkingConfig) (w : world)
    (json_data : json) (elements : list Element) (e : exn) :
  files w !! input_file = Some [Dumped json_data] ->
  Py.truthy json_data = true ->
  json_to_elements lib json_data = Ok elements ->
  chunk_by_title lib elements (max_characters config) (new_after_n_chars config)
    (combine_text_under_n_chars config) (overlap config) (overlap_all config)
    (multipage_sections config) = Raise e ->
  process_file lib input_file out config w
  = (Ok false,
     set_log (log w ++ [(INFO, "Processing file: " +:+ name input_file);
                        (INFO, "Converted " +:+ pretty (length elements)
                               +:+ " elements from JSON");
                        (ERROR, "Error processing " +:+ name input_file +:+ ": "
                                +:+ exn_str e)]) w).
Proof.
  intros Hfile Htruthy Hconv Hraise.
  apply (process_file_chunker_raises lib input_file out config w json_data
           elements e); try assumption.
  unfold IO.load_json. rewrite Hfile. reflexivity.
Qed.

Lemma process_file_chunker_error_witness :
  let input_file := Demo.path (input_dir Demo.here) "report.pdf.json" in
  let record := JDict {[ "type" := JStr "Title"; "text" := JStr "Intro" ]} in
  let w := Demo.world_of {[ input_file := [Dumped (JList [record])] ]} None in
  let refusing :=
    {| ElementMetadata_init := ElementMetadata_init Demo.lib;
       Element_init := Element_init Demo.lib;
       chunk_by_title := λ (_ : list Element) (mc _ _ ov : Z) (_ _ : bool),
         if (mc <=? ov)%Z
         then Raise (ValueError "'overlap' argument must be less than `max_characters`")
         else Ok [] |} in
  process_file refusing input_file (output_dir Demo.here)
    {| max_characters := 100; new_after_n_chars := 80; combine_text_under_n_chars := 20;
       overlap := 150; overlap_all := false; multipage_sections := true |} w
  = (Ok false,
     set_log [(INFO, "Processing file: report.pdf.json");
              (INFO, "Converted 1 elements from JSON");
              (ERROR, "Error processing report.pdf.json: "
                      +:+ "'overlap' argument must be less than `max_characters`")] w).
Proof.
  intros input_file record w refusing.
  exact (process_file_chunker_error refusing input_file (output_dir Demo.here)
           {| max_characters := 100; new_after_n_chars := 80;
              combine_text_under_n_chars := 20; overlap := 150; overlap_all := false;
              multipage_sections := true |} w (JList [record])
           match json_to_elements refusing (JList [record]) with
           | Ok l => l
           | Raise _ => []
           end
           (ValueError "'overlap' argument must be less than `max_characters`")
           eq_refl eq_refl eq_refl eq_refl).
Defined.

(** X6: when the device fails while the JSON file of [save_chunks] is
    written, [process_file] logs the error and returns [False], and the JSON
    file stays in the output directory all the same, with a part of its
    text.  The name of the input is not empty and its stem is not a single
    dot, so that the targets lie in the output directory. *)
Theorem process_file_device_error
    (lib : Unstructured)
    (input_file : Path) (out : string) (config : ChunkingConfig) (w : world)
    (json_data : json) (elements : list Element) (chunks : list Chunk) :
  files w !! input_file = Some [Dumped json_data] ->
  Py.truthy json_data = true ->
  json_to_elements lib json_data = Ok elements ->
  chunk_elements_by_title lib elements config = Ok chunks ->
  io_budget w = Some 0 ->
  name input_file ≠ "" ->
  PurePath.stem (name input_file) ≠ "." ->
  ∃ w',
    process_file lib input_file out config w = (Ok false, w')
    ∧ log w'
      = log w
        ++ [(INFO, "Processing file: " +:+ name input_file);
            (INFO, "Converted " +:+ pretty (length elements) +:+ " elements from JSON");
            (INFO, "Created " +:+ pretty (length chunks) +:+ " chunks");
            (ERROR, "Error processing " +:+ name input_file
                    +:+ ": [Errno 28] No space left on device")]
    ∧ files w' !! {| parent := out;
                     name := PurePath.stem (PurePath.stem (name input_file))
                             +:+ ".chunks.json" |}
      = Some [Cut [Dumped (JList (chunk_records (clock w) (ticks w) 0 chunks
                                    (name input_file)))]].
Proof.
  intros Hfile Htruthy Hconv Hchunks Hbudget Hname Hdot.
  unfold process_file, try_except, mbind, M_bind; simpl.
  unfold IO.load_json; simpl. rewrite Hfile; simpl.
  rewrite Htruthy; simpl. rewrite Hconv; simpl. rewrite Hchunks; simpl.
  rewrite (joinpath_name out _ (stem_nonempty _ Hname) Hdot).
  match goal with |- context [save_chunks ?c ?o ?n ?w0] =>
    pose proof (log_stable_save_chunks c o n w0) as Hlog;
    pose proof (save_chunks_json_fails c o n w0 (stem_nonempty _ Hname) Hbudget) as Heff;
    destruct (save_chunks c o n w0) as [r w1]
  end.
  cbn in Heff, Hlog. destruct Heff as (-> & Hjson).
  eexists; split; [reflexivity|]. cbn. rewrite Hlog.
  split; [rewrite <- !app_assoc; reflexivity | exact Hjson].
Qed.

Lemma process_file_device_error_witness :
  let input_file := Demo.path (input_dir Demo.here) "report.pdf.json" in
  let record := JDict {[ "type" := JStr "Title"; "text" := JStr "Intro" ]} in
  let w := Demo.world_of {[ input_file := [Dumped (JList [record])] ]} (Some 0) in
  let config := {| max_characters := 1000; new_after_n_chars := 800;
                   combine_text_under_n_chars := 200; overlap := 50;
                   overlap_all := false; multipage_sections := true |} in
  ∃ w' content,
    process_file Demo.lib input_file (output_dir Demo.here) config w = (Ok false, w')
    ∧ files w' !! Demo.path (output_dir Demo.here) "report.chunks.json"
      = Some [Cut [Dumped content]].
Proof.
  intros input_file record w config.
  destruct (process_file_device_error Demo.lib input_file (output_dir Demo.here) config w
              (JList [record])
              match json_to_elements Demo.lib (JList [record]) with
              | Ok l => l
              | Raise _ => []
              end
              match Demo.chunker
                      match json_to_elements Demo.lib (JList [record]) with
                      | Ok l => l
                      | Raise _ => []
                      end 0 0 0 0 false false with
              | Ok l => l
              | Raise _ => []
              end
              eq_refl eq_refl eq_refl eq_refl eq_refl ltac:(discriminate)
              ltac:(vm_compute; discriminate))
    as (w' & Hrun & _ & Hjson).
  exists w'. eexists. split; [exact Hrun | exact Hjson].
Defined.

(** ** What [main] leaves alone

    The files are those the script opens itself; the records of the logger
    are in the log of the world. *)

Section WritesOnly.

Variable allowed : Path -> Prop.

Lemma writes_only_ret {A} (a : A) : writes_only allowed (mret a).
Proof. intros w p _; reflexivity. Qed.

Lemma writes_only_lift {A} (r : res A) : writes_only allowed (lift r).
Proof. intros w p _; reflexivity. Qed.

Lemma writes_only_bind {A B} (m : M A) (f : A -> M B) :
  writes_only allowed m ->
  (∀ a w, (m w).1 = Ok a -> writes_only allowed (f a)) ->
  writes_only allowed (m ≫= f).
Proof.
  intros Hm Hf w p Hp. unfold mbind, M_bind.
  specialize (Hm w p Hp). pose proof (λ a, Hf a w) as Hf'.
  destruct (m w) as [[a|e] w1]; simpl in *; [|exact Hm].
  rewrite (Hf' a eq_refl w1 p Hp). exact Hm.
Qed.

Lemma writes_only_try_except {A} (body : M A) (handler : exn -> M A) :
  writes_only allowed body ->
  (∀ e, writes_only allowed (handler e)) ->
  writes_only allowed (try_except body handler).
Proof.
  intros Hb Hh w p Hp. unfold try_except.
  specialize (Hb w p Hp).
  destruct (body w) as [[a|e] w1]; simpl in *; [exact Hb|].
  rewrite (Hh e w1 p Hp). exact Hb.
Qed.

Lemma writes_only_emit lv msg : writes_only allowed (Logger.emit lv msg).
Proof. intros w p _; reflexivity. Qed.

Lemma writes_only_setup_logging : writes_only allowed setup_logging.
Proof. intros w p _. unfold setup_logging. destruct (logging_error w); reflexivity. Qed.

Lemma writes_only_mkdir dir : writes_only allowed (IO.mkdir dir).
Proof. intros w p _. unfold IO.mkdir. destruct (files w !! _); reflexivity. Qed.

Lemma writes_only_glob d sfx : writes_only allowed (IO.glob d sfx).
Proof. intros w p _; reflexivity. Qed.

Lemma writes_only_load_json f : writes_only allowed (IO.load_json f).
Proof. intros w p _. unfold IO.load_json. destruct (files w !! f); reflexivity. Qed.

Lemma writes_only_now : writes_only allowed IO.now_isoformat.
Proof. intros w p _; reflexivity. Qed.

Lemma writes_only_open_w f : allowed f -> writes_only allowed (IO.open_w f).
Proof.
  intros Hf w p Hp. unfold IO.open_w; simpl.
  apply lookup_insert_ne. intros ->. contradiction.
Qed.

Lemma writes_only_write f s : allowed f -> writes_only allowed (IO.write f s).
Proof.
  intros Hf w p Hp. unfold IO.write; simpl.
  apply lookup_insert_ne; intros ->; contradiction.
Qed.

Lemma writes_only_json_dump v f : allowed f -> writes_only allowed (IO.json_dump v f).
Proof.
  intros Hf w p Hp. unfold IO.json_dump; simpl.
  apply lookup_insert_ne; intros ->; contradiction.
Qed.

Lemma writes_only_close f : allowed f -> writes_only allowed (IO.close f).
Proof.
  intros Hf w p Hp. unfold IO.close.
  destruct (io_budget w) as [[|n]|]; simpl; [|reflexivity|reflexivity].
  apply lookup_insert_ne; intros ->; contradiction.
Qed.

Lemma writes_only_json_output i chunks nm : writes_only allowed (json_output i chunks nm).
Proof.
  revert i; induction chunks as [|c chunks IH]; intros i; simpl.
  - apply writes_only_ret.
  - apply writes_only_bind; [apply writes_only_now|]; intros t _ _.
    apply writes_only_bind; [apply IH|]; intros rs _ _.
    apply writes_only_ret.
Qed.

Lemma writes_only_write_all f lines :
  allowed f -> writes_only allowed (write_all f lines).
Proof.
  intros Hf. induction lines as [|s lines IH]; simpl.
  - apply writes_only_ret.
  - apply writes_only_bind; [apply writes_only_write; exact Hf | intros _ _ _; exact IH].
Qed.

Lemma with_suffix_target (output_file f : Path) sfx :
  sfx = ".chunks.json" ∨ sfx = ".chunks.txt" ->
  PurePath.with_suffix output_file sfx = Ok f -> target_of output_file f.
Proof.
  unfold PurePath.with_suffix, target_of.
  destruct (String.eqb (name output_file) ""); [discriminate|].
  intros Hsfx [= <-]. simpl. split; [reflexivity|].
  destruct Hsfx as [-> | ->]; auto.
Qed.

Lemma writes_only_save_chunks chunks (output_file : Path) nm :
  (∀ p, target_of output_file p -> allowed p) ->
  writes_only allowed (save_chunks chunks output_file nm).
Proof.
  intros Hdir. unfold save_chunks.
  apply writes_only_bind; [apply writes_only_json_output|]; intros rs _ _.
  apply writes_only_bind; [apply writes_only_lift|]; intros jf w0 Hjf.
  apply with_suffix_target, Hdir in Hjf; [|auto].
  apply writes_only_bind; [apply writes_only_open_w; exact Hjf|]; intros _ _ _.
  apply writes_only_bind; [apply writes_only_json_dump; exact Hjf|]; intros _ _ _.
  apply writes_only_bind; [apply writes_only_close; exact Hjf|]; intros _ _ _.
  apply writes_only_bind; [apply writes_only_lift|]; intros tf w1 Htf.
  apply with_suffix_target, Hdir in Htf; [|auto].
  apply writes_only_bind; [apply writes_only_open_w; exact Htf|]; intros _ _ _.
  apply writes_only_bind; [apply writes_only_write; exact Htf|]; intros _ _ _.
  apply writes_only_bind; [apply writes_only_write; exact Htf|]; intros _ _ _.
  apply writes_only_bind; [|intros _ _ _; apply writes_only_close; exact Htf].
  intros w p Hp. rewrite write_chunks_text_lines.
  apply writes_only_write_all; assumption.
Qed.

Variable lib : Unstructured.
Variable out : string.

Hypothesis targets_allowed : ∀ nm p, target_of (PurePath.joinpath out nm) p -> allowed p.

Lemma writes_only_process_file input_file config :
  writes_only allowed (process_file lib input_file out config).
Proof using targets_allowed.
  unfold process_file.
  apply writes_only_try_except.
  - apply writes_only_bind; [apply writes_only_emit|]; intros _ _ _.
    apply writes_only_bind; [apply writes_only_load_json|]; intros json_data _ _.
    destruct (negb (Py.truthy json_data)).
    + apply writes_only_bind; [apply writes_only_emit|]; intros _ _ _.
      apply writes_only_ret.
    + apply writes_only_bind; [apply writes_only_lift|]; intros elements _ _.
      apply writes_only_bind; [apply writes_only_emit|]; intros _ _ _.
      apply writes_only_bind; [apply writes_only_lift|]; intros chunks _ _.
      apply writes_only_bind; [apply writes_only_emit|]; intros _ _ _.
      apply writes_only_bind; [apply writes_only_save_chunks, targets_allowed|];
        intros _ _ _.
      apply writes_only_bind; [apply writes_only_emit|]; intros _ _ _.
      apply writes_only_ret.
  - intros e.
    apply writes_only_bind; [apply writes_only_emit|]; intros _ _ _.
    apply writes_only_ret.
Qed.

Lemma writes_only_count_successes json_files config success_count :
  writes_only allowed (count_successes lib json_files out config success_count).
Proof using targets_allowed.
  revert success_count; induction json_files as [|f rest IH]; intros n; simpl.
  - apply writes_only_ret.
  - apply writes_only_bind; [apply writes_only_process_file|]; intros ok _ _.
    apply IH.
Qed.

End WritesOnly.

Section OutputDir.
Import PyStrFacts.

Lemma rfind_append ch base sfx i :
  PyStr.rfind ch sfx = Some i ->
  PyStr.rfind ch (base +:+ sfx) = Some (String.length base + i).
Proof.
  intros H; induction base as [|c base IH]; [exact H|].
  rewrite append_cons; simpl; rewrite IH; reflexivity.
Qed.

Lemma slice_from_append (s t : string) : PyStr.slice_from (String.length s) (s +:+ t) = t.
Proof.
  induction s as [|c s IH]; [destruct t; reflexivity|].
  rewrite append_cons; simpl; exact IH.
Qed.

(** The output directory, as a path, is the entry [chunked_output] of the
    directory of the script. *)
Lemma of_str_output_dir current_dir :
  current_dir ≠ "" ->
  PurePath.of_str (output_dir current_dir)
  = {| parent := current_dir; name := "chunked_output" |}.
Proof.
  intros Hne. unfold output_dir, PurePath.joinpath, PurePath.to_str. simpl.
  destruct (String.eqb_spec current_dir "/") as [->|Hroot]; [reflexivity|].
  destruct (String.eqb_spec current_dir ".") as [->|Hdot]; [reflexivity|].
  unfold PurePath.of_str.
  change ("/" +:+ "chunked_output") with ("/chunked_output").
  rewrite (rfind_append "/"%char current_dir "/chunked_output" 0 eq_refl).
  rewrite Nat.add_0_r.
  destruct current_dir as [|c d]; [congruence|].
  cbn [String.length Nat.eqb].
  f_equal.
  - apply (slice_to_append (String c d)).
  - replace (S (S (String.length d))) with (String.length (String c d +:+ "/"))
      by (rewrite length_append; simpl; lia).
    replace (String c d +:+ "/chunked_output") with ((String c d +:+ "/") +:+ "chunked_output")
      by (rewrite append_assoc; reflexivity).
    apply slice_from_append.
Qed.

End OutputDir.

(** X7: whatever the input directory holds, whatever the chunker returns or
    raises and whenever the device fails, every file [main] opens for writing
    is in the directory [chunked_output], but for the two chunk files of an
    input whose stem is a single dot (the name [..json]), which are
    [chunked_output.chunks.json] and [chunked_output.chunks.txt] beside the
    directory.  The log of the logger apart, [main] creates, changes and
    removes no other file, and the converted documents it reads are as they
    were. *)
Theorem main_writes_within_output_dir
    (lib : Unstructured) (current_dir : string) (w : world) (p : Path) :
  current_dir ≠ "" ->
  parent p ≠ output_dir current_dir ->
  p ≠ {| parent := current_dir; name := "chunked_output.chunks.json" |} ->
  p ≠ {| parent := current_dir; name := "chunked_output.chunks.txt" |} ->
  files (main lib current_dir w).2 !! p = files w !! p.
Proof.
  intros Hne Hdir Hjson Htxt.
  set (allowed := λ q : Path,
         parent q = output_dir current_dir
         ∨ q = {| parent := current_dir; name := "chunked_output.chunks.json" |}
         ∨ q = {| parent := current_dir; name := "chunked_output.chunks.txt" |}).
  assert (Htargets : ∀ nm q,
            target_of (PurePath.joinpath (output_dir current_dir) nm) q -> allowed q).
  { intros nm q. unfold PurePath.joinpath.
    destruct (String.eqb nm "" || String.eqb nm ".").
    - rewrite (of_str_output_dir current_dir Hne).
      intros [Hparent Hname]. simpl in Hparent, Hname. right.
      destruct q as [qd qn]. simpl in *. subst qd.
      destruct Hname as [-> | ->]; [left | right]; reflexivity.
    - intros [Hparent _]. left. exact Hparent. }
  assert (Hmain : writes_only allowed (main lib current_dir)).
  { unfold main. cbv zeta.
    apply writes_only_bind; [apply writes_only_setup_logging|]; intros _ _ _.
    apply writes_only_bind; [apply writes_only_emit|]; intros _ _ _.
    apply writes_only_bind; [apply writes_only_mkdir|]; intros _ _ _.
    apply writes_only_bind; [apply writes_only_lift|]; intros config _ _.
    apply writes_only_bind; [apply writes_only_emit|]; intros _ _ _.
    apply writes_only_bind; [apply writes_only_glob|]; intros json_files _ _.
    destruct json_files as [|f rest]; [apply writes_only_emit|].
    apply writes_only_bind; [apply writes_only_emit|]; intros _ _ _.
    apply writes_only_bind;
      [apply writes_only_count_successes; exact Htargets|]; intros n _ _.
    apply writes_only_bind; [apply writes_only_emit|]; intros _ _ _.
    apply writes_only_emit. }
  apply Hmain. unfold allowed. intros [H | [H | H]]; contradiction.
Qed.

Lemma main_writes_within_output_dir_witness :
  let input_file := Demo.path (input_dir Demo.here) "report.pdf.json" in
  let record := JDict {[ "type" := JStr "Title"; "text" := JStr "Intro" ]} in
  let w := Demo.world_of {[ input_file := [Dumped (JList [record])] ]} (Some 1) in
  files (main Demo.lib Demo.here w).2 !! input_file = Some [Dumped (JList [record])].
Proof.
  intros input_file record w.
  rewrite (main_writes_within_output_dir Demo.lib Demo.here w input_file);
    [reflexivity | discriminate | vm_compute; discriminate | discriminate | discriminate].
Defined.

(** ** [load_chunked_files]: one bad record fails the whole load *)

Section LoadFailures.

(** Reading leaves the world as it is, whatever the outcome. *)
Lemma load_chunked_file_world json_file w : (load_chunked_file json_file w).2 = w.
Proof.
  unfold load_chunked_file, mbind, M_bind, IO.load_json, lift.
  destruct (files w !! json_file) as [content|]; [|reflexivity].
  destruct (IO.json_load _ content); reflexivity.
Qed.

Lemma load_chunked_files_from_world json_files w :
  (load_chunked_files_from json_files w).2 = w.
Proof.
  induction json_files as [|f rest IH]; [reflexivity|].
  simpl. unfold mbind, M_bind.
  pose proof (load_chunked_file_world f w) as Hf.
  destruct (load_chunked_file f w) as [[docs|e] w1]; simpl in Hf; subst w1; [|reflexivity].
  destruct (load_chunked_files_from rest w) as [[more|e] w2]; simpl in IH; subst w2;
    reflexivity.
Qed.

Lemma load_chunked_files_from_raises json_files json_file w e :
  json_file ∈ json_files ->
  (load_chunked_file json_file w).1 = Raise e ->
  ∃ e', load_chunked_files_from json_files w = (Raise e', w).
Proof.
  intros Hin Hraise. induction json_files as [|f rest IH].
  - apply elem_of_nil in Hin as [].
  - simpl. unfold mbind, M_bind.
    pose proof (load_chunked_file_world f w) as Hf.
    apply elem_of_cons in Hin as [<-|Hin].
    + destruct (load_chunked_file json_file w) as [[docs|e0] w1]; simpl in *;
        [discriminate|]. subst w1. eauto.
    + destruct (load_chunked_file f w) as [[docs|e0] w1]; simpl in Hf; subst w1;
        [|eauto].
      destruct (IH Hin) as [e' ->]. eauto.
Qed.

Lemma chunk_to_document_malformed json_file chunk :
  malformed chunk <-> ∃ e, chunk_to_document json_file chunk = Raise e.
Proof.
  split.
  - intros Hbad. unfold chunk_to_document.
    destruct chunk as [| | | | |l|d]; simpl; eauto.
    unfold Py.dict_get. simpl in Hbad.
    destruct (d !! "metadata") as [v|] eqn:Hmd.
    + destruct v as [| | | | |l|md]; simpl; eauto.
      destruct Hbad as [Ht|[(v & Ht & Hv)|(v & [= <-] & Hv)]].
      * rewrite Ht; simpl; eauto.
      * rewrite Ht; simpl. destruct v; simpl; eauto. exfalso; eapply Hv; reflexivity.
      * exfalso; eapply Hv; reflexivity.
    + destruct Hbad as [Ht|[(v & Ht & Hv)|(v & [=] & _)]].
      * rewrite Ht; simpl; eauto.
      * rewrite Ht; simpl. destruct v; simpl; eauto. exfalso; eapply Hv; reflexivity.
  - intros [e He].
    destruct chunk as [| | | | |l|d]; simpl; auto.
    destruct (d !! "text") as [t|] eqn:Ht; [|auto].
    right.
    destruct (d !! "metadata") as [v|] eqn:Hmd.
    + destruct v as [| | | | |l|md];
        try (right; eexists; split; [reflexivity | discriminate]).
      left. exists t; split; [reflexivity|]. intros s ->.
      unfold chunk_to_document in He; simpl in He. unfold Py.dict_get in He.
      rewrite Hmd, Ht in He. simpl in He. discriminate.
    + left. exists t; split; [reflexivity|]. intros s ->.
      unfold chunk_to_document in He; simpl in He. unfold Py.dict_get in He.
      rewrite Hmd, Ht in He. simpl in He. discriminate.
Qed.

End LoadFailures.

(** X8: [load_chunked_files] is all or nothing.  When one record of one
    chunks file of the directory is malformed (it is no object, its [text]
    is missing or no string, or its [metadata] is no object), the call
    raises, and the documents of the other records and files are not
    returned. *)
Theorem load_chunked_files_all_or_nothing
    (current_dir : string)
    (w : world) (json_file : Path) (chunks : list json) (chunk : json) :
  parent json_file = chunked_dir current_dir ->
  PyStr.endswith ".chunks.json" (name json_file) = true ->
  files w !! json_file = Some [Dumped (JList chunks)] ->
  chunk ∈ chunks ->
  malformed chunk ->
  ∃ e, load_chunked_files current_dir w = (Raise e, w).
Proof.
  intros Hdir Hsfx Hfile Hin Hbad.
  apply (chunk_to_document_malformed json_file) in Hbad as [e He].
  destruct (res_map_Raise _ _ _ _ Hin He) as [e' He'].
  assert (Hload : (load_chunked_file json_file w).1 = Raise e').
  { unfold load_chunked_file, mbind, M_bind, IO.load_json, lift.
    rewrite Hfile; simpl. rewrite He'. reflexivity. }
  assert (Hglob : json_file
                  ∈ match (IO.glob (chunked_dir current_dir) ".chunks.json" w).1 with
                    | Ok l => l
                    | Raise _ => []
                    end)
    by (apply glob_elem; rewrite Hfile; eauto).
  unfold load_chunked_files, mbind, M_bind.
  unfold IO.glob in *; simpl in *.
  eapply load_chunked_files_from_raises; eassumption.
Qed.

Lemma load_chunked_files_all_or_nothing_witness :
  let good := Demo.path (chunked_dir Demo.here) "a.chunks.json" in
  let bad := Demo.path (chunked_dir Demo.here) "b.chunks.json" in
  let record t := JDict {[ "text" := t; "metadata" := JDict ∅ ]} in
  let w := Demo.world_of
             {[ good := [Dumped (JList [record (JStr "one"); record (JStr "two")])];
                bad := [Dumped (JList [record (JStr "three"); record JNull])] ]} None in
  ∃ e, load_chunked_files Demo.here w = (Raise e, w).
Proof.
  intros good bad record w.
  apply (load_chunked_files_all_or_nothing Demo.here w bad
           [record (JStr "three"); record JNull] (record JNull)).
  - reflexivity.
  - reflexivity.
  - reflexivity.
  - apply elem_of_cons; right; apply elem_of_cons; left; reflexivity.
  - right; left. exists JNull. split; [reflexivity | discriminate].
Defined.

(** ** The question loop of [query.py] and [setupRAG.py] *)

Section QuestionLoop.

Variable ask : string -> list printed * option QAResult.

(** One turn of the loop on a line that is no sentinel. *)
Lemma question_loop_cons line rest :
  is_sentinel line = false ->
  question_loop ask (line :: rest)
  = ((shown_for ask line ++ (question_loop ask rest).1.1,
      (question_loop ask rest).1.2),
     (question_loop ask rest).2).
Proof.
  intros Hline. unfold is_sentinel in Hline.
  cbn [question_loop]. cbv zeta. rewrite Hline. unfold shown_for.
  destruct (question_loop ask rest) as [[out fin] unread].
  destruct (String.eqb (PyText.strip line) ""); reflexivity.
Qed.

End QuestionLoop.

(** X9: the question loop of both scripts answers the lines before the
    first sentinel ([quit], [exit] or [q], in any case and with any white
    space around) in their order, prompting before each and skipping the
    blank ones without a call of [ask_question]; at the sentinel it prints
    [Goodbye!] and returns, and the lines after it are not read. *)
Theorem question_loop_until_sentinel
    (ask : string -> list printed * option QAResult)
    (before : list string) (sentinel : string) (after : list string) :
  Forall (λ line, is_sentinel line = false) before ->
  is_sentinel sentinel = true ->
  question_loop ask (before ++ sentinel :: after)
  = (concat (shown_for ask <$> before)
       ++ [Prompt (nl +:+ "Your question: "); Print (Line "Goodbye!")],
     Return, after).
Proof.
  intros Hbefore Hsent. induction Hbefore as [|line before Hline _ IH].
  - unfold is_sentinel in Hsent. cbn [app question_loop]. cbv zeta.
    rewrite Hsent. reflexivity.
  - change ((line :: before) ++ sentinel :: after)
      with (line :: (before ++ sentinel :: after)).
    rewrite (question_loop_cons ask line _ Hline), IH.
    cbn [fst snd fmap list_fmap concat]. rewrite <- app_assoc. reflexivity.
Qed.

Lemma question_loop_until_sentinel_witness :
  let ask := Query.ask_question None in
  question_loop ask ["What is a chunk?"; "   "; " Quit "; "never read"]
  = ([Prompt (nl +:+ "Your question: "); Print (Line "RAG system not initialized");
      Prompt (nl +:+ "Your question: ");
      Prompt (nl +:+ "Your question: "); Print (Line "Goodbye!")],
     Return, ["never read"]).
Proof.
  intros ask.
  apply (question_loop_until_sentinel ask ["What is a chunk?"; "   "] " Quit "
           ["never read"]).
  - repeat constructor.
  - reflexivity.
Defined.

(** X10: when the standard input ends before a sentinel is read, the loop
    of both scripts answers every line, prompts once more and ends with the
    [EOFError] of [input], which no handler of the scripts catches. *)
Theorem question_loop_end_of_input
    (ask : string -> list printed * option QAResult) (stdin : list string) :
  Forall (λ line, is_sentinel line = false) stdin ->
  question_loop ask stdin
  = (concat (shown_for ask <$> stdin) ++ [Prompt (nl +:+ "Your question: ")],
     RaiseEOF, []).
Proof.
  intros Hstdin. induction Hstdin as [|line stdin Hline _ IH].
  - reflexivity.
  - rewrite (question_loop_cons ask line _ Hline), IH.
    cbn [fst snd fmap list_fmap concat]. rewrite <- app_assoc. reflexivity.
Qed.

Lemma question_loop_end_of_input_witness :
  let ask := Query.ask_question None in
  question_loop ask ["quit now"; ""]
  = ([Prompt (nl +:+ "Your question: "); Print (Line "RAG system not initialized");
      Prompt (nl +:+ "Your question: ");
      Prompt (nl +:+ "Your question: ")],
     RaiseEOF, []).
Proof.
  intros ask.
  apply (question_loop_end_of_input ask ["quit now"; ""]).
  repeat constructor.
Defined.

(** ** [.env] lines *)

Module PyTextFacts.
Import PyText.

Section Strip.

Variable drop : ascii -> bool.

Lemma lstrip_by_all s t : all_of drop s = true -> lstrip_by drop (s +:+ t) = lstrip_by drop t.
Proof.
  induction s as [|c s IH]; [reflexivity|].
  rewrite PyStrFacts.append_cons; simpl.
  destruct (drop c); [exact IH | discriminate].
Qed.

Lemma rstrip_by_all s : all_of drop s = true -> rstrip_by drop s = "".
Proof.
  induction s as [|c s IH]; [reflexivity|]. simpl.
  destruct (drop c); [|discriminate]. intros H; rewrite (IH H). reflexivity.
Qed.

Lemma rstrip_by_app_empty t s :
  rstrip_by drop s = "" -> rstrip_by drop (t +:+ s) = rstrip_by drop t.
Proof.
  intros Hs. induction t as [|c t IH]; [exact Hs|].
  rewrite PyStrFacts.append_cons; simpl. rewrite IH. reflexivity.
Qed.

Lemma rstrip_by_app a b :
  rstrip_by drop b ≠ "" -> rstrip_by drop (a +:+ b) = a +:+ rstrip_by drop b.
Proof.
  intros Hb. induction a as [|c a IH]; [reflexivity|].
  rewrite !PyStrFacts.append_cons; simpl. rewrite IH.
  destruct a as [|c' a]; [|rewrite PyStrFacts.append_cons; reflexivity].
  change ("" +:+ rstrip_by drop b) with (rstrip_by drop b).
  destruct (rstrip_by drop b); [contradiction | reflexivity].
Qed.

Lemma rstrip_by_cons c s :
  drop c = false -> rstrip_by drop (String c s) = String c (rstrip_by drop s).
Proof. intros Hc; simpl. rewrite Hc. destruct (rstrip_by drop s); reflexivity. Qed.

Lemma length_lstrip_by s : String.length (lstrip_by drop s) <= String.length s.
Proof. induction s as [|c s IH]; simpl; [lia|]. destruct (drop c); simpl; lia. Qed.

Lemma length_rstrip_by s : String.length (rstrip_by drop s) <= String.length s.
Proof.
  induction s as [|c s IH]; simpl; [lia|].
  destruct (rstrip_by drop s); [destruct (drop c)|]; simpl in *; lia.
Qed.

Lemma rstrip_by_fixed s :
  String.length (rstrip_by drop s) = String.length s -> rstrip_by drop s = s.
Proof.
  induction s as [|c s IH]; [reflexivity|]. simpl.
  pose proof (length_rstrip_by s) as Hle.
  destruct (rstrip_by drop s) as [|c' r] eqn:Hr.
  - destruct (drop c); simpl; [lia|]. intros H.
    destruct s; [reflexivity | simpl in H; lia].
  - simpl. intros H. rewrite IH by (simpl in *; lia). reflexivity.
Qed.

(** A string that [strip_by] leaves alone and that is not empty starts
    with a character that stays, and has none to drop at its end. *)
Lemma strip_by_fixed s :
  strip_by drop s = s -> s ≠ "" ->
  ∃ c s', s = String c s' ∧ drop c = false ∧ rstrip_by drop s = s.
Proof.
  unfold strip_by. intros Hs Hne.
  assert (Hr : rstrip_by drop s = s).
  { apply rstrip_by_fixed.
    pose proof (length_lstrip_by (rstrip_by drop s)).
    pose proof (length_rstrip_by s). rewrite Hs in *. lia. }
  rewrite Hr in Hs.
  destruct s as [|c s']; [contradiction|].
  exists c, s'. split; [reflexivity|]. split; [|exact Hr].
  simpl in Hs. destruct (drop c); [|reflexivity].
  pose proof (length_lstrip_by s') as Hle. rewrite Hs in Hle. simpl in Hle. lia.
Qed.

(** What is dropped around a string that [strip_by] leaves alone is all
    that goes. *)
Lemma strip_by_around s1 x s2 :
  all_of drop s1 = true -> all_of drop s2 = true -> strip_by drop x = x ->
  strip_by drop (s1 +:+ x +:+ s2) = x.
Proof.
  intros H1 H2 Hx. unfold strip_by.
  destruct (string_dec x "") as [->|Hne].
  - change ("" +:+ s2) with s2.
    rewrite (rstrip_by_app_empty s1 s2 (rstrip_by_all _ H2)).
    rewrite (rstrip_by_all _ H1). reflexivity.
  - destruct (strip_by_fixed x Hx Hne) as (c & x' & -> & Hc & Hr).
    rewrite (rstrip_by_app s1)
      by (rewrite (rstrip_by_app_empty _ s2 (rstrip_by_all _ H2)), Hr; discriminate).
    rewrite (rstrip_by_app_empty _ s2 (rstrip_by_all _ H2)), Hr.
    rewrite (lstrip_by_all _ _ H1). simpl. rewrite Hc. reflexivity.
Qed.

(** A string that starts with a character that stays and ends in a part
    that [rstrip_by] leaves alone is left alone. *)
Lemma strip_by_kept c m b :
  drop c = false -> rstrip_by drop b = b -> b ≠ "" ->
  strip_by drop (String c (m +:+ b)) = String c (m +:+ b).
Proof.
  intros Hc Hb Hne. unfold strip_by.
  rewrite (rstrip_by_cons _ _ Hc).
  rewrite (rstrip_by_app m b) by (rewrite Hb; exact Hne).
  rewrite Hb. simpl. rewrite Hc. reflexivity.
Qed.

(** A string between two characters that go is stripped as on its own. *)
Lemma strip_by_wrapped c m :
  drop c = true ->
  strip_by drop (String c (m +:+ String c "")) = strip_by drop m.
Proof.
  intros Hc. unfold strip_by.
  assert (Hm : rstrip_by drop (m +:+ String c "") = rstrip_by drop m)
    by (apply rstrip_by_app_empty; simpl; rewrite Hc; reflexivity).
  cbn [rstrip_by]. rewrite Hm.
  destruct (rstrip_by drop m) as [|c' r]; rewrite ?Hc; cbn [lstrip_by]; rewrite ?Hc;
    reflexivity.
Qed.

Lemma contains_lstrip_by ch s :
  contains ch (lstrip_by drop s) = true -> contains ch s = true.
Proof.
  induction s as [|c s IH]; [discriminate|]. simpl.
  destruct (drop c); [|exact id]. intros H. rewrite (IH H). apply orb_true_r.
Qed.

Lemma contains_rstrip_by ch s :
  contains ch (rstrip_by drop s) = true -> contains ch s = true.
Proof.
  induction s as [|c s IH]; [discriminate|]. simpl.
  destruct (rstrip_by drop s) as [|c' r].
  - destruct (drop c); [discriminate|]. simpl. rewrite orb_false_r.
    intros ->. reflexivity.
  - simpl in *. destruct (Ascii.eqb c ch); [reflexivity|]. simpl. exact IH.
Qed.

Lemma contains_strip_by ch s :
  contains ch s = false -> contains ch (strip_by drop s) = false.
Proof.
  intros H. destruct (contains ch (strip_by drop s)) eqn:E; [|reflexivity].
  apply contains_lstrip_by, contains_rstrip_by in E. congruence.
Qed.

End Strip.

Lemma contains_app ch a b : contains ch (a +:+ b) = contains ch a || contains ch b.
Proof.
  induction a as [|c a IH]; [reflexivity|].
  rewrite PyStrFacts.append_cons; simpl. rewrite IH. apply orb_assoc.
Qed.

Lemma split1_app ch a b :
  contains ch a = false -> split1 ch (a +:+ String ch b) = Some (a, b).
Proof.
  induction a as [|c a IH].
  - intros _. change ("" +:+ String ch b) with (String ch b). simpl.
    rewrite Ascii.eqb_refl. reflexivity.
  - rewrite PyStrFacts.append_cons; simpl.
    destruct (Ascii.eqb c ch); [discriminate|]. simpl.
    intros H; rewrite (IH H). reflexivity.
Qed.

Lemma blank_app s t : blank s -> blank t -> blank (s +:+ t).
Proof.
  unfold blank. intros Hs Ht. induction s as [|c s IH]; [exact Ht|].
  rewrite PyStrFacts.append_cons. simpl in *.
  apply andb_true_iff in Hs as [-> Hs]. exact (IH Hs).
Qed.

Lemma blank_contains ch s : PyStr.isspace ch = false -> blank s -> contains ch s = false.
Proof.
  unfold blank. intros Hch. induction s as [|c s IH]; [reflexivity|]. simpl.
  intros H. apply andb_true_iff in H as [Hc Hs]. rewrite (IH Hs), orb_false_r.
  destruct (Ascii.eqb_spec c ch); [congruence | reflexivity].
Qed.

End PyTextFacts.

Section EnvLines.

Lemma blank_no_equals s : blank s -> PyText.contains "="%char s = false.
Proof. apply PyTextFacts.blank_contains. reflexivity. Qed.

Lemma unquote_no_nul raw :
  PyText.contains (ascii_of_nat 0) raw = false -> PyText.contains (ascii_of_nat 0) (unquote raw) = false.
Proof.
  intros H. unfold unquote, PyText.strip_char.
  apply PyTextFacts.contains_strip_by, PyTextFacts.contains_strip_by, H.
Qed.

Lemma environ_set_Ok k value environ :
  env_name k -> PyText.contains (ascii_of_nat 0) value = false ->
  environ_set k value environ = Ok (<[k := value]> environ).
Proof.
  intros (Hne & _ & Heq & _ & Hnul) Hv. unfold environ_set.
  rewrite Hnul, Hv, Heq. simpl.
  destruct (String.eqb_spec k ""); [contradiction | reflexivity].
Qed.

(** What [strip] leaves of an assignment line. *)
Lemma strip_assignment s1 k s2 s3 raw s4 :
  blank s1 -> blank s2 -> blank s3 -> blank s4 -> env_name k -> trimmed raw ->
  PyText.strip (s1 +:+ k +:+ s2 +:+ "=" +:+ s3 +:+ raw +:+ s4)
  = (k +:+ s2) +:+ String "="%char (if String.eqb raw "" then "" else s3 +:+ raw).
Proof.
  intros H1 H2 H3 H4 (Hne & Hk & _) Hraw.
  destruct (PyTextFacts.strip_by_fixed _ k Hk Hne) as (c & k' & -> & Hc & _).
  destruct (String.eqb_spec raw "") as [->|Hr].
  - replace (s1 +:+ String c k' +:+ s2 +:+ "=" +:+ s3 +:+ "" +:+ s4)
      with (s1 +:+ String c ((k' +:+ s2) +:+ "=") +:+ (s3 +:+ s4))
      by (rewrite !PyStrFacts.append_cons, !PyStrFacts.append_assoc; reflexivity).
    unfold PyText.strip.
    rewrite PyTextFacts.strip_by_around;
      [ rewrite !PyStrFacts.append_cons; reflexivity
      | exact H1
      | apply PyTextFacts.blank_app; assumption
      | apply PyTextFacts.strip_by_kept; [exact Hc | reflexivity | discriminate] ].
  - destruct (PyTextFacts.strip_by_fixed _ raw Hraw Hr) as (d & raw' & -> & Hd & Hfix).
    replace (s1 +:+ String c k' +:+ s2 +:+ "=" +:+ s3 +:+ String d raw' +:+ s4)
      with (s1 +:+ String c ((k' +:+ s2 +:+ "=" +:+ s3) +:+ String d raw') +:+ s4)
      by (rewrite !PyStrFacts.append_cons, !PyStrFacts.append_assoc; reflexivity).
    unfold PyText.strip.
    rewrite PyTextFacts.strip_by_around;
      [ rewrite !PyStrFacts.append_cons, !PyStrFacts.append_assoc; reflexivity
      | exact H1
      | exact H4
      | apply PyTextFacts.strip_by_kept; [exact Hc | exact Hfix | discriminate] ].
Qed.

(** An assignment line sets its name to what is left of the text after
    the first equals sign. *)
Lemma load_env_line_sets environ s1 k s2 s3 raw s4 :
  blank s1 -> blank s2 -> blank s3 -> blank s4 ->
  env_name k -> trimmed raw -> PyText.contains (ascii_of_nat 0) raw = false ->
  load_env_line environ (s1 +:+ k +:+ s2 +:+ "=" +:+ s3 +:+ raw +:+ s4)
  = Ok (<[k := unquote raw]> environ).
Proof.
  intros H1 H2 H3 H4 Hk Hraw Hnul. unfold load_env_line. cbv zeta.
  rewrite (strip_assignment s1 k s2 s3 raw s4 H1 H2 H3 H4 Hk Hraw).
  pose proof Hk as (Hne & Hkt & Heq & Hhash & _).
  assert (Hsplit : PyText.contains "="%char (k +:+ s2) = false)
    by (rewrite PyTextFacts.contains_app, Heq, (blank_no_equals s2 H2); reflexivity).
  rewrite (PyTextFacts.split1_app _ _ _ Hsplit).
  rewrite PyTextFacts.contains_app. simpl PyText.contains at 2.
  rewrite orb_true_r, andb_true_r.
  destruct k as [|c k']; [contradiction|].
  rewrite !PyStrFacts.append_cons. cbn [String.eqb negb andb].
  cbn [PyText.startswith] in Hhash |- *. rewrite Hhash. cbn [negb].
  replace (PyText.strip (String c (k' +:+ s2))) with (String c k').
  2:{ symmetry. unfold PyText.strip.
      apply (PyTextFacts.strip_by_around _ "" (String c k') s2 eq_refl H2 Hkt). }
  replace (PyText.strip (if String.eqb raw "" then "" else s3 +:+ raw)) with raw.
  2:{ symmetry. destruct (String.eqb_spec raw "") as [->|_]; [reflexivity|].
      unfold PyText.strip.
      rewrite <- (PyStrFacts.append_nil_r raw) at 1.
      apply (PyTextFacts.strip_by_around _ s3 raw "" H3 eq_refl Hraw). }
  apply environ_set_Ok; [exact Hk | apply unquote_no_nul, Hnul].
Qed.

End EnvLines.

Section EnvFile.

Lemma load_env_line_skips environ line :
  not_assignment line = true -> load_env_line environ line = Ok environ.
Proof.
  unfold not_assignment, load_env_line. cbv zeta. intros H.
  destruct (String.eqb (PyText.strip line) ""); [reflexivity|].
  destruct (PyText.startswith "#" (PyText.strip line)); [reflexivity|].
  destruct (PyText.contains "="%char (PyText.strip line)); [discriminate | reflexivity].
Qed.

Lemma load_env_lines_skips environ lines :
  Forall (λ line, not_assignment line = true) lines ->
  load_env_lines lines environ = Ok environ.
Proof.
  induction 1 as [|line lines Hline _ IH]; [reflexivity|].
  simpl. rewrite (load_env_line_skips _ _ Hline). exact IH.
Qed.

Lemma load_env_lines_app l1 l2 environ :
  load_env_lines (l1 ++ l2) environ
  = res_bind (load_env_lines l1 environ) (load_env_lines l2).
Proof.
  revert environ; induction l1 as [|line l1 IH]; intros environ; [reflexivity|].
  simpl. destruct (load_env_line environ line); [apply IH | reflexivity].
Qed.

Lemma trimmed_quoted q v : PyStr.isspace q = false -> trimmed (quoted q v).
Proof.
  intros Hq. apply PyTextFacts.strip_by_kept; [exact Hq | | discriminate].
  simpl. rewrite Hq. reflexivity.
Qed.

Lemma unquote_plain v :
  PyText.strip_char double_quote v = v -> PyText.strip_char "'"%char v = v ->
  unquote v = v
  ∧ unquote (quoted double_quote v) = v
  ∧ unquote (quoted "'"%char v) = v.
Proof.
  intros Hd Hs. unfold unquote, quoted, PyText.strip_char in *. repeat split.
  - rewrite Hd. exact Hs.
  - rewrite PyTextFacts.strip_by_wrapped by reflexivity. rewrite Hd. exact Hs.
  - rewrite PyTextFacts.strip_by_kept by (reflexivity || discriminate).
    rewrite PyTextFacts.strip_by_wrapped by reflexivity. exact Hs.
Qed.

End EnvFile.

(** X11: a line of [.env] of the form [name=value], with white space at
    any of its ends and around the equals sign, sets the variable [name] to
    [value].  The value may stand bare, between double quotes or between
    single quotes; between quotes it keeps the white space at its ends. *)
Theorem load_env_line_assigns
    (environ : gmap string string) (s1 k s2 s3 raw v s4 : string) :
  blank s1 -> blank s2 -> blank s3 -> blank s4 ->
  env_name k ->
  PyText.strip_char double_quote v = v -> PyText.strip_char "'"%char v = v ->
  PyText.contains (ascii_of_nat 0) v = false ->
  (raw = v ∧ trimmed v) ∨ raw = quoted double_quote v ∨ raw = quoted "'"%char v ->
  load_env_line environ (s1 +:+ k +:+ s2 +:+ "=" +:+ s3 +:+ raw +:+ s4)
  = Ok (<[k := v]> environ).
Proof.
  intros H1 H2 H3 H4 Hk Hd Hs Hnul Hraw.
  destruct (unquote_plain v Hd Hs) as (Hbare & Hdq & Hsq).
  assert (Hq : ∀ q, q ≠ ascii_of_nat 0 ->
                 PyText.contains (ascii_of_nat 0) (quoted q v) = false).
  { intros q Hq0. unfold quoted. simpl.
    rewrite PyTextFacts.contains_app, Hnul. simpl.
    destruct (Ascii.eqb_spec q (ascii_of_nat 0)); [contradiction | reflexivity]. }
  assert (Hset : trimmed raw ∧ PyText.contains (ascii_of_nat 0) raw = false
                 ∧ unquote raw = v).
  { destruct Hraw as [[-> Hv]|[->| ->]].
    - auto.
    - split; [apply trimmed_quoted; reflexivity|].
      split; [apply Hq; discriminate | exact Hdq].
    - split; [apply trimmed_quoted; reflexivity|].
      split; [apply Hq; discriminate | exact Hsq]. }
  destruct Hset as (Htrim & Hnul' & Hun).
  rewrite (load_env_line_sets environ s1 k s2 s3 raw s4 H1 H2 H3 H4 Hk Htrim Hnul').
  rewrite Hun. reflexivity.
Qed.

Lemma load_env_line_assigns_witness :
  load_env_line ∅ ("  OPENAI_API_KEY = " +:+ quoted double_quote " sk-1 " +:+ nl)
  = Ok {[ "OPENAI_API_KEY" := " sk-1 " ]}.
Proof.
  apply (load_env_line_assigns ∅ "  " "OPENAI_API_KEY" " " " "
           (quoted double_quote " sk-1 ") " sk-1 " nl);
    try reflexivity.
  - repeat split; discriminate.
  - right; left; reflexivity.
Defined.

(** X12: the last assignment of a name in [.env] decides its value: it
    replaces what the lines before it gave the name and what the process
    had for it, and the comments, the blank lines and the lines without an
    equals sign after it change nothing.  What follows the first equals sign
    is the value, with the white space and then the quotes at its ends
    removed. *)
Theorem load_env_file_last_assignment
    (environ before_env : gmap string string)
    (before after : list string) (s1 k s2 s3 raw s4 : string) :
  load_env_lines before environ = Ok before_env ->
  blank s1 -> blank s2 -> blank s3 -> blank s4 ->
  env_name k -> trimmed raw -> PyText.contains (ascii_of_nat 0) raw = false ->
  Forall (λ line, not_assignment line = true) after ->
  load_env_file
    (Some (before ++ (s1 +:+ k +:+ s2 +:+ "=" +:+ s3 +:+ raw +:+ s4) :: after)) environ
  = Ok (<[k := unquote raw]> before_env).
Proof.
  intros Hbefore H1 H2 H3 H4 Hk Hraw Hnul Hafter.
  unfold load_env_file. rewrite load_env_lines_app, Hbefore.
  cbn [res_bind load_env_lines].
  rewrite (load_env_line_sets before_env s1 k s2 s3 raw s4 H1 H2 H3 H4 Hk Hraw Hnul).
  cbn [res_bind]. apply load_env_lines_skips, Hafter.
Qed.

Lemma load_env_file_last_assignment_witness :
  ∃ environ,
    load_env_file
      (Some ["MODEL=small" +:+ nl; "MODEL=large # the big one" +:+ nl;
             "# MODEL=tiny" +:+ nl; nl; "export MODEL" +:+ nl])
      {[ "MODEL" := "from the shell" ]}
    = Ok environ
    ∧ environ !! "MODEL" = Some "large # the big one".
Proof.
  eexists. split.
  - apply (load_env_file_last_assignment
             {[ "MODEL" := "from the shell" ]}
             (<["MODEL" := "small"]> {[ "MODEL" := "from the shell" ]})
             ["MODEL=small" +:+ nl]
             ["# MODEL=tiny" +:+ nl; nl; "export MODEL" +:+ nl]
             "" "MODEL" "" "" "large # the big one" nl);
      try reflexivity.
    + repeat split; discriminate.
    + repeat constructor.
  - apply lookup_insert_eq.
Defined.

(** ** The checks before the question loop *)

(** X13: a variable [OPENAI_API_KEY] that is unset or empty stops both
    scripts before anything else happens: [query.py] and [setupRAG.py] print
    their message and return, whatever the database, the chunk files and
    the libraries would have given, and no line of the input is read. *)
Theorem main_refuses_without_key (environ : gmap string string) :
  getenv_falsy environ "OPENAI_API_KEY" = true ->
  (∀ chroma_exists build stdin,
     QueryApp.main environ chroma_exists build stdin
     = (Print <$> [Line "Loading RAG system...";
                   Line "Error: OPENAI_API_KEY environment variable not set";
                   Line "Please add it to your .env file";
                   Line (nl +:+ "Setup Instructions:");
                   Line "1. Run 'python setupRAG.py' first to create the vector database";
                   Line "2. Ensure your .env file contains OPENAI_API_KEY"],
        Return, stdin))
  ∧ (∀ current_dir build w stdin,
       SetupRAGApp.main current_dir environ build w stdin
       = (Print <$> [Line "Setting up RAG system with OpenAI...";
                     Line "Warning: OPENAI_API_KEY environment variable not set";
                     Line "Please set it with: export OPENAI_API_KEY='your-api-key'"],
          Return, stdin)).
Proof.
  intros Hkey. split.
  - intros chroma_exists build stdin.
    unfold QueryApp.main, QueryApp.load_existing_rag_system.
    rewrite Hkey. reflexivity.
  - intros current_dir build w stdin.
    unfold SetupRAGApp.main, SetupRAGApp.setup_rag_system.
    rewrite Hkey. reflexivity.
Qed.

Lemma main_refuses_without_key_witness :
  let environ :=
    match load_env_file (Some ["OPENAI_API_KEY=" +:+ quoted double_quote "" +:+ nl])
            {[ "OPENAI_API_KEY" := "sk-from-the-shell" ]} with
    | Ok environ => environ
    | Raise _ => ∅
    end in
  environ !! "OPENAI_API_KEY" = Some ""
  ∧ ∀ stdin,
      (QueryApp.main environ true ([], Raise (OSError "not reached")) stdin).1.2 = Return.
Proof.
  intros environ. split; [reflexivity|].
  intros stdin.
  rewrite (proj1 (main_refuses_without_key environ eq_refl) true _ stdin).
  reflexivity.
Defined.

Section NoDocuments.

Lemma load_chunked_files_from_empty json_files w :
  (∀ json_file, json_file ∈ json_files ->
     files w !! json_file = Some [Dumped (JList [])]) ->
  load_chunked_files_from json_files w = (Ok [], w).
Proof.
  induction json_files as [|f rest IH]; intros Hall; [reflexivity|].
  simpl. unfold mbind, M_bind.
  assert (Hf : load_chunked_file f w = (Ok [], w)).
  { unfold load_chunked_file, mbind, M_bind, IO.load_json, lift.
    rewrite (Hall f) by (apply elem_of_cons; auto). reflexivity. }
  rewrite Hf, IH by (intros g Hg; apply Hall, elem_of_cons; auto).
  reflexivity.
Qed.

End NoDocuments.

(** X14: when the directory [chunked_output] holds no chunks file, or only
    chunks files with an empty list (what [save_chunks] writes for a
    document that gave no chunk), [setupRAG.py] reports that no documents
    were found and returns: the libraries are not called and no line of the
    input is read. *)
Theorem setup_main_without_documents
    (current_dir : string) (environ : gmap string string)
    (build : list Document -> list printed * res (string -> res QAResult))
    (w : world) (stdin : list string) :
  getenv_falsy environ "OPENAI_API_KEY" = false ->
  (∀ json_file content,
     files w !! json_file = Some content ->
     parent json_file = chunked_dir current_dir ->
     PyStr.endswith ".chunks.json" (name json_file) = true ->
     content = [Dumped (JList [])]) ->
  SetupRAGApp.main current_dir environ build w stdin
  = (Print <$> [Line "Setting up RAG system with OpenAI...";
                Line "Loading chunked documents...";
                Line "No documents found. Please run chunking.py first."],
     Return, stdin).
Proof.
  intros Hkey Hempty.
  assert (Hload : load_chunked_files current_dir w = (Ok [], w)).
  { unfold load_chunked_files, mbind, M_bind.
    pose proof (λ p, proj1 (glob_elem (chunked_dir current_dir) ".chunks.json" w p))
      as Hglob.
    destruct (IO.glob (chunked_dir current_dir) ".chunks.json" w)
      as [[json_files|e] w1] eqn:Hg; [|discriminate Hg].
    assert (w1 = w) by (unfold IO.glob in Hg; congruence). subst w1.
    apply load_chunked_files_from_empty. intros f Hf.
    destruct (Hglob f Hf) as (Hdir & Hsfx & content & Hfile).
    rewrite Hfile. f_equal. eapply Hempty; eassumption. }
  unfold SetupRAGApp.main, SetupRAGApp.setup_rag_system.
  rewrite Hkey, Hload. reflexivity.
Qed.

Lemma setup_main_without_documents_witness :
  let w := Demo.world_of
             {[ Demo.path (chunked_dir Demo.here) "report.chunks.json"
                  := [Dumped (JList [])];
                Demo.path (chunked_dir Demo.here) "report.chunks.txt"
                  := [Written "CHUNKED DOCUMENT"] ]}
             None in
  (SetupRAGApp.main Demo.here {[ "OPENAI_API_KEY" := "sk-1" ]}
     (λ _, ([], Raise (OSError "not reached"))) w ["What is a chunk?"]).2
  = ["What is a chunk?"].
Proof.
  intros w.
  rewrite (setup_main_without_documents Demo.here {[ "OPENAI_API_KEY" := "sk-1" ]}
             (λ _, ([], Raise (OSError "not reached"))) w ["What is a chunk?"]).
  - reflexivity.
  - vm_compute. reflexivity.
  - intros json_file content Hfile Hdir Hsfx.
    destruct json_file as [dir nm]. simpl in Hdir. subst dir.
    unfold w, Demo.world_of in Hfile. cbn [files] in Hfile.
    apply lookup_insert_Some in Hfile as [[_ <-]|[Hne Hfile]]; [reflexivity|].
    apply lookup_singleton_Some in Hfile as [Heq _].
    injection Heq as Hnm. subst nm. vm_compute in Hsfx. discriminate Hsfx.
Defined.
